(** * Sentence-pair similarity harness: a shallow embedding and its properties

    The development follows the cells of [Practica_Final_DL_NLP_MAM.ipynb]:
    data loading and label normalisation, tokenisation, the padding collator,
    the three scoring models (layer freezing, pooling, output shapes), the
    Pearson loss, the training loop with its best-checkpoint policy, and the
    inference rescaling.

    Numbers.  Scores, labels and validation metrics that are only compared,
    divided by a constant or copied are rationals ([Q]), so that the
    definitions run.  Tensor arithmetic that needs square roots, [exp] or an
    undefined quotient is carried out over the reals extended with the two
    infinities and a not-a-number value ([FVal.fval]); rounding is not
    modelled. *)

From Stdlib Require Import List String Ascii ZArith QArith Bool Lia Arith.
From Stdlib Require Import Reals Lra.
Import ListNotations.

Set Implicit Arguments.

Local Open Scope nat_scope.

(* ================================================================== *)
(** * Data loading and label normalisation *)
(* ================================================================== *)

Module Ingest.

Open Scope Q_scope.

(** A dataset in column form, as [datasets.Dataset] holds it and as the
    batched [map] callbacks receive it. *)
Record Dataset : Type := mkDataset
  { sentence1 : list string;
    sentence2 : list string;
    score     : list Q }.

(** A parsed CSV file: its header and the three columns the notebook uses. *)
Record DataFrame : Type := mkDataFrame
  { columns : list string;
    frame   : Dataset }.

(** What the notebook's [dataset] variable holds: a [DatasetDict] with the
    three benchmark partitions, or a single [Dataset]. *)
Inductive Loaded : Type :=
| DatasetDict (train validation test : Dataset)
| Single (d : Dataset).

(** [normalize_labels]: [examples["score"] = [s / 5.0 for s in examples["score"]]]. *)
Definition normalize_labels (examples : Dataset) : Dataset :=
  {| sentence1 := sentence1 examples;
     sentence2 := sentence2 examples;
     score     := map (fun s => s / 5) (score examples) |}.

(** The built-in technology sample of [load_custom_dataset]. *)
Definition sample_data : Dataset :=
  {| sentence1 :=
       [ "The new smartphone has a 120Hz display.";
         "AI algorithms improve processing speed.";
         "The laptop features a high-capacity SSD.";
         "Cloud computing enhances scalability.";
         "Quantum computers solve complex problems." ]%string;
     sentence2 :=
       [ "This phone offers a smooth 120Hz screen.";
         "Machine learning boosts performance.";
         "The notebook includes a fast SSD drive.";
         "Cloud services improve flexibility.";
         "Traditional computers handle simple tasks." ]%string;
     score := [ 48 # 10; 45 # 10; 47 # 10; 46 # 10; 2 ] |}.

Definition has_col (df : DataFrame) (c : string) : bool :=
  existsb (String.eqb c) (columns df).

(** Python truthiness of [csv_path]: [None] and the empty string are false. *)
Definition truthy (p : option string) : bool :=
  match p with
  | None => false
  | Some s => negb (String.eqb s "")
  end.

Section Sources.

(** The file system behind [pd.read_csv] and the hub behind [load_dataset]. *)
Variable read_csv : string -> DataFrame.
Variable load_dataset : string -> Loaded.

(** [load_custom_dataset(csv_path=None)]; [None] is the failed [assert]. *)
Definition load_custom_dataset (csv_path : option string) : option Dataset :=
    if truthy csv_path then
      match csv_path with
      | Some p =>
          let df := read_csv p in
          if forallb (has_col df) ["sentence1"; "sentence2"; "score"]%string
          then Some (normalize_labels (frame df))
          else None
      | None => None
      end
    else Some (normalize_labels sample_data).

(** The cell's last statement:
      [dataset = load_dataset("mteb/stsbenchmark-sts") if csv_path is None
                 else load_custom_dataset(csv_path)]. *)
Definition dataset (csv_path : option string) : option Loaded :=
    match csv_path with
    | None => Some (load_dataset "mteb/stsbenchmark-sts")
    | Some _ => option_map Single (load_custom_dataset csv_path)
    end.

End Sources.

(** The partitions of a loaded dataset and the labels they hold
    ([STSDataset.scores], returned as ['labels'] by [__getitem__]; the
    tokenisation step copies the [score] column unchanged). *)
Definition partitions (l : Loaded) : list Dataset :=
  match l with
  | DatasetDict tr va te => [tr; va; te]
  | Single d => [d]
  end.

Definition stored_labels (l : Loaded) : list Q :=
  flat_map score (partitions l).

(** The benchmark as the hub serves it, cut down to one pair per partition. *)
Definition stsb_excerpt : Loaded :=
  DatasetDict
    (mkDataset ["A plane is taking off."%string]
       ["An air plane is taking off."%string] [5])
    (mkDataset ["A man is playing a guitar."%string]
       ["A girl is playing a guitar."%string] [14 # 5])
    (mkDataset ["A girl is styling her hair."%string]
       ["A girl is brushing her hair."%string] [5 # 2]).

End Ingest.


(* ================================================================== *)
(** * Tensor values: reals with infinities and not-a-number *)
(* ================================================================== *)

Module FVal.

Open Scope R_scope.

(** The value of one tensor cell.  Finite values are exact reals; the three
    other values arise as IEEE arithmetic produces them (division by zero,
    indeterminate forms, square root of a negative number).  Rounding,
    overflow and underflow of the 32-bit floats are not part of the model:
    what is proved on it identifies the formula a function computes and
    the cells that are zero, infinite or not-a-number, not the last bit of
    a finite result. *)
Inductive fval : Type :=
| Fin (r : R)
| PInf
| NInf
| NaN.

(** The infinity of the given sign ([true] is positive). *)
Definition inf (positive : bool) : fval := if positive then PInf else NInf.

Definition fopp (x : fval) : fval :=
  match x with
  | Fin r => Fin (- r)
  | PInf => NInf
  | NInf => PInf
  | NaN => NaN
  end.

Definition fadd (x y : fval) : fval :=
  match x, y with
  | NaN, _ | _, NaN => NaN
  | Fin a, Fin b => Fin (a + b)
  | PInf, NInf | NInf, PInf => NaN
  | PInf, _ | _, PInf => PInf
  | NInf, _ | _, NInf => NInf
  end.

Definition fsub (x y : fval) : fval := fadd x (fopp y).

(** A finite factor times an infinity. *)
Definition scale_inf (a : R) (positive : bool) : fval :=
  if Req_dec_T a 0 then NaN
  else if Rlt_dec 0 a then inf positive else inf (negb positive).

Definition fmul (x y : fval) : fval :=
  match x, y with
  | NaN, _ | _, NaN => NaN
  | Fin a, Fin b => Fin (a * b)
  | Fin a, PInf | PInf, Fin a => scale_inf a true
  | Fin a, NInf | NInf, Fin a => scale_inf a false
  | PInf, PInf | NInf, NInf => PInf
  | PInf, NInf | NInf, PInf => NInf
  end.

(** Division: [0/0] and [inf/inf] are not-a-number, a non-zero finite value
    over zero is an infinity. *)
Definition fdiv (x y : fval) : fval :=
  match x, y with
  | NaN, _ | _, NaN => NaN
  | Fin a, Fin b =>
      if Req_dec_T b 0 then
        if Req_dec_T a 0 then NaN else inf (if Rlt_dec 0 a then true else false)
      else Fin (a / b)
  | Fin _, (PInf | NInf) => Fin 0
  | PInf, Fin b => if Rlt_dec b 0 then NInf else PInf
  | NInf, Fin b => if Rlt_dec b 0 then PInf else NInf
  | (PInf | NInf), (PInf | NInf) => NaN
  end.

Definition fsqrt (x : fval) : fval :=
  match x with
  | Fin a => if Rlt_dec a 0 then NaN else Fin (sqrt a)
  | PInf => PInf
  | NInf | NaN => NaN
  end.

(** [x ** 2]. *)
Definition fsquare (x : fval) : fval := fmul x x.

Definition is_nan (x : fval) : Prop := x = NaN.

End FVal.

(* ================================================================== *)
(** * The three architectures *)
(* ================================================================== *)

Module Arch.

(** The three model classes of the notebook. *)
Inductive arch : Type :=
| SentenceSimilarityModelOne
| SiameseBERT
| CrossAttentionModel.

(** The [models] table of the training cell, which pairs each model with
    the [model_type] string handed to [train_model]. *)
Definition model_type (a : arch) : string :=
  match a with
  | SentenceSimilarityModelOne => "bert"
  | SiameseBERT => "siamese"
  | CrossAttentionModel => "cross"
  end.

(** [isinstance(model, SiameseBERT)]. *)
Definition is_siamese (a : arch) : bool :=
  match a with
  | SiameseBERT => true
  | _ => false
  end.

End Arch.

(* ================================================================== *)
(** * One-dimensional tensors and the two training losses *)
(* ================================================================== *)

Module Tensor.

Import FVal.
Open Scope R_scope.

(** A tensor of at most one dimension, as the list of its cells; a
    zero-dimensional tensor is a list of one cell. *)
Definition tensor : Type := list fval.

(** A tensor of finite values. *)
Definition finite (xs : list R) : tensor := map Fin xs.

(** [torch.sum]. *)
Definition tsum (xs : tensor) : fval := fold_right fadd (Fin 0) xs.

(** [torch.mean]: the sum over the number of cells. *)
Definition tmean (xs : tensor) : fval :=
  fdiv (tsum xs) (Fin (INR (List.length xs))).

(** A tensor minus a zero-dimensional one. *)
Definition sub_scalar (xs : tensor) (m : fval) : tensor :=
  map (fun x => fsub x m) xs.

Fixpoint zip_with (f : fval -> fval -> fval) (xs ys : tensor) : tensor :=
  match xs, ys with
  | x :: xs', y :: ys' => f x y :: zip_with f xs' ys'
  | _, _ => []
  end.

(** A cell-wise binary operation under torch's broadcasting rule for one
    dimension: equal sizes, or one side of size 1; [None] is the
    [RuntimeError] raised for any other pair of sizes. *)
Definition broadcast (f : fval -> fval -> fval) (xs ys : tensor)
  : option tensor :=
  if Nat.eqb (List.length xs) (List.length ys) then Some (zip_with f xs ys)
  else match xs, ys with
       | [x], _ => Some (map (f x) ys)
       | _, [y] => Some (map (fun x => f x y) xs)
       | _, _ => None
       end.

(** [pearson_correlation_loss(outputs, targets)], line by line. *)
Definition pearson_correlation_loss (outputs targets : tensor)
  : option fval :=
  let outputs := sub_scalar outputs (tmean outputs) in
  let targets := sub_scalar targets (tmean targets) in
  let norm_outputs := fsqrt (tsum (map fsquare outputs)) in
  let norm_targets := fsqrt (tsum (map fsquare targets)) in
  match broadcast fmul outputs targets with
  | None => None
  | Some prod =>
      let correlation := fdiv (tsum prod) (fmul norm_outputs norm_targets) in
      Some (fsub (Fin 1) correlation)
  end.

(** [torch.nn.MSELoss()(outputs, labels)] with its default mean reduction. *)
Definition MSELoss (outputs labels : tensor) : option fval :=
  match broadcast fsub outputs labels with
  | None => None
  | Some d => Some (tmean (map fsquare d))
  end.

(** The loss of one training batch in [train_model]:
    [if model_type == "siamese": pearson_correlation_loss(outputs, labels)
     else: torch.nn.MSELoss()(outputs, labels)]. *)
Definition batch_loss (model_type : string) (outputs labels : tensor)
  : option fval :=
  if String.eqb model_type "siamese"
  then pearson_correlation_loss outputs labels
  else MSELoss outputs labels.

(** Every cell of [xs - xs.mean()], as the loss computes it, is zero. *)
Definition centred_to_zero (xs : tensor) : Prop :=
  Forall (fun x => x = Fin 0) (sub_scalar xs (tmean xs)).

(** A cell that is zero or not-a-number. *)
Definition zero_or_nan (x : fval) : Prop := x = Fin 0 \/ x = NaN.

(** Reference definitions, written from the textbook formulas rather than
    from the code, over plain reals. *)
Definition Rsum (xs : list R) : R := fold_right Rplus 0 xs.

Definition Rmean (xs : list R) : R := Rsum xs / INR (List.length xs).

Definition centred (xs : list R) : list R := map (fun x => x - Rmean xs) xs.

Definition sum_sq (xs : list R) : R := Rsum (map (fun x => x * x) xs).

(** Pearson's r of the paired samples: the sum of products of deviations
    over the square root of the product of the sums of squared deviations. *)
Definition pearson_r (b : list (R * R)) : R :=
  let xs := map fst b in
  let ys := map snd b in
  Rsum (map (fun p => (fst p - Rmean xs) * (snd p - Rmean ys)) b)
  / sqrt (sum_sq (centred xs) * sum_sq (centred ys)).

(** The mean of the squared differences of the paired samples. *)
Definition mean_squared_error (b : list (R * R)) : R :=
  Rsum (map (fun p => (fst p - snd p) * (fst p - snd p)) b) / INR (List.length b).

End Tensor.

(* ================================================================== *)
(** * Encoder construction: the layer-freezing loop *)
(* ================================================================== *)

Module Encoder.

Open Scope Z_scope.

(** A parameter tensor; only its [requires_grad] flag matters here. *)
Record Param : Type := mkParam { requires_grad : bool }.

(** The parameters of one module, in [parameters()] order. *)
Definition Params : Type := list Param.

(** The encoder as [AutoModel.from_pretrained] returns it. *)
Record Bert : Type := mkBert
  { embeddings    : Params;
    encoder_layer : list Params;
    pooler        : Params }.

(** A freshly loaded parameter is trainable. *)
Definition fresh (n : nat) : Params := repeat (mkParam true) n.

(** A BERT encoder with [num_hidden_layers] layers: five embedding tensors,
    sixteen tensors per layer, two pooler tensors. *)
Definition from_pretrained (num_hidden_layers : nat) : Bert :=
  {| embeddings    := fresh 5;
     encoder_layer := repeat (fresh 16) num_hidden_layers;
     pooler        := fresh 2 |}.

(** [for p in param.parameters(): p.requires_grad = False]. *)
Definition freeze (l : Params) : Params :=
  map (fun _ => mkParam false) l.

(** [for i, param in enumerate(layers): if i < (len(layers) - freeze_layers): ...],
    from index [i] on; [n] is [len(self.bert.encoder.layer)]. *)
Fixpoint freeze_loop (i : nat) (n : Z) (freeze_layers : Z)
  (layers : list Params) : list Params :=
  match layers with
  | [] => []
  | param :: rest =>
      (if Z.of_nat i <? n - freeze_layers then freeze param else param)
        :: freeze_loop (S i) n freeze_layers rest
  end.

(** The encoder part of the three [__init__] methods, which is the same
    code in each class. *)
Definition init_bert (num_hidden_layers : nat) (freeze_layers : Z) : Bert :=
  let bert := from_pretrained num_hidden_layers in
  {| embeddings    := embeddings bert;
     encoder_layer :=
       freeze_loop 0 (Z.of_nat (List.length (encoder_layer bert)))
         freeze_layers (encoder_layer bert);
     pooler        := pooler bert |}.

(** The default [freeze_layers] of each class. *)
Definition default_freeze_layers (a : Arch.arch) : Z :=
  match a with
  | Arch.SentenceSimilarityModelOne => 2
  | Arch.SiameseBERT => 0
  | Arch.CrossAttentionModel => 2
  end.

(** The indices of the encoder layers all of whose parameters are trainable. *)
Definition trainable_layer_indices (bert : Bert) : list nat :=
  filter (fun i => forallb requires_grad (nth i (encoder_layer bert) []))
    (seq 0 (List.length (encoder_layer bert))).

(** Reference definition of the policy as a function of the layer count and
    the freeze depth alone: layer [i] is trainable unless [i < N - f]. *)
Definition trainable_layers (N : nat) (f : Z) : list nat :=
  filter (fun i => negb (Z.of_nat i <? Z.of_nat N - f)) (seq 0 N).

End Encoder.

(* ================================================================== *)
(** * Masked mean pooling of [CrossAttentionModel.forward] *)
(* ================================================================== *)

Module Pooling.

Import FVal.
Open Scope R_scope.

(** One example of the encoder output together with its attention mask:
    per token, the hidden vector and the mask entry. *)
Definition Tokens : Type := list (list fval * Z).

(** Cell [d] of [(output * mask).sum(dim=1)] for one example. *)
Definition masked_sum (d : nat) (tokens : Tokens) : fval :=
  Tensor.tsum
    (map (fun t => fmul (nth d (fst t) (Fin 0)) (Fin (IZR (snd t)))) tokens).

(** Any cell of [mask.sum(dim=1)] for one example (the mask is expanded
    along the hidden dimension, so all cells are equal). *)
Definition mask_sum (tokens : Tokens) : Z :=
  fold_right Z.add 0%Z (map snd tokens).

(** [(output * mask).sum(dim=1) / mask.sum(dim=1)] for one example, with
    hidden size [D]. *)
Definition mean_pool (D : nat) (tokens : Tokens) : list fval :=
  map (fun d => fdiv (masked_sum d tokens) (Fin (IZR (mask_sum tokens))))
    (seq 0 D).

(** The same over a batch. *)
Definition mean_pool_batch (D : nat) (batch : list Tokens) : list (list fval) :=
  map (mean_pool D) batch.

End Pooling.

(* ================================================================== *)
(** * Tensor shapes through the three [forward] methods *)
(* ================================================================== *)

Module Shape.

Definition shape : Type := list nat.

(** Sequencing of steps that may raise; [None] is the raised exception. *)
Definition bind {A B : Type} (x : option A) (k : A -> option B) : option B :=
  match x with
  | Some a => k a
  | None => None
  end.

Notation "x <- c ;; k" := (bind c (fun x => k))
  (at level 61, c at next level, right associativity).

(** Hidden size of the MiniLM encoder. *)
Definition hidden : nat := 384.

(** [self.bert(ids, attention_mask=mask).last_hidden_state]. *)
Definition last_hidden_state (ids mask : shape) : option shape :=
  match ids, mask with
  | [b; l], [b'; l'] =>
      if Nat.eqb b b' && Nat.eqb l l' then Some [b; l; hidden] else None
  | _, _ => None
  end.

(** [t[:, 0, :]]. *)
Definition first_token (t : shape) : option shape :=
  match t with
  | [b; S _; d] => Some [b; d]
  | _ => None
  end.

(** [torch.cat([x, y, ...], dim=1)] of two-dimensional tensors. *)
Fixpoint cat_dim1 (ts : list shape) : option shape :=
  match ts with
  | [] => None
  | t :: rest =>
      match t, rest with
      | [b; d], [] => Some [b; d]
      | [b; d], _ =>
          r <- cat_dim1 rest ;;
          match r with
          | [b'; d'] => if Nat.eqb b b' then Some [b; d + d'] else None
          | _ => None
          end
      | _, _ => None
      end
  end.

(** [torch.nn.Linear(in_features, out_features)]. *)
Definition Linear (in_features out_features : nat) (t : shape) : option shape :=
  match rev t with
  | d :: r => if Nat.eqb d in_features then Some (rev (out_features :: r)) else None
  | [] => None
  end.

(** [t.squeeze()]: every dimension of size 1 is removed. *)
Definition squeeze (t : shape) : shape :=
  filter (fun d => negb (Nat.eqb d 1)) t.

(** [t.squeeze(0)] and [t.unsqueeze(0)]. *)
Definition squeeze0 (t : shape) : shape :=
  match t with
  | 1 :: r => r
  | _ => t
  end.

Definition unsqueeze0 (t : shape) : shape := 1 :: t.

(** [mask.unsqueeze(-1).expand_as(output)]. *)
Definition expand_mask (mask output : shape) : option shape :=
  match mask, output with
  | [b; l], [b'; l'; d] =>
      if Nat.eqb b b' && Nat.eqb l l' then Some output else None
  | _, _ => None
  end.

(** [t.sum(dim=1)]. *)
Definition sum_dim1 (t : shape) : option shape :=
  match t with
  | b :: _ :: r => Some (b :: r)
  | _ => None
  end.

(** The shape of a cell-wise operation ([-], [*], [/]) on two tensors under
    torch's broadcasting rule.  The shapes are aligned at their last
    dimension; two aligned dimensions must be equal unless one of them is
    1, and the result takes the other one; [None] is the [RuntimeError]
    raised otherwise.  [broadcast_aligned] works on the reversed shapes. *)
Fixpoint broadcast_aligned (x y : list nat) : option (list nat) :=
  match x, y with
  | [], _ => Some y
  | _, [] => Some x
  | a :: x', b :: y' =>
      r <- broadcast_aligned x' y' ;;
      if Nat.eqb a b then Some (a :: r)
      else if Nat.eqb a 1 then Some (b :: r)
      else if Nat.eqb b 1 then Some (a :: r)
      else None
  end.

Definition broadcast_shapes (x y : shape) : option shape :=
  r <- broadcast_aligned (rev x) (rev y) ;;
  Some (rev r).

(** [torch.nn.MultiheadAttention(embed_dim=384, num_heads=8)] applied to
    [(query, key, value)] in the default sequence-first layout. *)
Definition attention (query key value : shape) : option shape :=
  match query, key, value with
  | [lq; n; e], [lk; n'; e'], [lv; n''; e''] =>
      if Nat.eqb e hidden && Nat.eqb e' hidden && Nat.eqb e'' hidden
         && Nat.eqb n n' && Nat.eqb n n'' && Nat.eqb lk lv
      then Some [lq; n; e] else None
  | _, _, _ => None
  end.

(** The regressor of a class: [Linear(k * 384, 256)], [ReLU], [Linear(256, 1)]
    and, except for [SiameseBERT], [Sigmoid]; activations keep the shape. *)
Definition regressor (a : Arch.arch) (t : shape) : option shape :=
  let k := match a with Arch.SiameseBERT => 3 | _ => 2 end in
  h <- Linear (hidden * k) 256 t ;;
  Linear 256 1 h.

(** The three [forward] methods. *)
Definition forward (a : Arch.arch)
  (input_ids1 attention_mask1 input_ids2 attention_mask2 : shape)
  : option shape :=
  match a with
  | Arch.SentenceSimilarityModelOne =>
      h1 <- last_hidden_state input_ids1 attention_mask1 ;;
      output1 <- first_token h1 ;;
      h2 <- last_hidden_state input_ids2 attention_mask2 ;;
      output2 <- first_token h2 ;;
      combined <- cat_dim1 [output1; output2] ;;
      r <- regressor a combined ;;
      Some (squeeze r)
  | Arch.SiameseBERT =>
      h1 <- last_hidden_state input_ids1 attention_mask1 ;;
      output1 <- first_token h1 ;;
      h2 <- last_hidden_state input_ids2 attention_mask2 ;;
      output2 <- first_token h2 ;;
      diff <- broadcast_shapes output1 output2 ;;
      mult <- broadcast_shapes output1 output2 ;;
      combined <- cat_dim1 [diff; mult; output1] ;;
      r <- regressor a combined ;;
      Some (squeeze r)
  | Arch.CrossAttentionModel =>
      output1 <- last_hidden_state input_ids1 attention_mask1 ;;
      output2 <- last_hidden_state input_ids2 attention_mask2 ;;
      mask1 <- expand_mask attention_mask1 output1 ;;
      mask2 <- expand_mask attention_mask2 output2 ;;
      p1 <- broadcast_shapes output1 mask1 ;;
      n1 <- sum_dim1 p1 ;;
      d1 <- sum_dim1 mask1 ;;
      output1 <- broadcast_shapes n1 d1 ;;
      p2 <- broadcast_shapes output2 mask2 ;;
      n2 <- sum_dim1 p2 ;;
      d2 <- sum_dim1 mask2 ;;
      output2 <- broadcast_shapes n2 d2 ;;
      let output1 := unsqueeze0 output1 in
      let output2 := unsqueeze0 output2 in
      attn_output <- attention output1 output2 output2 ;;
      let attn_output := squeeze0 attn_output in
      combined <- cat_dim1 [squeeze0 output1; attn_output] ;;
      r <- regressor a combined ;;
      Some (squeeze r)
  end.

End Shape.

(* ================================================================== *)
(** * The tokenizer calls *)
(* ================================================================== *)

Module Tokenizer.

Open Scope Z_scope.

(** The [padding] argument of a tokenizer call. *)
Inductive padding_strategy : Type :=
| DoNotPad      (** [padding=False] *)
| MaxLength.    (** [padding="max_length"] *)

(** What a call returns for one sentence. *)
Record Encoding : Type := mkEncoding
  { input_ids      : list Z;
    attention_mask : list Z }.

(** Special token ids of the BERT vocabulary. *)
Definition cls_token_id : Z := 101.
Definition sep_token_id : Z := 102.
Definition pad_token_id : Z := 0.

Section Vocabulary.

(** The subword algorithm: the ids of a text without special tokens. *)
Variable wordpiece : string -> list Z.

(** The sentence as the model sees it: [CLS], the subwords cut so that the
    whole fits [max_length] when [truncation] is set, [SEP]. *)
Definition with_special_tokens (truncation : bool) (max_length : nat)
  (text : string) : list Z :=
  let toks := wordpiece text in
  let toks := if truncation then firstn (max_length - 2) toks else toks in
  cls_token_id :: toks ++ [sep_token_id].

(** [tokenizer(text, padding=..., truncation=..., max_length=...)]. *)
Definition tokenizer (text : string) (padding : padding_strategy)
  (truncation : bool) (max_length : nat) : Encoding :=
  let ids := with_special_tokens truncation max_length text in
  let mask := repeat 1 (List.length ids) in
  match padding with
  | DoNotPad => {| input_ids := ids; attention_mask := mask |}
  | MaxLength =>
      let difference := (max_length - List.length ids)%nat in
      {| input_ids := ids ++ repeat pad_token_id difference;
         attention_mask := mask ++ repeat 0 difference |}
  end.

(** [tokenize_function]: both columns, sentence by sentence, with
    [padding=False, truncation=True, max_length=128]. *)
Definition tokenize_function (sentence1 sentence2 : list string)
  : list Encoding * list Encoding :=
  (map (fun s => tokenizer s DoNotPad true 128) sentence1,
   map (fun s => tokenizer s DoNotPad true 128) sentence2).

(** The two tokenizer calls of [infer_similarity], with
    [padding="max_length", truncation=True, max_length=128]. *)
Definition infer_encodings (sentence1 sentence2 : string)
  : Encoding * Encoding :=
  (tokenizer sentence1 MaxLength true 128,
   tokenizer sentence2 MaxLength true 128).

(** The number of tokens of a sentence once truncated to [max_length]. *)
Definition true_length (max_length : nat) (text : string) : nat :=
  List.length (with_special_tokens true max_length text).

End Vocabulary.

(** A small vocabulary for concrete runs: one token per character. *)
Definition char_tokens (text : string) : list Z :=
  map (fun c => Z.of_nat (nat_of_ascii c) + 1000) (list_ascii_of_string text).

End Tokenizer.

(* ================================================================== *)
(** * The padding collator *)
(* ================================================================== *)

Module Collator.

Open Scope Z_scope.

(** One item of [STSDataset]. *)
Record Example : Type := mkExample
  { input_ids1      : list Z;
    attention_mask1 : list Z;
    input_ids2      : list Z;
    attention_mask2 : list Z;
    labels          : Q }.

(** [STSDataset.__getitem__] on the encodings of the two sentences of a
    pair and its score. *)
Definition getitem (e1 e2 : Tokenizer.Encoding) (score : Q) : Example :=
  {| input_ids1      := Tokenizer.input_ids e1;
     attention_mask1 := Tokenizer.attention_mask e1;
     input_ids2      := Tokenizer.input_ids e2;
     attention_mask2 := Tokenizer.attention_mask e2;
     labels          := score |}.

(** One side of an example, as handed to the library collator. *)
Record Features : Type := mkFeatures
  { input_ids      : list Z;
    attention_mask : list Z }.

(** The padded tensors of one side. *)
Record Padded : Type := mkPadded
  { p_input_ids      : list (list Z);
    p_attention_mask : list (list Z) }.

Record Batch : Type := mkBatch
  { b_input_ids1      : list (list Z);
    b_attention_mask1 : list (list Z);
    b_input_ids2      : list (list Z);
    b_attention_mask2 : list (list Z);
    b_labels          : list Q }.

Definition pad_token_id : Z := Tokenizer.pad_token_id.

(** The longest [input_ids] of a list of features. *)
Definition longest (features : list Features) : nat :=
  fold_right Nat.max 0%nat (map (fun f => List.length (input_ids f)) features).

(** Right padding of one row up to [max_length]. *)
Definition pad_row (max_length : nat) (f : Features) : Features :=
  let difference := (max_length - List.length (input_ids f))%nat in
  {| input_ids := input_ids f ++ repeat pad_token_id difference;
     attention_mask := attention_mask f ++ repeat 0 difference |}.

(** [DataCollatorWithPadding(tokenizer, max_length=max_length)] with its
    default [padding=True]: every row is padded to the longest of the call,
    and [max_length] plays no part. *)
Definition padding_collator (max_length : nat) (features : list Features)
  : Padded :=
  let rows := map (pad_row (longest features)) features in
  {| p_input_ids := map input_ids rows;
     p_attention_mask := map attention_mask rows |}.

(** [CustomDataCollatorWithPadding.__call__].  The examples are only read
    (the comprehensions build new dictionaries and padding builds new
    lists), so the caller's list after the call, returned as the second
    component, is the list it passed. *)
Definition call (max_length : nat) (examples : list Example)
  : Batch * list Example :=
  let features1 :=
    map (fun ex => mkFeatures (input_ids1 ex) (attention_mask1 ex)) examples in
  let features2 :=
    map (fun ex => mkFeatures (input_ids2 ex) (attention_mask2 ex)) examples in
  let labels := map labels examples in
  let batch1 := padding_collator max_length features1 in
  let batch2 := padding_collator max_length features2 in
  ({| b_input_ids1 := p_input_ids batch1;
      b_attention_mask1 := p_attention_mask batch1;
      b_input_ids2 := p_input_ids batch2;
      b_attention_mask2 := p_attention_mask batch2;
      b_labels := labels |},
   examples).

(** [data_collator = CustomDataCollatorWithPadding(tokenizer, max_length=128)]. *)
Definition data_collator (examples : list Example) : Batch * list Example :=
  call 128 examples.

(** The batch-local maximum lengths: the longest side-1 sequence and the
    longest side-2 sequence among the examples of one call. *)
Definition max_length1 (examples : list Example) : nat :=
  fold_right Nat.max 0%nat
    (map (fun ex => List.length (input_ids1 ex)) examples).

Definition max_length2 (examples : list Example) : nat :=
  fold_right Nat.max 0%nat
    (map (fun ex => List.length (input_ids2 ex)) examples).

(** An example as the tokenisation step produces it: on each side the mask
    is all ones and as long as the ids. *)
Definition tokenized (ex : Example) : Prop :=
  attention_mask1 ex = repeat 1 (List.length (input_ids1 ex)) /\
  attention_mask2 ex = repeat 1 (List.length (input_ids2 ex)).

(** The mask row of a sequence of [len] tokens in a batch of width [w]. *)
Definition mask_row (w len : nat) : list Z :=
  map (fun j => if Nat.ltb j len then 1 else 0) (seq 0 w).

(** An example with [n1] and [n2] tokens on its two sides. *)
Definition example_of_lengths (n1 n2 : nat) (label : Q) : Example :=
  {| input_ids1 := repeat 2023 n1;
     attention_mask1 := repeat 1 n1;
     input_ids2 := repeat 2003 n2;
     attention_mask2 := repeat 1 n2;
     labels := label |}.

(** Three examples of side-1 lengths 5, 12, 8 and side-2 lengths 3, 2, 7. *)
Definition three_examples : list Example :=
  [ example_of_lengths 5 3 (1 # 5);
    example_of_lengths 12 2 1;
    example_of_lengths 8 7 (1 # 2) ].

End Collator.

(* ================================================================== *)
(** * The training loop and its best-checkpoint policy *)
(* ================================================================== *)

Module Train.

Open Scope Q_scope.

(** The Python floats of [train_model]: [-float("inf")], with which
    [best_pearson] starts, a number, and [nan], which [pearsonr] returns
    when a correlation is undefined. *)
Inductive pyfloat : Type :=
| MinusInf
| Num (q : Q)
| Nan.

(** [x > y] on floats: false as soon as one side is [nan]. *)
Definition gt (x y : pyfloat) : bool :=
  match x, y with
  | Num a, Num b => negb (Qle_bool a b)
  | Num _, MinusInf => true
  | _, _ => false
  end.

(** [x >= y] on floats. *)
Definition ge (x y : pyfloat) : bool :=
  match x, y with
  | Num a, Num b => Qle_bool b a
  | Num _, MinusInf => true
  | MinusInf, MinusInf => true
  | _, _ => false
  end.

(** A float that is a number. *)
Definition numeric (x : pyfloat) : Prop := exists q, x = Num q.

Section Loop.

(** The parameters of a model and the type of a mean training loss. *)
Variable Model : Type.
Variable Loss : Type.

(** One pass over [train_loader] in the given epoch: the updated
    parameters and [avg_train_loss]; [None] when a step of the pass or the
    division by [len(train_loader)] raises. *)
Variable train_epoch : nat -> Model -> option (Model * Loss).

(** [evaluate_model(model, val_loader, model_type)]; [None] when it
    raises. *)
Variable evaluate_model : Model -> option pyfloat.

(** The variables of [train_model] during the run, the content of the file
    [best_model_path] ([None] while the file does not exist), and the epochs
    in which [torch.save] was executed. *)
Record State : Type := mkState
  { model           : Model;
    history         : list (Loss * pyfloat);
    best_pearson    : pyfloat;
    best_model_file : option Model;
    saved_at        : list nat }.

(** The state before the first epoch; the file may be left from an earlier
    run. *)
Definition init (m : Model) (file : option Model) : State :=
  {| model := m; history := []; best_pearson := MinusInf;
     best_model_file := file; saved_at := [] |}.

(** The body of [for epoch in range(epochs)]; an exception leaves the
    loop and the function. *)
Definition epoch_body (st : State) (epoch : nat) : option State :=
  match train_epoch epoch (model st) with
  | None => None
  | Some (m, avg_train_loss) =>
      match evaluate_model m with
      | None => None
      | Some pearson_corr =>
          let history := history st ++ [(avg_train_loss, pearson_corr)] in
          if gt pearson_corr (best_pearson st) then
            Some {| model := m; history := history;
                    best_pearson := pearson_corr;
                    best_model_file := Some m;
                    saved_at := saved_at st ++ [epoch] |}
          else
            Some {| model := m; history := history;
                    best_pearson := best_pearson st;
                    best_model_file := best_model_file st;
                    saved_at := saved_at st |}
      end
  end.

(** One more turn of the loop, unless an earlier one has raised. *)
Definition turn (acc : option State) (epoch : nat) : option State :=
  match acc with
  | Some st => epoch_body st epoch
  | None => None
  end.

(** The state after the loop. *)
Definition run (epochs : nat) (m : Model) (file : option Model)
  : option State :=
  fold_left turn (seq 0 epochs) (Some (init m file)).

(** [train_model]: after the loop the best parameters are loaded back;
    [None] is an exception of the loop or the error of [torch.load] on a
    missing file. *)
Definition train_model (m : Model) (epochs : nat) (file : option Model)
  : option (Model * list (Loss * pyfloat) * pyfloat) :=
  match run epochs m file with
  | None => None
  | Some st =>
      match best_model_file st with
      | Some checkpoint => Some (checkpoint, history st, best_pearson st)
      | None => None
      end
  end.

(** The validation metrics observed so far. *)
Definition observed (st : State) : list pyfloat := map snd (history st).

(** The stored checkpoint's metric is at least [x], in the floats'
    order. *)
Definition checkpoint_at_least (st : State) (x : pyfloat) : Prop :=
  exists ck v, best_model_file st = Some ck /\
               evaluate_model ck = Some v /\ ge v x = true.

(** What holds between two epochs of a run started with the file content
    [file]: saves happened in past epochs only, and either no metric has
    been a number and nothing was written, or the running maximum is the
    metric of the parameters in the file, was observed, and bounds every
    observed number. *)
Record inv (file : option Model) (k : nat) (st : State) : Prop := mkInv
  { inv_saved : Forall (fun e => (e < k)%nat) (saved_at st);
    inv_cases :
      (best_pearson st = MinusInf /\ saved_at st = [] /\
       best_model_file st = file /\
       forall x, In x (observed st) -> ~ numeric x)
      \/
      (exists ck b, best_model_file st = Some ck /\
                    best_pearson st = Num b /\
                    evaluate_model ck = Some (Num b) /\
                    In (Num b) (observed st) /\
                    forall q, In (Num q) (observed st) -> q <= b) }.

End Loop.

(** A run to try the policy on: the parameters are a counter, the
    validation metrics of the successive epochs are 1/2, 1/4 and 3/4. *)
Definition toy_epoch (epoch : nat) (m : nat) : option (nat * Q) :=
  Some (S m, 0).

Definition toy_metric (m : nat) : option pyfloat :=
  match m with
  | 1%nat => Some (Num (1 # 2))
  | 2%nat => Some (Num (1 # 4))
  | 3%nat => Some (Num (3 # 4))
  | _ => Some (Num 0)
  end.

(** A run whose validation predictions are constant from the second epoch
    on: the metric of the first epoch is 1/2, that of every later epoch is
    [nan]. *)
Definition nan_metric (m : nat) : option pyfloat :=
  match m with
  | 1%nat => Some (Num (1 # 2))
  | _ => Some Nan
  end.

(** A run whose every validation metric is [nan]. *)
Definition all_nan_metric (m : nat) : option pyfloat := Some Nan.

End Train.

(* ================================================================== *)
(** * Inference and the rescaling to the 0-5 scale *)
(* ================================================================== *)

Module Inference.

Import FVal.
Open Scope R_scope.

(** The logistic function. *)
Definition sigmoid (z : R) : R := 1 / (1 + exp (- z)).

(** [torch.nn.Sigmoid] on a cell. *)
Definition fsigmoid (x : fval) : fval :=
  match x with
  | Fin z => Fin (sigmoid z)
  | PInf => Fin 1
  | NInf => Fin 0
  | NaN => NaN
  end.

(** [torch.tanh] on a cell. *)
Definition ftanh (x : fval) : fval :=
  match x with
  | Fin z => Fin (tanh z)
  | PInf => Fin 1
  | NInf => Fin (- 1)
  | NaN => NaN
  end.

(** The last step of a class's regressor on the value [z] of its
    [Linear(256, 1)] layer: [Sigmoid] for two classes, nothing for
    [SiameseBERT]. *)
Definition final_activation (a : Arch.arch) (z : fval) : fval :=
  match a with
  | Arch.SiameseBERT => z
  | _ => fsigmoid z
  end.

(** The rescaling at the end of [infer_similarity]. *)
Definition rescale (a : Arch.arch) (similarity : fval) : fval :=
  if Arch.is_siamese a then fadd (fmul (ftanh similarity) (Fin 2.5)) (Fin 2.5)
  else fmul similarity (Fin 5).

Section Network.

Variable wordpiece : string -> list Z.

(** The value of the last linear layer of a model on a pair of encodings;
    with weights that are not numbers it is not a number. *)
Variable logit : Arch.arch -> Tokenizer.Encoding -> Tokenizer.Encoding -> fval.

(** [model(input_ids1, attention_mask1, input_ids2, attention_mask2)] on a
    single pair. *)
Definition forward (a : Arch.arch) (e1 e2 : Tokenizer.Encoding) : fval :=
  final_activation a (logit a e1 e2).

(** [infer_similarity(model, tokenizer, sentence1, sentence2)]. *)
Definition infer_similarity (a : Arch.arch) (sentence1 sentence2 : string)
  : fval :=
  let (encoded1, encoded2) :=
    Tokenizer.infer_encodings wordpiece sentence1 sentence2 in
  let similarity := forward a encoded1 encoded2 in
  rescale a similarity.

End Network.

(** A model whose weights are not numbers, as a [SiameseBERT] is after a
    training step on a not-a-number loss. *)
Definition nan_logit (a : Arch.arch) (e1 e2 : Tokenizer.Encoding) : fval :=
  NaN.

End Inference.


(* ================================================================== *)
(** * The trace of a training run *)
(* ================================================================== *)

Module TrainTrace.

Section Trace.

Variable Model : Type.
Variable Loss : Type.
Variable train_epoch : nat -> Model -> option (Model * Loss).
Variable evaluate_model : Model -> option Train.pyfloat.

(** The parameters the live model has when epoch [k] ends, if the run
    gets that far. *)
Definition model_after (m : Model) (file : option Model) (k : nat)
  : option Model :=
  option_map (@Train.model Model Loss)
    (Train.run train_epoch evaluate_model (S k) m file).

(** The value [pearson_corr] takes in epoch [k], if the run gets that
    far. *)
Definition metric_at (m : Model) (file : option Model) (k : nat)
  : option Train.pyfloat :=
  match Train.run train_epoch evaluate_model k m file with
  | Some st =>
      match train_epoch k (Train.model st) with
      | Some (m', _) => evaluate_model m'
      | None => None
      end
  | None => None
  end.

End Trace.

End TrainTrace.

(* ================================================================== *)
(** * Quantities of a batch of paired samples *)
(* ================================================================== *)

Module Paired.

Import Tensor.
Open Scope R_scope.

(** The batch with the two sides exchanged. *)
Definition swap_pairs (b : list (R * R)) : list (R * R) :=
  map (fun p => (snd p, fst p)) b.

End Paired.

(* ================================================================== *)
(** * Hidden states of finite values *)
(* ================================================================== *)

Module Hidden.

Import FVal.
Open Scope R_scope.

(** The tokens of one example when every hidden value is finite. *)
Definition finite_tokens (ts : list (list R * Z)) : Pooling.Tokens :=
  map (fun t => (map Fin (fst t), snd t)) ts.

(** The tokens whose mask entry is 1. *)
Definition unmasked (ts : list (list R * Z)) : list (list R * Z) :=
  filter (fun t => Z.eqb (snd t) 1) ts.

(** The plain average of component [d] over a list of hidden vectors. *)
Definition column_mean (d : nat) (rows : list (list R)) : R :=
  Tensor.Rsum (map (fun r => nth d r 0) rows) / INR (List.length rows).

(** The plain average vector, with hidden size [D]. *)
Definition average (D : nat) (rows : list (list R)) : list fval :=
  map (fun d => Fin (column_mean d rows)) (seq 0 D).

(** A mask of zeros and ones. *)
Definition binary_mask (ts : list (list R * Z)) : Prop :=
  Forall (fun t => snd t = 0%Z \/ snd t = 1%Z) ts.

End Hidden.

(* ================================================================== *)
(** * Reading a padded sequence back through its mask *)
(* ================================================================== *)

Module Masked.

(** The cells of [xs] at the positions where the mask is 1. *)
Definition keep {A : Type} (xs : list A) (mask : list Z) : list A :=
  map fst (filter (fun p => Z.eqb (snd p) 1) (combine xs mask)).

End Masked.

(* ================================================================== *)
(** * A small CSV file *)
(* ================================================================== *)

Module SampleFile.

Import Ingest.
Open Scope Q_scope.

(** A file with the three columns and one row of score 4. *)
Definition one_row_csv (p : string) : DataFrame :=
  {| columns := ["sentence1"; "sentence2"; "score"]%string;
     frame := mkDataset ["a"%string] ["b"%string] [4] |}.

End SampleFile.

(* ================================================================== *)
(** * The comparison with the pretrained sentence encoder *)
(* ================================================================== *)

Module Baseline.

Import FVal.
Open Scope R_scope.

(** [np.dot] of two one-dimensional arrays; [None] is the [ValueError]
    raised when the sizes differ. *)
Definition dot (u v : list R) : option R :=
  if Nat.eqb (List.length u) (List.length v)
  then Some (Tensor.Rsum (map (fun p => fst p * snd p) (combine u v)))
  else None.

(** [np.linalg.norm]. *)
Definition norm (u : list R) : R := sqrt (Tensor.sum_sq u).

(** [np.dot(e1, e2) / (norm(e1) * norm(e2))], then [similarity * 5]. *)
Definition cosine_score (embeddings1 embeddings2 : list R) : option fval :=
  match dot embeddings1 embeddings2 with
  | None => None
  | Some d =>
      let similarity :=
        fdiv (Fin d) (Fin (norm embeddings1 * norm embeddings2)) in
      Some (fmul similarity (Fin 5))
  end.

End Baseline.

(* ================================================================== *)
(** * How the models combine the two sentence vectors *)
(* ================================================================== *)

Module Heads.

Open Scope R_scope.

(** The vectors of the two sentences of one pair are given cell by cell:
    the list of the pairs [(output1[j], output2[j])]. *)
Definition output1 (v : list (R * R)) : list R := map fst v.
Definition output2 (v : list (R * R)) : list R := map snd v.

(** [torch.abs(output1 - output2)] and [output1 * output2]. *)
Definition diff (v : list (R * R)) : list R :=
  map (fun p => Rabs (fst p - snd p)) v.

Definition mult (v : list (R * R)) : list R :=
  map (fun p => fst p * snd p) v.

(** [SentenceSimilarityModelOne]: [torch.cat([output1, output2], dim=1)]. *)
Definition concat_combined (v : list (R * R)) : list R :=
  output1 v ++ output2 v.

(** [SiameseBERT]: [torch.cat([diff, mult, output1], dim=1)]. *)
Definition siamese_combined (v : list (R * R)) : list R :=
  diff v ++ mult v ++ output1 v.

End Heads.

(* ================================================================== *)
(** * The attention step of [CrossAttentionModel] *)
(* ================================================================== *)

Module Attention.

Open Scope R_scope.

(** [softmax] over a list of scores. *)
Definition softmax (scores : list R) : list R :=
  map (fun x => exp x / Tensor.Rsum (map exp scores)) scores.

Definition dotp (u v : list R) : R :=
  Tensor.Rsum (map (fun p => fst p * snd p) (combine u v)).

Definition vadd (u v : list R) : list R :=
  map (fun p => fst p + snd p) (combine u v).

Definition vscale (w : R) (v : list R) : list R := map (Rmult w) v.

Section MultiheadAttention.

(** [torch.nn.MultiheadAttention(embed_dim, num_heads)] with
    [embed_dim = num_heads * head_dim], its three input projections and its
    output projection (weights and biases), no mask and no dropout. *)
Variable num_heads : nat.
Variable head_dim : nat.
Variable q_proj : list R -> list R.
Variable k_proj : list R -> list R.
Variable v_proj : list R -> list R.
Variable out_proj : list R -> list R.

(** The slice of a projected vector that belongs to head [i]. *)
Definition head (i : nat) (x : list R) : list R :=
  firstn head_dim (skipn (i * head_dim) x).

(** Scaled dot-product attention of one query over the positions of the
    key and value sequences, within one head. *)
Definition head_attention (q : list R) (kvs : list (list R * list R))
  : list R :=
  let scores := map (fun kv => dotp q (fst kv) / sqrt (INR head_dim)) kvs in
  let weights := softmax scores in
  fold_right vadd (repeat 0 head_dim)
    (map (fun wkv => vscale (fst wkv) (snd (snd wkv))) (combine weights kvs)).

(** The attention output at one query position of one batch element, for
    the key and value sequences of that batch element. *)
Definition multihead_attention (query : list R) (key value : list (list R))
  : list R :=
  let q := q_proj query in
  let kvs := combine (map k_proj key) (map v_proj value) in
  out_proj
    (List.concat
       (map (fun i =>
               head_attention (head i q)
                 (map (fun kv => (head i (fst kv), head i (snd kv))) kvs))
          (seq 0 num_heads))).

(** [CrossAttentionModel.forward] after pooling, for one pair: both pooled
    vectors are given a sequence axis of length one ([unsqueeze(0)]), the
    first is the query, the second is key and value, and the result is
    [torch.cat([output1, attn_output], dim=1)]. *)
Definition cross_combined (output1 output2 : list R) : list R :=
  let attn_output := multihead_attention output1 [output2] [output2] in
  output1 ++ attn_output.

End MultiheadAttention.

(** A projection of width 2 for concrete runs: the first two cells, with
    zeros where the input is shorter. *)
Definition first_two (x : list R) : list R := firstn 2 (x ++ [0; 0]).

End Attention.

(* ================================================================== *)
(** * Batches of a data loader and the collection loop of [evaluate_model] *)
(* ================================================================== *)

Module Loader.

Open Scope R_scope.

(** The successive batches of at most [batch_size] items; [fuel] bounds the
    number of batches. *)
Fixpoint batches {A : Type} (fuel batch_size : nat) (data : list A)
  : list (list A) :=
  match fuel with
  | O => []
  | S fuel' =>
      match data with
      | [] => []
      | _ :: _ =>
          firstn batch_size data
            :: batches fuel' batch_size (skipn batch_size data)
      end
  end.

(** [DataLoader(dataset, batch_size=batch_size, shuffle=False)]: the items
    in order, the last batch possibly smaller; [None] is the [ValueError]
    for a batch size of zero. *)
Definition DataLoader {A : Type} (dataset : list A) (batch_size : nat)
  : option (list (list A)) :=
  if Nat.eqb batch_size 0 then None
  else Some (batches (List.length dataset) batch_size dataset).

(** The notebook's [batch_size]. *)
Definition batch_size : nat := 8.

(** What a [forward] returns: a tensor of no dimension or a vector. *)
Inductive output : Type :=
| Scalar (x : R)
| Vector (xs : list R).

(** [.squeeze()] of the regressor's column of one score per pair. *)
Definition squeeze_column (column : list R) : output :=
  match column with
  | [x] => Scalar x
  | _ => Vector column
  end.

(** [preds.extend(outputs.cpu().numpy())]: a tensor of no dimension cannot
    be iterated, which raises [TypeError]. *)
Definition extend (preds : list R) (outputs : output) : option (list R) :=
  match outputs with
  | Scalar _ => None
  | Vector xs => Some (preds ++ xs)
  end.

Section Evaluate.

Variable Example : Type.
Variable Metric : Type.

(** The label of an example, the column the model's regressor computes for
    a collated batch, and [scipy.stats.pearsonr]. *)
Variable label : Example -> R.
Variable regressor_column : list Example -> list R.
Variable pearsonr : list R -> list R -> Metric.

(** The loop [for batch in val_loader] of [evaluate_model]. *)
Fixpoint collect (val_loader : list (list Example)) (preds labels : list R)
  : option (list R * list R) :=
  match val_loader with
  | [] => Some (preds, labels)
  | batch :: rest =>
      let outputs := squeeze_column (regressor_column batch) in
      match extend preds outputs with
      | None => None
      | Some preds' => collect rest preds' (labels ++ map label batch)
      end
  end.

(** [evaluate_model(model, val_loader)]. *)
Definition evaluate_model (val_loader : list (list Example)) : option Metric :=
  match collect val_loader [] [] with
  | None => None
  | Some (preds, labels) => Some (pearsonr preds labels)
  end.

End Evaluate.

End Loader.

(* ================================================================== *)
(** * The batch loop of one training epoch *)
(* ================================================================== *)

Module Epoch.

Import FVal.
Open Scope R_scope.

Section Inner.

Variable Model : Type.
Variable Batch : Type.

(** The outputs of the model on a batch, the labels of the batch, and the
    effect of [loss.backward(); optimizer.step()] on the parameters at the
    learning rate of the given scheduler step. *)
Variable forward : Model -> Batch -> Tensor.tensor.
Variable labels_of : Batch -> Tensor.tensor.
Variable update : nat -> Model -> Batch -> Model.

(** The parameters, [total_loss] and the number of [scheduler.step()]
    calls made so far. *)
Record Progress : Type := mkProgress
  { params     : Model;
    total_loss : fval;
    steps      : nat }.

(** The body of [for batch in train_loader]; [None] is an exception raised
    by the loss. *)
Definition batch_body (model_type : string) (st : Progress) (batch : Batch)
  : option Progress :=
  match Tensor.batch_loss model_type (forward (params st) batch) (labels_of batch) with
  | None => None
  | Some loss =>
      Some {| params := update (steps st) (params st) batch;
              total_loss := fadd (total_loss st) loss;
              steps := S (steps st) |}
  end.

Fixpoint batch_loop (model_type : string) (st : Progress)
  (train_loader : list Batch) : option Progress :=
  match train_loader with
  | [] => Some st
  | batch :: rest =>
      match batch_body model_type st batch with
      | None => None
      | Some st' => batch_loop model_type st' rest
      end
  end.

(** The losses of the successive batches, as the loop computes them. *)
Fixpoint losses (model_type : string) (st : Progress)
  (train_loader : list Batch) : list fval :=
  match train_loader with
  | [] => []
  | batch :: rest =>
      match Tensor.batch_loss model_type (forward (params st) batch)
              (labels_of batch), batch_body model_type st batch with
      | Some loss, Some st' => loss :: losses model_type st' rest
      | _, _ => []
      end
  end.

(** One epoch of [train_model] up to [avg_train_loss]: [total_loss = 0],
    the batch loop, then [total_loss / len(train_loader)], a division of
    Python numbers, which raises [ZeroDivisionError] for an empty loader. *)
Definition train_one_epoch (model_type : string) (m : Model) (steps0 : nat)
  (train_loader : list Batch) : option (Model * fval * nat) :=
  match batch_loop model_type (mkProgress m (Fin 0) steps0) train_loader with
  | None => None
  | Some st =>
      if Nat.eqb (List.length train_loader) 0 then None
      else Some (params st,
                 fdiv (total_loss st) (Fin (INR (List.length train_loader))),
                 steps st)
  end.

End Inner.

(** Two batches of two pairs each, as (outputs, labels); the outputs of the
    first are constant. *)
Definition two_batches : list (Tensor.tensor * Tensor.tensor) :=
  [ (Tensor.finite [1; 1], Tensor.finite [0; 1]);
    (Tensor.finite [0; 1], Tensor.finite [0; 1]) ].

End Epoch.

(* ================================================================== *)
(** * From the loaded dataset to the items of [STSDataset] *)
(* ================================================================== *)

Module STS.

(** The tokenized dataset in column form. *)
Record Columns : Type := mkColumns
  { input_ids1      : list (list Z);
    attention_mask1 : list (list Z);
    input_ids2      : list (list Z);
    attention_mask2 : list (list Z);
    score           : list Q }.

(** [dataset.map(tokenize_function, batched=True)] on one partition. *)
Definition tokenized_dataset (wordpiece : string -> list Z)
  (d : Ingest.Dataset) : Columns :=
  let (encodings1, encodings2) :=
    Tokenizer.tokenize_function wordpiece
      (Ingest.sentence1 d) (Ingest.sentence2 d) in
  {| input_ids1      := map Tokenizer.input_ids encodings1;
     attention_mask1 := map Tokenizer.attention_mask encodings1;
     input_ids2      := map Tokenizer.input_ids encodings2;
     attention_mask2 := map Tokenizer.attention_mask encodings2;
     score           := Ingest.score d |}.

(** [STSDataset.__len__]. *)
Definition len (data : Columns) : nat := List.length (input_ids1 data).

(** [STSDataset.__getitem__] at a non-negative index; [None] is the
    [IndexError] of a column that is too short. *)
Definition getitem (data : Columns) (idx : nat) : option Collator.Example :=
  match nth_error (input_ids1 data) idx,
        nth_error (attention_mask1 data) idx,
        nth_error (input_ids2 data) idx,
        nth_error (attention_mask2 data) idx,
        nth_error (score data) idx with
  | Some i1, Some m1, Some i2, Some m2, Some s =>
      Some (Collator.mkExample i1 m1 i2 m2 s)
  | _, _, _, _, _ => None
  end.

(** The items a sampler reads, for the indices [0 .. len - 1]. *)
Definition items (data : Columns) : list (option Collator.Example) :=
  map (getitem data) (seq 0 (len data)).

(** A table whose three columns have the same number of rows. *)
Definition rectangular (d : Ingest.Dataset) : Prop :=
  List.length (Ingest.sentence1 d) = List.length (Ingest.score d)
  /\ List.length (Ingest.sentence2 d) = List.length (Ingest.score d).

(** The rows of a table, one triple per row. *)
Definition rows (d : Ingest.Dataset) : list (string * string * Q) :=
  combine (combine (Ingest.sentence1 d) (Ingest.sentence2 d)) (Ingest.score d).

(** The item built from one row of the table. *)
Definition item_of_row (wordpiece : string -> list Z)
  (r : string * string * Q) : Collator.Example :=
  Collator.getitem
    (Tokenizer.tokenizer wordpiece (fst (fst r)) Tokenizer.DoNotPad true 128)
    (Tokenizer.tokenizer wordpiece (snd (fst r)) Tokenizer.DoNotPad true 128)
    (snd r).

End STS.
(* ================================================================== *)
(** * Properties: data loading *)
(* ================================================================== *)

Module IngestFacts.

Import Ingest.
Open Scope Q_scope.

(** The custom path divides every score by five. *)
Lemma custom_scores_divided
  (read_csv : string -> DataFrame) (p : string) (d : Dataset) :
  load_custom_dataset read_csv (Some p) = Some d ->
  exists src, score d = map (fun s => s / 5) (score src).
Proof.
  unfold load_custom_dataset, truthy.
  destruct (String.eqb p ""); simpl.
  - intros [= <-]. now exists sample_data.
  - match goal with |- context [if ?c then _ else _] => destruct c end;
      [| discriminate].
    intros [= <-]. now exists (frame (read_csv p)).
Qed.

(** A score of the source scale, once divided, lies in the unit interval. *)
Lemma divided_in_unit (s : Q) : 0 <= s -> s <= 5 -> 0 <= s / 5 /\ s / 5 <= 1.
Proof.
  intros H0 H5. split.
  - apply Qle_shift_div_l; [reflexivity | now rewrite Qmult_0_l].
  - apply Qle_shift_div_r; [reflexivity | now rewrite Qmult_1_l].
Qed.

(** C1, evaluated on the default source: with [csv_path = None] the notebook
    binds [dataset] to the benchmark as loaded, so the stored labels are the
    source scores themselves (5, 2.8, 2.5), not the scores divided by five,
    and the first one is above 1. *)
Theorem default_source_keeps_raw_scores (read_csv : string -> DataFrame) :
  option_map stored_labels (dataset read_csv (fun _ => stsb_excerpt) None)
    = Some [5; 14 # 5; 5 # 2]
  /\ ~ (5 == 5 / 5)
  /\ ~ (5 <= 1).
Proof.
  split; [reflexivity |].
  split; intro H; vm_compute in H; congruence.
Qed.

End IngestFacts.

(* ================================================================== *)
(** * Properties: the best-checkpoint policy *)
(* ================================================================== *)

Module TrainFacts.

Import Train.
Open Scope Q_scope.

Lemma gt_numeric (x y : pyfloat) : gt x y = true -> numeric x.
Proof.
  destruct x as [| a |]; simpl; try discriminate. intros _. now exists a.
Qed.

Lemma gt_num_num (a b : Q) : gt (Num a) (Num b) = true <-> b < a.
Proof.
  simpl. rewrite negb_true_iff, <- not_true_iff_false, Qle_bool_iff.
  split; [apply Qnot_le_lt | apply Qlt_not_le].
Qed.

Lemma not_gt_num_num (a b : Q) : gt (Num a) (Num b) = false -> a <= b.
Proof.
  intros H. apply Qnot_lt_le. intros Hlt.
  apply gt_num_num in Hlt. congruence.
Qed.

Lemma ge_nan (v : pyfloat) : ge v Nan = false.
Proof. now destruct v. Qed.

Section LoopFacts.

Variable Model : Type.
Variable Loss : Type.
Variable train_epoch : nat -> Model -> option (Model * Loss).
Variable evaluate_model : Model -> option pyfloat.

Local Notation "'State'" := (Train.State Model Loss).
Local Notation "'step'" := (epoch_body train_epoch evaluate_model).
Local Notation "'run'" := (Train.run train_epoch evaluate_model).
Local Notation "'inv'" := (Train.inv evaluate_model).

Lemma run_succ (k : nat) (m : Model) (file : option Model) :
  run (S k) m file = turn train_epoch evaluate_model (run k m file) k.
Proof.
  unfold Train.run. rewrite seq_S, fold_left_app. reflexivity.
Qed.

Lemma run_succ_some (k : nat) (m : Model) (file : option Model) (after : State) :
  run (S k) m file = Some after ->
  exists before, run k m file = Some before /\ step before k = Some after.
Proof.
  rewrite run_succ. destruct (run k m file) as [before |]; simpl.
  - intros H. now exists before.
  - discriminate.
Qed.

(** The effect of one epoch on the history, the file, the maximum and the
    save log. *)
Lemma step_cases (st st' : State) (k : nat) :
  step st k = Some st' ->
  exists m' loss corr,
    train_epoch k (model st) = Some (m', loss) /\
    evaluate_model m' = Some corr /\
    model st' = m' /\
    history st' = history st ++ [(loss, corr)] /\
    ((gt corr (best_pearson st) = true /\
      saved_at st' = saved_at st ++ [k] /\
      best_model_file st' = Some m' /\
      best_pearson st' = corr)
     \/
     (gt corr (best_pearson st) = false /\
      saved_at st' = saved_at st /\
      best_model_file st' = best_model_file st /\
      best_pearson st' = best_pearson st)).
Proof.
  unfold epoch_body.
  destruct (train_epoch k (model st)) as [[m' loss] |]; [| discriminate].
  destruct (evaluate_model m') as [corr |] eqn:Eev; [| discriminate].
  destruct (gt corr (best_pearson st)) eqn:Egt;
    intros H; injection H as <-; exists m', loss, corr; simpl;
    repeat split; auto.
Qed.

Lemma observed_step (st st' : State) (loss : Loss) (corr : pyfloat) :
  history st' = history st ++ [(loss, corr)] ->
  observed st' = observed st ++ [corr].
Proof.
  intros H. unfold observed. now rewrite H, map_app.
Qed.

Lemma step_inv (file : option Model) (k : nat) (st st' : State) :
  inv file k st -> step st k = Some st' -> inv file (S k) st'.
Proof.
  intros [Hs Hc] Hstep.
  destruct (@step_cases _ _ _ Hstep)
    as (m' & loss & corr & _ & Hev & _ & Hh & Hcase).
  pose proof (@observed_step _ _ _ _ Hh) as Hobs.
  destruct Hcase as [(Hgt & Hsv & Hf & Hb) | (Hgt & Hsv & Hf & Hb)].
  - destruct (@gt_numeric _ _ Hgt) as [a ->].
    constructor.
    + rewrite Hsv. apply Forall_app; split.
      * eapply Forall_impl; [| exact Hs]. simpl; lia.
      * repeat constructor.
    + right. exists m', a. repeat split; auto.
      * rewrite Hobs. apply in_or_app. right. now left.
      * intros q Hq. rewrite Hobs in Hq.
        apply in_app_or in Hq as [Hq | [Hq | []]].
        -- destruct Hc as [(_ & _ & _ & Hnone) | (ck & b & _ & Hbest & _ & _ & Hle)].
           ++ exfalso. apply (Hnone _ Hq). now exists q.
           ++ rewrite Hbest in Hgt. apply gt_num_num in Hgt.
              apply Qlt_le_weak. eapply Qle_lt_trans; [apply Hle |]; eauto.
        -- injection Hq as <-. apply Qle_refl.
  - constructor.
    + rewrite Hsv. eapply Forall_impl; [| exact Hs]. simpl; lia.
    + destruct Hc as [(Hbest & Hnil & Hfile & Hnone) | (ck & b & Hck & Hbest & Hm & Hin & Hle)].
      * left. rewrite Hb, Hsv, Hf. repeat split; auto.
        intros x Hx. rewrite Hobs in Hx.
        apply in_app_or in Hx as [Hx | [<- | []]]; [now apply Hnone |].
        intros [a ->]. rewrite Hbest in Hgt. discriminate.
      * right. exists ck, b. rewrite Hb, Hf, Hobs. repeat split; auto.
        -- apply in_or_app. now left.
        -- intros q Hq. apply in_app_or in Hq as [Hq | [Hq | []]]; [now apply Hle |].
           subst corr. rewrite Hbest in Hgt. now apply not_gt_num_num.
Qed.

Lemma run_inv (k : nat) (m : Model) (file : option Model) (st : State) :
  run k m file = Some st -> inv file k st.
Proof.
  revert st. induction k as [| k IH]; intros st Hrun.
  - injection Hrun as <-. constructor; simpl; [constructor |].
    left. repeat split; auto.
  - destruct (@run_succ_some _ _ _ _ Hrun) as (before & Hb & Hstep).
    eapply step_inv; eauto.
Qed.

(** C2.  A run of [train_model] starts with [best_pearson] at minus
    infinity.  In an epoch [k] that ends without an exception the
    checkpoint file is written if and only if the metric of that epoch is
    strictly above the best one so far in the floats' order, which a
    [nan] metric never is; when it is not written, file and maximum stay
    as they were.  After the epoch, every number among the validation
    metrics observed up to then is at most the running maximum, which is
    the metric of the parameters in the file; and while no observed
    metric has been a number, the run has written nothing: the file is
    what it was before the run and the maximum is still minus infinity. *)
Theorem checkpoint_written_on_strict_improvement
  (m : Model) (file : option Model) (k : nat) (before after : State) :
  run k m file = Some before ->
  run (S k) m file = Some after ->
  best_pearson (@init Model Loss m file) = MinusInf
  /\ (exists corr,
        observed after = observed before ++ [corr]
        /\ (In k (saved_at after) <-> gt corr (best_pearson before) = true)
        /\ (In k (saved_at after) ->
              best_model_file after = Some (model after) /\
              best_pearson after = corr)
        /\ (~ In k (saved_at after) ->
              best_model_file after = best_model_file before /\
              best_pearson after = best_pearson before))
  /\ (forall q, In (Num q) (observed after) ->
        exists ck b, best_model_file after = Some ck /\
                     best_pearson after = Num b /\
                     evaluate_model ck = Some (Num b) /\
                     q <= b)
  /\ ((forall x, In x (observed after) -> ~ numeric x) ->
        saved_at after = [] /\
        best_model_file after = file /\
        best_pearson after = MinusInf).
Proof.
  intros Hbefore Hafter.
  pose proof (@run_inv _ _ _ _ Hbefore) as Hb.
  pose proof (@run_inv _ _ _ _ Hafter) as Ha.
  assert (Hfresh : ~ In k (saved_at before)).
  { intro Hin. destruct Hb as [Hs _].
    rewrite Forall_forall in Hs. specialize (Hs _ Hin). simpl in Hs. lia. }
  destruct (@run_succ_some _ _ _ _ Hafter) as (before' & Hb' & Hstep).
  assert (before' = before) by congruence. subst before'.
  destruct (@step_cases _ _ _ Hstep)
    as (m' & loss & corr & _ & _ & Hm & Hh & Hcase).
  split; [reflexivity |]. split; [| split].
  - exists corr. split; [exact (@observed_step _ _ _ _ Hh) |].
    destruct Hcase as [(Hgt & Hsv & Hf & Hp) | (Hgt & Hsv & Hf & Hp)].
    + assert (Hin : In k (saved_at after)).
      { rewrite Hsv. apply in_or_app. right. now left. }
      split; [tauto |]. split; [intros _; split; congruence |].
      intros Hn. now destruct Hn.
    + assert (Hn : ~ In k (saved_at after)) by now rewrite Hsv.
      split; [split; [tauto | congruence] |].
      split; [tauto | auto].
  - intros q Hq. destruct Ha as [_ [(_ & _ & _ & Hnone) | (ck & b & Hck & Hbest & Hev & _ & Hle)]].
    + exfalso. apply (Hnone _ Hq). now exists q.
    + exists ck, b. auto.
  - intros Hnone. destruct Ha as [_ [(Hbest & Hnil & Hfile & _) | (ck & b & _ & _ & _ & Hin & _)]].
    + auto.
    + exfalso. apply (Hnone _ Hin). now exists b.
Qed.

End LoopFacts.

(** The second epoch of the toy run observes 1/4 after a best of 1/2: the
    file is not written and keeps the parameters of the first epoch. *)
Lemma checkpoint_written_on_strict_improvement_witness :
  exists before after,
    Train.run toy_epoch toy_metric 1 0%nat None = Some before /\
    Train.run toy_epoch toy_metric 2 0%nat None = Some after /\
    ~ In 1%nat (saved_at after) /\
    best_model_file after = best_model_file before /\
    best_pearson after = best_pearson before /\
    exists ck b, best_model_file after = Some ck /\
                 best_pearson after = Num b /\
                 toy_metric ck = Some (Num b) /\
                 (1 # 4) <= b.
Proof.
  destruct (Train.run toy_epoch toy_metric 1 0%nat None) as [before |] eqn:Eb;
    [| discriminate].
  destruct (Train.run toy_epoch toy_metric 2 0%nat None) as [after |] eqn:Ea;
    [| discriminate].
  exists before, after. split; [reflexivity |]. split; [reflexivity |].
  destruct (@checkpoint_written_on_strict_improvement
              nat Q toy_epoch toy_metric 0%nat None 1 before after Eb Ea)
    as (_ & (corr & _ & _ & _ & Hkeep) & Hall & _).
  assert (Hn : ~ In 1%nat (saved_at after)).
  { vm_compute in Ea. injection Ea as <-. simpl. intros [H | []]. discriminate. }
  split; [exact Hn |].
  destruct (Hkeep Hn) as [Hf Hp].
  split; [exact Hf |]. split; [exact Hp |].
  apply Hall. vm_compute in Ea. injection Ea as <-. simpl. right. now left.
Defined.

(** C2 as stated fails on a [nan] validation metric.  When the metrics
    of three epochs are 1/2, [nan], [nan], the file holds after the third
    epoch the first epoch's parameters, whose metric 1/2 is not at least
    the [nan] observed in the second; and when the only metric is [nan],
    no checkpoint exists at all and [train_model] ends in the error of
    loading a missing file. *)
Lemma nan_metric_escapes_checkpoint_bound :
  (exists st,
     Train.run toy_epoch nan_metric 3 0%nat None = Some st /\
     In Nan (observed st) /\
     ~ checkpoint_at_least nan_metric st Nan)
  /\
  (exists st,
     Train.run toy_epoch all_nan_metric 1 0%nat None = Some st /\
     observed st = [Nan] /\
     saved_at st = [] /\
     best_model_file st = None /\
     (forall x, ~ checkpoint_at_least all_nan_metric st x) /\
     train_model toy_epoch all_nan_metric 0%nat 1 None = None).
Proof.
  split.
  - eexists. split; [vm_compute; reflexivity |]. split.
    + simpl. right. now left.
    + intros (ck & v & _ & _ & Hge). rewrite ge_nan in Hge. discriminate.
  - eexists. split; [vm_compute; reflexivity |].
    repeat split.
    intros x (ck & v & Hck & _). discriminate.
Qed.

End TrainFacts.

(* ================================================================== *)
(** * Properties: the two training losses *)
(* ================================================================== *)

Module TensorFacts.

Import FVal Tensor.
Open Scope R_scope.

(** ** Finite tensors stay finite under sums and cell-wise operations *)

Lemma tsum_finite (xs : list R) : tsum (finite xs) = Fin (Rsum xs).
Proof.
  unfold tsum, finite.
  induction xs as [| x xs IH]; simpl; [reflexivity |].
  now rewrite IH.
Qed.

Lemma finite_length (xs : list R) : List.length (finite xs) = List.length xs.
Proof. apply length_map. Qed.

Lemma sub_scalar_finite (xs : list R) (m : R) :
  sub_scalar (finite xs) (Fin m) = finite (map (fun x => x - m) xs).
Proof.
  unfold sub_scalar, finite. rewrite !map_map. reflexivity.
Qed.

Lemma squares_finite (xs : list R) :
  map fsquare (finite xs) = finite (map (fun x => x * x) xs).
Proof.
  unfold finite. rewrite !map_map. reflexivity.
Qed.

Lemma zip_with_pairs (f : fval -> fval -> fval) (g : R -> R -> R)
  (b : list (R * R)) :
  (forall x y, f (Fin x) (Fin y) = Fin (g x y)) ->
  zip_with f (finite (map fst b)) (finite (map snd b))
  = finite (map (fun p => g (fst p) (snd p)) b).
Proof.
  intros Hf. induction b as [| [x y] b IH]; simpl; [reflexivity |].
  rewrite Hf. f_equal. exact IH.
Qed.

Lemma broadcast_pairs (f : fval -> fval -> fval) (g : R -> R -> R)
  (b : list (R * R)) :
  (forall x y, f (Fin x) (Fin y) = Fin (g x y)) ->
  broadcast f (finite (map fst b)) (finite (map snd b))
  = Some (finite (map (fun p => g (fst p) (snd p)) b)).
Proof.
  intros Hf. unfold broadcast.
  rewrite !finite_length, !length_map, Nat.eqb_refl.
  now rewrite (zip_with_pairs f g b Hf).
Qed.

(** ** Sums of squares *)

Lemma Rsum_squares_nonneg (xs : list R) : 0 <= sum_sq xs.
Proof.
  unfold sum_sq, Rsum. induction xs as [| x xs IH]; simpl; [lra |].
  pose proof (Rle_0_sqr x) as Hx. unfold Rsqr in Hx. lra.
Qed.

Lemma INR_length_nonzero (A : Type) (xs : list A) :
  xs <> [] -> INR (List.length xs) <> 0.
Proof.
  destruct xs; [congruence |]. intros _.
  apply not_0_INR. simpl. lia.
Qed.

Lemma tmean_finite (xs : list R) :
  xs <> [] -> tmean (finite xs) = Fin (Rmean xs).
Proof.
  intros Hne. unfold tmean. rewrite tsum_finite, finite_length. simpl.
  destruct (Req_dec_T (INR (List.length xs)) 0) as [H0 |]; [| reflexivity].
  now apply INR_length_nonzero in Hne.
Qed.

Lemma fsqrt_sum_sq (xs : list R) : fsqrt (Fin (sum_sq xs)) = Fin (sqrt (sum_sq xs)).
Proof.
  simpl. destruct (Rlt_dec (sum_sq xs) 0) as [Hlt |]; [| reflexivity].
  pose proof (Rsum_squares_nonneg xs). lra.
Qed.

Lemma norm_finite (xs : list R) :
  fsqrt (tsum (map fsquare (finite xs))) = Fin (sqrt (sum_sq xs)).
Proof.
  rewrite squares_finite, tsum_finite. apply fsqrt_sum_sq.
Qed.

Lemma fdiv_finite (a b : R) : b <> 0 -> fdiv (Fin a) (Fin b) = Fin (a / b).
Proof.
  intros Hb. simpl. destruct (Req_dec_T b 0); [contradiction | reflexivity].
Qed.

Lemma fdiv_zero_zero (a b : R) : a = 0 -> b = 0 -> fdiv (Fin a) (Fin b) = NaN.
Proof.
  intros -> ->. simpl.
  destruct (Req_dec_T 0 0) as [_ | H]; [reflexivity | now destruct H].
Qed.

(** ** The code's loss on finite, paired data *)

(** The centred data and the steps of the loss, for a non-empty batch. *)
Lemma pearson_loss_steps (b : list (R * R)) :
  b <> [] ->
  pearson_correlation_loss (finite (map fst b)) (finite (map snd b))
  = Some (fsub (Fin 1)
            (fdiv (Fin (Rsum (map (fun p => (fst p - Rmean (map fst b))
                                            * (snd p - Rmean (map snd b))) b)))
                  (Fin (sqrt (sum_sq (centred (map fst b)))
                        * sqrt (sum_sq (centred (map snd b))))))).
Proof.
  intros Hne. unfold pearson_correlation_loss.
  assert (H1 : map fst b <> []) by (destruct b; simpl; congruence).
  assert (H2 : map snd b <> []) by (destruct b; simpl; congruence).
  rewrite (tmean_finite H1), (tmean_finite H2), !sub_scalar_finite.
  rewrite !norm_finite.
  rewrite !map_map.
  pose proof (broadcast_pairs fmul Rmult
                (map (fun p => (fst p - Rmean (map fst b),
                                snd p - Rmean (map snd b))) b)
                (fun x y => eq_refl)) as Hb.
  rewrite !map_map in Hb. simpl in Hb. rewrite Hb.
  rewrite tsum_finite. simpl.
  unfold centred. rewrite !map_map. reflexivity.
Qed.

(** C3.  The loss of a training batch is chosen by the architecture's
    [model_type]: for [SiameseBERT] it is [pearson_correlation_loss], for
    the two other classes [MSELoss].  On finite outputs paired with finite
    labels, the first is one minus Pearson's r of the pairs whenever neither
    side has zero variance, and the second is the mean squared error of a
    non-empty batch. *)
Theorem batch_loss_selected_by_architecture (a : Arch.arch) (b : list (R * R)) :
  let outputs := finite (map fst b) in
  let labels := finite (map snd b) in
  batch_loss (Arch.model_type a) outputs labels
    = match a with
      | Arch.SiameseBERT => pearson_correlation_loss outputs labels
      | _ => MSELoss outputs labels
      end
  /\ (sum_sq (centred (map fst b)) <> 0 ->
      sum_sq (centred (map snd b)) <> 0 ->
      pearson_correlation_loss outputs labels = Some (Fin (1 - pearson_r b)))
  /\ (b <> [] ->
      MSELoss outputs labels = Some (Fin (mean_squared_error b))).
Proof.
  intros outputs labels. split; [| split].
  - destruct a; reflexivity.
  - intros Hx Hy.
    assert (Hne : b <> []).
    { intros ->. apply Hx. reflexivity. }
    unfold outputs, labels. rewrite (pearson_loss_steps Hne).
    pose proof (Rsum_squares_nonneg (centred (map fst b))) as Px.
    pose proof (Rsum_squares_nonneg (centred (map snd b))) as Py.
    assert (Hden : sqrt (sum_sq (centred (map fst b)))
                   * sqrt (sum_sq (centred (map snd b))) <> 0).
    { rewrite <- sqrt_mult by assumption.
      intro H0. apply sqrt_eq_0 in H0.
      - apply Rmult_integral in H0. tauto.
      - now apply Rmult_le_pos. }
    rewrite (fdiv_finite _ Hden). simpl.
    unfold pearson_r. rewrite sqrt_mult by assumption.
    reflexivity.
  - intros Hne. unfold MSELoss, outputs, labels.
    rewrite (broadcast_pairs fsub Rminus b (fun x y => eq_refl)).
    rewrite squares_finite, map_map.
    assert (Hm : map (fun p : R * R => (fst p - snd p) * (fst p - snd p)) b <> []).
    { destruct b; simpl; congruence. }
    rewrite (tmean_finite Hm). unfold mean_squared_error, Rmean.
    now rewrite length_map.
Qed.

(** Two pairs with distinct outputs and distinct labels. *)
Lemma batch_loss_selected_by_architecture_witness :
  pearson_correlation_loss (finite [0; 1]) (finite [0; 1])
    = Some (Fin (1 - pearson_r [(0, 0); (1, 1)]))
  /\ MSELoss (finite [0; 1]) (finite [0; 1])
    = Some (Fin (mean_squared_error [(0, 0); (1, 1)])).
Proof.
  destruct (batch_loss_selected_by_architecture
              Arch.SiameseBERT [(0, 0); (1, 1)]) as (_ & Hp & Hm).
  assert (Hv : sum_sq (centred [0; 1]) <> 0).
  { unfold sum_sq, centred, Rmean, Rsum. simpl. lra. }
  split.
  - apply Hp; exact Hv.
  - apply Hm. discriminate.
Defined.

(** ** Zero variance *)

Lemma sum_sq_zero_all (xs : list R) :
  sum_sq xs = 0 -> Forall (fun x => x = 0) xs.
Proof.
  induction xs as [| x xs IH]; intros H; constructor.
  - pose proof (Rsum_squares_nonneg xs) as Hn.
    unfold sum_sq, Rsum in *. simpl in H. nra.
  - apply IH.
    pose proof (Rsum_squares_nonneg xs) as Hn.
    unfold sum_sq, Rsum in *. simpl in H. nra.
Qed.

Lemma Rsum_all_zero (A : Type) (f : A -> R) (xs : list A) :
  Forall (fun x => f x = 0) xs -> Rsum (map f xs) = 0.
Proof.
  unfold Rsum. induction 1 as [| x xs Hx _ IH]; simpl; [reflexivity |].
  rewrite Hx, IH. lra.
Qed.

Lemma Rsum_const (A : Type) (c : R) (xs : list A) :
  Rsum (map (fun _ => c) xs) = c * INR (List.length xs).
Proof.
  unfold Rsum. induction xs as [| x xs IH].
  - simpl. lra.
  - change (List.length (x :: xs)) with (S (List.length xs)).
    rewrite S_INR. simpl. rewrite IH. lra.
Qed.

(** A constant sample has zero variance. *)
Lemma constant_zero_variance (A : Type) (f : A -> R) (c : R) (b : list A) :
  Forall (fun p => f p = c) b -> sum_sq (centred (map f b)) = 0.
Proof.
  intros Hc.
  assert (Hmap : map f b = map (fun _ => c) b).
  { induction Hc as [| p b Hp _ IH]; simpl; [reflexivity |].
    now rewrite Hp, IH. }
  rewrite Hmap. destruct b as [| p b]; [reflexivity |].
  unfold centred, Rmean. rewrite Rsum_const, length_map.
  assert (Hn : INR (List.length (p :: b)) <> 0)
    by (apply INR_length_nonzero; discriminate).
  unfold sum_sq. rewrite !map_map. apply Rsum_all_zero.
  apply Forall_forall. intros x _. field_simplify; [lra | exact Hn].
Qed.

(** With zero variance on either side the loss comes back as not-a-number. *)
Lemma zero_variance_nan (b : list (R * R)) :
  sum_sq (centred (map fst b)) = 0 \/ sum_sq (centred (map snd b)) = 0 ->
  pearson_correlation_loss (finite (map fst b)) (finite (map snd b)) = Some NaN.
Proof.
  intros Hz. destruct b as [| p b].
  - unfold pearson_correlation_loss, tmean. simpl.
    destruct (Req_dec_T 0 0) as [_ | H]; [| now destruct H].
    simpl. destruct (Rlt_dec 0 0) as [H |]; [lra |]. simpl.
    destruct (Req_dec_T (sqrt 0 * sqrt 0) 0) as [_ | H].
    + destruct (Req_dec_T 0 0) as [_ | H]; [reflexivity | now destruct H].
    + destruct H. rewrite sqrt_0. lra.
  - rewrite pearson_loss_steps by discriminate.
    set (b' := p :: b) in *.
    rewrite fdiv_zero_zero; [reflexivity | |].
    + apply Rsum_all_zero. apply Forall_forall. intros q Hq.
      destruct Hz as [Hz | Hz]; apply sum_sq_zero_all in Hz;
        unfold centred in Hz; rewrite map_map in Hz;
        rewrite Forall_map, Forall_forall in Hz;
        specialize (Hz q Hq); cbv beta in Hz; rewrite Hz; lra.
    + destruct Hz as [Hz | Hz]; rewrite Hz, sqrt_0; lra.
Qed.

(** ** Cells that are zero: what the later lines of the loss make of them *)

Lemma fmul_zero_l (y : fval) : zero_or_nan (fmul (Fin 0) y).
Proof.
  destruct y as [b | | |]; simpl; unfold scale_inf.
  - left. f_equal. ring.
  - destruct (Req_dec_T 0 0) as [_ | H]; [now right | now destruct H].
  - destruct (Req_dec_T 0 0) as [_ | H]; [now right | now destruct H].
  - now right.
Qed.

Lemma fmul_zero_r (x : fval) : zero_or_nan (fmul x (Fin 0)).
Proof.
  destruct x as [a | | |]; simpl; unfold scale_inf.
  - left. f_equal. ring.
  - destruct (Req_dec_T 0 0) as [_ | H]; [now right | now destruct H].
  - destruct (Req_dec_T 0 0) as [_ | H]; [now right | now destruct H].
  - now right.
Qed.

Lemma fadd_zero_or_nan (x y : fval) :
  zero_or_nan x -> zero_or_nan y -> zero_or_nan (fadd x y).
Proof.
  intros [-> | ->] [-> | ->]; simpl; try now right.
  left. f_equal. ring.
Qed.

Lemma tsum_zero_or_nan (xs : tensor) :
  Forall zero_or_nan xs -> zero_or_nan (tsum xs).
Proof.
  unfold tsum. induction 1 as [| x xs Hx _ IH]; simpl.
  - now left.
  - now apply fadd_zero_or_nan.
Qed.

Lemma zip_zero_l (xs ys : tensor) :
  Forall (fun x => x = Fin 0) xs -> Forall zero_or_nan (zip_with fmul xs ys).
Proof.
  intros H. revert ys. induction H as [| x xs -> _ IH]; intros ys; simpl.
  - constructor.
  - destruct ys as [| y ys]; constructor; [apply fmul_zero_l | apply IH].
Qed.

Lemma zip_zero_r (xs ys : tensor) :
  Forall (fun y => y = Fin 0) ys -> Forall zero_or_nan (zip_with fmul xs ys).
Proof.
  intros H. revert xs. induction H as [| y ys -> _ IH]; intros xs.
  - destruct xs; constructor.
  - destruct xs as [| x xs]; simpl; constructor; [apply fmul_zero_r | apply IH].
Qed.

Lemma norm_of_zeros (xs : tensor) :
  Forall (fun x => x = Fin 0) xs -> fsqrt (tsum (map fsquare xs)) = Fin 0.
Proof.
  intros H.
  assert (Hs : tsum (map fsquare xs) = Fin 0).
  { unfold tsum. induction H as [| x xs -> _ IH]; simpl; [reflexivity |].
    rewrite IH. simpl. f_equal. ring. }
  rewrite Hs. simpl. destruct (Rlt_dec 0 0) as [Hlt |]; [lra |].
  now rewrite sqrt_0.
Qed.

Lemma fdiv_zero_or_nan (x y : fval) :
  zero_or_nan x -> zero_or_nan y -> fdiv x y = NaN.
Proof.
  intros [-> | ->] [-> | ->]; simpl; try reflexivity.
  destruct (Req_dec_T 0 0) as [_ | H]; [reflexivity | now destruct H].
Qed.

(** C4, as the code has it.  On a batch of as many outputs as labels,
    whatever their values, [pearson_correlation_loss] makes no check and
    raises nothing: it returns a value.  Whenever every cell of the
    centred outputs, or every cell of the centred labels, is zero, that
    value is not-a-number (the quotient of zero by zero), and it is the
    loss the training step of [SiameseBERT] goes on with. *)
Theorem zero_variance_batch_loss_is_nan (outputs targets : tensor) :
  List.length outputs = List.length targets ->
  (exists v, pearson_correlation_loss outputs targets = Some v)
  /\ (centred_to_zero outputs \/ centred_to_zero targets ->
      pearson_correlation_loss outputs targets = Some NaN
      /\ batch_loss (Arch.model_type Arch.SiameseBERT) outputs targets
         = Some NaN).
Proof.
  intros Hlen.
  assert (Hb : broadcast fmul (sub_scalar outputs (tmean outputs))
                 (sub_scalar targets (tmean targets))
               = Some (zip_with fmul (sub_scalar outputs (tmean outputs))
                         (sub_scalar targets (tmean targets)))).
  { unfold broadcast, sub_scalar. now rewrite !length_map, Hlen, Nat.eqb_refl. }
  split.
  - unfold pearson_correlation_loss. rewrite Hb. eexists. reflexivity.
  - intros Hz.
    assert (H : pearson_correlation_loss outputs targets = Some NaN).
    { unfold pearson_correlation_loss. rewrite Hb. unfold centred_to_zero in Hz.
      rewrite fdiv_zero_or_nan; [reflexivity | |].
      - apply tsum_zero_or_nan.
        destruct Hz as [Hz | Hz]; [now apply zip_zero_l | now apply zip_zero_r].
      - destruct Hz as [Hz | Hz].
        + rewrite (norm_of_zeros Hz). apply fmul_zero_l.
        + rewrite (norm_of_zeros Hz). apply fmul_zero_r. }
    split; [exact H | exact H].
Qed.

(** Outputs 1, 1 against labels 0, 1. *)
Lemma zero_variance_batch_loss_is_nan_witness :
  centred_to_zero (finite [1; 1])
  /\ pearson_correlation_loss (finite [1; 1]) (finite [0; 1]) = Some NaN
  /\ batch_loss "siamese" (finite [1; 1]) (finite [0; 1]) = Some NaN.
Proof.
  assert (Hz : centred_to_zero (finite [1; 1])).
  { unfold centred_to_zero.
    rewrite (@tmean_finite [1; 1]) by discriminate.
    rewrite sub_scalar_finite. unfold Rmean, Rsum. simpl.
    repeat constructor; f_equal; field. }
  split; [exact Hz |].
  apply (@zero_variance_batch_loss_is_nan (finite [1; 1]) (finite [0; 1]));
    [reflexivity | now left].
Defined.

(** C4 as stated fails: on outputs 2, 2, 2 and labels 0, 1/2, 1 the loss
    function raises nothing and substitutes nothing; it returns a value,
    and the value is not-a-number. *)
Lemma constant_outputs_not_detected :
  pearson_correlation_loss (finite [2; 2; 2]) (finite [0; 1 / 2; 1]) <> None
  /\ exists v,
       pearson_correlation_loss (finite [2; 2; 2]) (finite [0; 1 / 2; 1]) = Some v
       /\ is_nan v.
Proof.
  assert (H : pearson_correlation_loss (finite [2; 2; 2]) (finite [0; 1 / 2; 1])
              = Some NaN).
  { apply (@zero_variance_nan [(2, 0); (2, 1 / 2); (2, 1)]).
    left. apply (@constant_zero_variance _ fst 2). repeat constructor. }
  rewrite H. split; [discriminate |]. exists NaN. split; reflexivity.
Qed.

End TensorFacts.

(* ================================================================== *)
(** * Properties: the layer-freezing loop *)
(* ================================================================== *)

Module EncoderFacts.

Import Encoder.
Open Scope Z_scope.

Lemma fresh_flags (n : nat) : map requires_grad (fresh n) = repeat true n.
Proof.
  unfold fresh. induction n as [| n IH]; simpl; [reflexivity | now rewrite IH].
Qed.

Lemma freeze_flags (l : Params) :
  map requires_grad (freeze l) = repeat false (List.length l).
Proof.
  unfold freeze. induction l as [| p l IH]; simpl; [reflexivity | now rewrite IH].
Qed.

(** The flags after the loop, layer by layer, for any starting index. *)
Lemma freeze_loop_flags (n : nat) (i : nat) (M f : Z) :
  map (map requires_grad) (freeze_loop i M f (repeat (fresh 16) n))
  = map (fun j => repeat (negb (Z.of_nat j <? M - f)) 16) (seq i n).
Proof.
  revert i. induction n as [| n IH]; intros i; [reflexivity |].
  cbn [repeat freeze_loop map seq]. rewrite IH. f_equal.
  destruct (Z.of_nat i <? M - f).
  - rewrite freeze_flags. reflexivity.
  - apply fresh_flags.
Qed.

Lemma freeze_loop_length (i : nat) (M f : Z) (layers : list Params) :
  List.length (freeze_loop i M f layers) = List.length layers.
Proof.
  revert i. induction layers as [| l layers IH]; intros i; simpl;
    [reflexivity | now rewrite IH].
Qed.

Lemma forallb_flags (l : Params) :
  forallb requires_grad l = forallb (fun b => b) (map requires_grad l).
Proof.
  induction l as [| p l IH]; simpl; [reflexivity | now rewrite IH].
Qed.

(** How many indices of [a, a + n) are not below a threshold. *)
Lemma count_not_below (t : Z) (n a : nat) :
  Z.of_nat (List.length (filter (fun i => negb (Z.of_nat i <? t)) (seq a n)))
  = Z.max 0 (Z.min (Z.of_nat n) (Z.of_nat a + Z.of_nat n - t)).
Proof.
  revert a. induction n as [| n IH]; intros a.
  - simpl. lia.
  - cbn [seq filter]. destruct (Z.of_nat a <? t) eqn:E; cbn [negb].
    + apply Z.ltb_lt in E. rewrite IH. lia.
    + apply Z.ltb_ge in E. cbn [List.length]. rewrite Nat2Z.inj_succ, IH. lia.
Qed.

(** C6.  For every layer count [N] and freeze depth [f], the encoder built
    by a model's [__init__] has its five embedding tensors still trainable,
    has every parameter of layer [i] non-trainable exactly when [i < N - f]
    and trainable otherwise, and its trainable layers are the list
    [trainable_layers N f], which depends on [N] and [f] alone and has
    [f] elements when [0 <= f <= N] (in general [max 0 (min N f)]). *)
Theorem freeze_policy_first_layers (N : nat) (f : Z) :
  let bert := init_bert N f in
  map requires_grad (embeddings bert) = repeat true 5
  /\ List.length (encoder_layer bert) = N
  /\ map (map requires_grad) (encoder_layer bert)
     = map (fun i => repeat (negb (Z.of_nat i <? Z.of_nat N - f)) 16) (seq 0 N)
  /\ trainable_layer_indices bert = trainable_layers N f
  /\ Z.of_nat (List.length (trainable_layers N f))
     = Z.max 0 (Z.min (Z.of_nat N) f).
Proof.
  intros bert.
  assert (Hlen : List.length (encoder_layer bert) = N).
  { unfold bert, init_bert. cbn [encoder_layer from_pretrained].
    now rewrite freeze_loop_length, repeat_length. }
  assert (Hflags : map (map requires_grad) (encoder_layer bert)
     = map (fun i => repeat (negb (Z.of_nat i <? Z.of_nat N - f)) 16) (seq 0 N)).
  { unfold bert, init_bert. cbn [encoder_layer from_pretrained].
    rewrite repeat_length. apply freeze_loop_flags. }
  split; [reflexivity |]. split; [exact Hlen |]. split; [exact Hflags |].
  split.
  - unfold trainable_layer_indices, trainable_layers. rewrite Hlen.
    apply filter_ext_in. intros i Hi. apply in_seq in Hi.
    rewrite forallb_flags.
    rewrite <- (map_nth (map requires_grad)).
    cbn [map]. rewrite Hflags.
    rewrite (nth_indep _ [] (repeat (negb (Z.of_nat 0 <? Z.of_nat N - f)) 16))
      by (rewrite length_map, length_seq; lia).
    rewrite (map_nth (fun i => repeat (negb (Z.of_nat i <? Z.of_nat N - f)) 16)).
    rewrite seq_nth by lia. cbn [Nat.add].
    destruct (Z.of_nat i <? Z.of_nat N - f); reflexivity.
  - unfold trainable_layers. rewrite count_not_below. lia.
Qed.

End EncoderFacts.

(* ================================================================== *)
(** * Properties: masked mean pooling *)
(* ================================================================== *)

Module PoolingFacts.

Import FVal Pooling.
Open Scope R_scope.

(** A mask of zeros and ones that sums to zero is all zeros. *)
Lemma zero_sum_all_zero (tokens : Tokens) :
  Forall (fun t => snd t = 0%Z \/ snd t = 1%Z) tokens ->
  mask_sum tokens = 0%Z ->
  Forall (fun t => snd t = 0%Z) tokens.
Proof.
  intros Hb.
  assert (Hnn : forall ts : Tokens,
             Forall (fun t => snd t = 0%Z \/ snd t = 1%Z) ts ->
             (0 <= mask_sum ts)%Z).
  { induction 1 as [| t ts Ht _ IH]; unfold mask_sum in *; simpl; lia. }
  induction Hb as [| t ts Ht Hts IH]; intros Hs; constructor.
  - specialize (Hnn ts Hts). unfold mask_sum in *. simpl in Hs. lia.
  - apply IH. specialize (Hnn ts Hts). unfold mask_sum in *. simpl in Hs. lia.
Qed.

(** Under an all-zero mask a masked sum is zero or not-a-number. *)
Lemma masked_sum_zero_mask (d : nat) (tokens : Tokens) :
  Forall (fun t => snd t = 0%Z) tokens ->
  masked_sum d tokens = NaN \/ exists r, masked_sum d tokens = Fin r /\ r = 0.
Proof.
  unfold masked_sum, Tensor.tsum.
  induction 1 as [| [h m] ts Hm _ IH]; simpl.
  - right. now exists 0.
  - simpl in Hm. subst m.
    destruct IH as [-> | (r & -> & ->)].
    + left. destruct (fmul _ _); reflexivity.
    + destruct (nth d h (Fin 0)) as [x | | |]; simpl.
      * right. exists (x * 0 + 0). split; [reflexivity | lra].
      * left. unfold scale_inf.
        destruct (Req_dec_T 0 0) as [_ | H]; [reflexivity | now destruct H].
      * left. unfold scale_inf.
        destruct (Req_dec_T 0 0) as [_ | H]; [reflexivity | now destruct H].
      * now left.
Qed.

Lemma map_const_seq (A : Type) (f : nat -> A) (c : A) (a n : nat) :
  (forall i, f i = c) -> map f (seq a n) = repeat c n.
Proof.
  intros Hf. revert a. induction n as [| n IH]; intros a; simpl;
    [reflexivity | now rewrite Hf, IH].
Qed.

Lemma mask_sum_zero (tokens : Tokens) :
  Forall (fun t => snd t = 0%Z) tokens -> mask_sum tokens = 0%Z.
Proof.
  unfold mask_sum. induction 1 as [| t ts Ht _ IH]; simpl; [reflexivity | lia].
Qed.

Lemma mean_pool_zero_mask (D : nat) (tokens : Tokens) :
  Forall (fun t => snd t = 0%Z) tokens ->
  mean_pool D tokens = repeat NaN D.
Proof.
  intros Hz. unfold mean_pool. apply map_const_seq. intros d.
  rewrite (mask_sum_zero Hz).
  destruct (masked_sum_zero_mask d Hz) as [-> | (r & -> & ->)];
    [reflexivity |].
  now apply TensorFacts.fdiv_zero_zero.
Qed.

(** C7, as the code has it.  The pooling of [CrossAttentionModel.forward]
    divides without a guard: for every example whose mask of zeros and ones
    sums to 0, whatever the hidden states, every one of the [D] pooled
    components is not-a-number, and nothing is raised. *)
Theorem mean_pool_unguarded (D : nat) (tokens : Tokens) :
  Forall (fun t => snd t = 0%Z \/ snd t = 1%Z) tokens ->
  mask_sum tokens = 0%Z ->
  mean_pool D tokens = repeat NaN D.
Proof.
  intros Hb Hs. apply mean_pool_zero_mask. now apply zero_sum_all_zero.
Qed.

(** Two tokens of hidden size 2, both masked out. *)
Lemma mean_pool_unguarded_witness :
  mean_pool 2 [([Fin 1; Fin 2], 0%Z); ([Fin 3; Fin 4], 0%Z)] = [NaN; NaN].
Proof.
  apply (@mean_pool_unguarded 2 [([Fin 1; Fin 2], 0%Z); ([Fin 3; Fin 4], 0%Z)]).
  - repeat constructor; now left.
  - reflexivity.
Defined.

(** C7 as stated fails: the batch made of one example with a single token
    of hidden state 7 and mask 0 is pooled to a value, and the value is
    not-a-number. *)
Lemma zero_mask_pooled_to_nan :
  exists v, mean_pool_batch 1 [[([Fin 7], 0%Z)]] = [[v]] /\ is_nan v.
Proof.
  exists NaN. split; [| reflexivity].
  unfold mean_pool_batch. cbn [map].
  rewrite (@mean_pool_zero_mask 1 [([Fin 7], 0%Z)]); [reflexivity |].
  repeat constructor.
Qed.

End PoolingFacts.

(* ================================================================== *)
(** * Properties: output shapes *)
(* ================================================================== *)

Module ShapeFacts.

Import Shape.

Lemma broadcast_aligned_refl (x : list nat) : broadcast_aligned x x = Some x.
Proof.
  induction x as [| a x IH]; simpl; [reflexivity |].
  now rewrite IH, Nat.eqb_refl.
Qed.

Lemma broadcast_shapes_refl (x : shape) : broadcast_shapes x x = Some x.
Proof.
  unfold broadcast_shapes. rewrite broadcast_aligned_refl. simpl.
  now rewrite rev_involutive.
Qed.

(** The shape a [forward] returns for a batch of [B] pairs whose sides are
    padded to [S l1] and [S l2] tokens. *)
Lemma forward_shape (a : Arch.arch) (B l1 l2 : nat) :
  forward a [B; S l1] [B; S l1] [B; S l2] [B; S l2] = Some (squeeze [B; 1]).
Proof.
  destruct a; unfold forward, last_hidden_state, expand_mask, first_token,
    sum_dim1, attention, unsqueeze0, squeeze0, regressor, Linear;
    repeat (progress (rewrite ?Nat.eqb_refl, ?broadcast_shapes_refl;
                      cbn [bind andb cat_dim1 rev app]));
    reflexivity.
Qed.

(** C10.  For a batch of exactly one pair each of the three [forward]
    methods returns a tensor of no dimension, not a vector of length 1: the
    final [squeeze()] removes the batch dimension together with the output
    dimension; for a batch of two or more pairs the result is a vector with
    one cell per pair. *)
Theorem forward_single_pair_is_scalar (a : Arch.arch) (l1 l2 : nat) :
  forward a [1; S l1] [1; S l1] [1; S l2] [1; S l2] = Some []
  /\ forward a [1; S l1] [1; S l1] [1; S l2] [1; S l2] <> Some [1]
  /\ forall b, forward a [S (S b); S l1] [S (S b); S l1]
                 [S (S b); S l2] [S (S b); S l2] = Some [S (S b)].
Proof.
  rewrite forward_shape. split; [reflexivity |]. split; [discriminate |].
  intros b. rewrite forward_shape. reflexivity.
Qed.

End ShapeFacts.

(* ================================================================== *)
(** * Properties: the tokenizer calls *)
(* ================================================================== *)

Module TokenizerFacts.

Import Tokenizer.
Open Scope nat_scope.

Section Calls.

Variable wordpiece : string -> list Z.

Lemma true_length_value (s : string) :
  true_length wordpiece 128 s = Nat.min (List.length (wordpiece s)) 126 + 2.
Proof.
  unfold true_length, with_special_tokens.
  cbn [List.length]. rewrite length_app, length_firstn.
  cbn [List.length]. lia.
Qed.

Lemma true_length_bound (s : string) : true_length wordpiece 128 s <= 128.
Proof. rewrite true_length_value. lia. Qed.

(** The preprocessing call returns the sentence unpadded. *)
Lemma unpadded_call (s : string) :
  tokenizer wordpiece s DoNotPad true 128
  = {| input_ids := with_special_tokens wordpiece true 128 s;
       attention_mask := repeat 1%Z (true_length wordpiece 128 s) |}.
Proof. reflexivity. Qed.

(** The inference call fills the sentence up to 128 positions. *)
Lemma padded_call (s : string) :
  let e := tokenizer wordpiece s MaxLength true 128 in
  input_ids e
    = with_special_tokens wordpiece true 128 s
      ++ repeat pad_token_id (128 - true_length wordpiece 128 s)
  /\ attention_mask e
    = repeat 1%Z (true_length wordpiece 128 s)
      ++ repeat 0%Z (128 - true_length wordpiece 128 s)
  /\ List.length (input_ids e) = 128
  /\ List.length (attention_mask e) = 128.
Proof.
  pose proof (true_length_bound s) as Hb.
  unfold tokenizer. cbn [input_ids attention_mask].
  fold (true_length wordpiece 128 s).
  repeat split; try reflexivity.
  - rewrite length_app, repeat_length.
    fold (true_length wordpiece 128 s). lia.
  - rewrite length_app, !repeat_length. lia.
Qed.

(** C8, as the code has it.  The preprocessing calls of
    [tokenize_function] truncate to 128 and do not pad: each encoding has
    the sentence's true token length, at most 128, under a mask of ones.
    The two calls of [infer_similarity] truncate to 128 and then pad: ids
    and mask have exactly 128 positions, the sentence's tokens followed by
    pad ids, under a mask of ones followed by zeros. *)
Theorem tokenizer_calls_padding (col1 col2 : list string) (s1 s2 : string) :
  let unpadded s :=
    {| input_ids := with_special_tokens wordpiece true 128 s;
       attention_mask := repeat 1%Z (true_length wordpiece 128 s) |} in
  let padded s :=
    {| input_ids :=
         with_special_tokens wordpiece true 128 s
         ++ repeat pad_token_id (128 - true_length wordpiece 128 s);
       attention_mask :=
         repeat 1%Z (true_length wordpiece 128 s)
         ++ repeat 0%Z (128 - true_length wordpiece 128 s) |} in
  tokenize_function wordpiece col1 col2 = (map unpadded col1, map unpadded col2)
  /\ Forall (fun e => List.length (input_ids e) <= 128
                      /\ List.length (attention_mask e) = List.length (input_ids e))
       (fst (tokenize_function wordpiece col1 col2)
        ++ snd (tokenize_function wordpiece col1 col2))
  /\ infer_encodings wordpiece s1 s2 = (padded s1, padded s2)
  /\ List.length (input_ids (fst (infer_encodings wordpiece s1 s2))) = 128
  /\ List.length (input_ids (snd (infer_encodings wordpiece s1 s2))) = 128.
Proof.
  intros unpadded padded.
  split; [reflexivity |]. split.
  - unfold tokenize_function. cbn [fst snd]. rewrite <- map_app.
    apply Forall_forall. intros e He. apply in_map_iff in He as (s & <- & _).
    rewrite unpadded_call. cbn [input_ids attention_mask].
    rewrite repeat_length. split; [apply true_length_bound | reflexivity].
  - split; [reflexivity |].
    unfold infer_encodings. cbn [fst snd].
    split; apply padded_call.
Qed.

End Calls.

(** C8 as stated fails at inference: for the two-character sentence ["hi"],
    four tokens long with its special tokens, the first tokenizer call of
    [infer_similarity] returns 128 ids, the last 124 of them under mask 0. *)
Lemma inference_call_pads :
  let e := fst (infer_encodings char_tokens "hi" "yo") in
  true_length char_tokens 128 "hi" = 4
  /\ List.length (input_ids e) = 128
  /\ List.length (input_ids e) <> true_length char_tokens 128 "hi"
  /\ skipn 4 (attention_mask e) = repeat 0%Z 124.
Proof.
  vm_compute. repeat split; try reflexivity. discriminate.
Qed.

End TokenizerFacts.

(* ================================================================== *)
(** * Properties: the padding collator *)
(* ================================================================== *)

Module CollatorFacts.

Import Collator.
Open Scope nat_scope.

(** The items of the dataset built by [tokenize_function] are tokenized
    examples. *)
Lemma getitem_tokenized (wordpiece : string -> list Z) (s1 s2 : string) (score : Q) :
  tokenized
    (getitem (Tokenizer.tokenizer wordpiece s1 Tokenizer.DoNotPad true 128)
             (Tokenizer.tokenizer wordpiece s2 Tokenizer.DoNotPad true 128)
             score).
Proof. split; reflexivity. Qed.

Lemma longest_bound (features : list Features) (f : Features) :
  In f features -> List.length (input_ids f) <= longest features.
Proof.
  unfold longest. induction features as [| g gs IH]; simpl; [tauto |].
  intros [<- | Hin]; [lia |]. specialize (IH Hin). lia.
Qed.

(** The longest length is the length of one of the rows. *)
Lemma longest_attained (features : list Features) :
  features <> [] ->
  exists f, In f features /\ List.length (input_ids f) = longest features.
Proof.
  unfold longest. induction features as [| g gs IH]; [congruence |].
  intros _. destruct gs as [| h hs].
  - exists g. simpl. split; [now left | lia].
  - destruct IH as (f & Hin & Hlen); [discriminate |].
    cbn [map fold_right] in *.
    destruct (Nat.max_spec (List.length (input_ids g))
                (Nat.max (List.length (input_ids h))
                   (fold_right Nat.max 0
                      (map (fun f0 => List.length (input_ids f0)) hs))))
      as [[_ ->] | [_ ->]].
    + exists f. split; [now right | exact Hlen].
    + exists g. split; [now left | reflexivity].
Qed.

Lemma pad_row_length (w : nat) (f : Features) :
  List.length (input_ids f) <= w ->
  List.length (input_ids (pad_row w f)) = w.
Proof.
  intros Hle. unfold pad_row. cbn [input_ids].
  rewrite length_app, repeat_length. lia.
Qed.

Lemma mask_cells (len n a : nat) :
  map (fun j => if Nat.ltb j len then 1%Z else 0%Z) (seq a n)
  = repeat 1%Z (Nat.min n (len - a)) ++ repeat 0%Z (n - (len - a)).
Proof.
  revert a. induction n as [| n IH]; intros a; [reflexivity |].
  cbn [seq map]. rewrite IH.
  destruct (Nat.ltb_spec a len) as [Hlt | Hge].
  - replace (len - a) with (S (len - S a)) by lia.
    cbn [Nat.min Nat.sub repeat app]. reflexivity.
  - replace (len - a) with 0 by lia. replace (len - S a) with 0 by lia.
    rewrite Nat.min_0_r, !Nat.sub_0_r. reflexivity.
Qed.

Lemma mask_row_split (w len : nat) :
  len <= w -> mask_row w len = repeat 1%Z len ++ repeat 0%Z (w - len).
Proof.
  intros Hle. unfold mask_row. rewrite mask_cells, Nat.sub_0_r.
  now rewrite Nat.min_r by exact Hle.
Qed.

Lemma longest_side1 (examples : list Example) :
  longest (map (fun ex => mkFeatures (input_ids1 ex) (attention_mask1 ex)) examples)
  = max_length1 examples.
Proof. unfold longest, max_length1. now rewrite map_map. Qed.

Lemma longest_side2 (examples : list Example) :
  longest (map (fun ex => mkFeatures (input_ids2 ex) (attention_mask2 ex)) examples)
  = max_length2 examples.
Proof. unfold longest, max_length2. now rewrite map_map. Qed.

Lemma max_length1_bound (examples : list Example) (ex : Example) :
  In ex examples -> List.length (input_ids1 ex) <= max_length1 examples.
Proof.
  intros Hin. rewrite <- longest_side1.
  apply (longest_bound _ (mkFeatures (input_ids1 ex) (attention_mask1 ex))).
  apply in_map_iff. now exists ex.
Qed.

Lemma max_length2_bound (examples : list Example) (ex : Example) :
  In ex examples -> List.length (input_ids2 ex) <= max_length2 examples.
Proof.
  intros Hin. rewrite <- longest_side2.
  apply (longest_bound _ (mkFeatures (input_ids2 ex) (attention_mask2 ex))).
  apply in_map_iff. now exists ex.
Qed.

(** The padded rows of one side of a list of tokenized sequences. *)
Lemma padded_side (A : Type) (ids mask : A -> list Z) (xs : list A) (w : nat) :
  (forall x, In x xs -> List.length (ids x) <= w) ->
  (forall x, In x xs -> mask x = repeat 1%Z (List.length (ids x))) ->
  let rows := map (pad_row w) (map (fun x => mkFeatures (ids x) (mask x)) xs) in
  map input_ids rows
    = map (fun x => ids x ++ repeat pad_token_id (w - List.length (ids x))) xs
  /\ map attention_mask rows
    = map (fun x => mask_row w (List.length (ids x))) xs
  /\ Forall (fun row => List.length row = w)
       (map input_ids rows ++ map attention_mask rows).
Proof.
  intros Hle Hmask rows. unfold rows. rewrite !map_map.
  assert (Hm : map (fun x => attention_mask (pad_row w (mkFeatures (ids x) (mask x)))) xs
               = map (fun x => mask_row w (List.length (ids x))) xs).
  { apply map_ext_in. intros x Hx. unfold pad_row. cbn [input_ids attention_mask].
    rewrite (Hmask x Hx), mask_row_split by auto. reflexivity. }
  split; [reflexivity |]. split; [exact Hm |].
  apply Forall_app. split; apply Forall_forall; intros row Hrow.
  - apply in_map_iff in Hrow as (x & <- & Hx).
    apply pad_row_length. cbn [input_ids]. auto.
  - rewrite Hm in Hrow. apply in_map_iff in Hrow as (x & <- & Hx).
    unfold mask_row. now rewrite length_map, length_seq.
Qed.

(** C5.  For every list of examples as the tokenisation step produces them,
    the collator returns, in the order of the list: on each side the ids of
    each example followed by pad ids up to that side's own maximum length in
    this list, a mask that is 1 on the example's tokens and 0 exactly on the
    padding, all rows of a side having the side's maximum as width (a length
    that one of the examples has, so no row is wider than the longest
    sequence of the call, and the two sides need not agree); the labels of
    the examples as one vector in the same order; and the list of examples
    is left as it was. *)
Theorem collator_pads_each_side_to_batch_maximum (examples : list Example) :
  Forall tokenized examples ->
  let batch := fst (data_collator examples) in
  let L1 := max_length1 examples in
  let L2 := max_length2 examples in
  b_input_ids1 batch
    = map (fun ex => input_ids1 ex
                     ++ repeat pad_token_id (L1 - List.length (input_ids1 ex)))
        examples
  /\ b_input_ids2 batch
    = map (fun ex => input_ids2 ex
                     ++ repeat pad_token_id (L2 - List.length (input_ids2 ex)))
        examples
  /\ b_attention_mask1 batch
    = map (fun ex => mask_row L1 (List.length (input_ids1 ex))) examples
  /\ b_attention_mask2 batch
    = map (fun ex => mask_row L2 (List.length (input_ids2 ex))) examples
  /\ Forall (fun row => List.length row = L1)
       (b_input_ids1 batch ++ b_attention_mask1 batch)
  /\ Forall (fun row => List.length row = L2)
       (b_input_ids2 batch ++ b_attention_mask2 batch)
  /\ (examples <> [] ->
      (exists ex, In ex examples /\ List.length (input_ids1 ex) = L1) /\
      (exists ex, In ex examples /\ List.length (input_ids2 ex) = L2))
  /\ b_labels batch = map labels examples
  /\ snd (data_collator examples) = examples.
Proof.
  intros Htok batch L1 L2.
  rewrite Forall_forall in Htok.
  destruct (@padded_side Example input_ids1 attention_mask1 examples L1)
    as (Hi1 & Hm1 & Hw1).
  { intros x Hx. now apply max_length1_bound. }
  { intros x Hx. apply (Htok x Hx). }
  destruct (@padded_side Example input_ids2 attention_mask2 examples L2)
    as (Hi2 & Hm2 & Hw2).
  { intros x Hx. now apply max_length2_bound. }
  { intros x Hx. apply (Htok x Hx). }
  assert (E1 : b_input_ids1 batch = map input_ids (map (pad_row L1)
            (map (fun x => mkFeatures (input_ids1 x) (attention_mask1 x)) examples))).
  { unfold batch, data_collator, call, padding_collator.
    cbn [fst b_input_ids1 p_input_ids]. now rewrite longest_side1. }
  assert (E2 : b_input_ids2 batch = map input_ids (map (pad_row L2)
            (map (fun x => mkFeatures (input_ids2 x) (attention_mask2 x)) examples))).
  { unfold batch, data_collator, call, padding_collator.
    cbn [fst b_input_ids2 p_input_ids]. now rewrite longest_side2. }
  assert (F1 : b_attention_mask1 batch = map attention_mask (map (pad_row L1)
            (map (fun x => mkFeatures (input_ids1 x) (attention_mask1 x)) examples))).
  { unfold batch, data_collator, call, padding_collator.
    cbn [fst b_attention_mask1 p_attention_mask]. now rewrite longest_side1. }
  assert (F2 : b_attention_mask2 batch = map attention_mask (map (pad_row L2)
            (map (fun x => mkFeatures (input_ids2 x) (attention_mask2 x)) examples))).
  { unfold batch, data_collator, call, padding_collator.
    cbn [fst b_attention_mask2 p_attention_mask]. now rewrite longest_side2. }
  rewrite E1, E2, F1, F2.
  repeat (split; [assumption |]).
  split; [| split; reflexivity].
  intros Hne. split.
  - destruct (@longest_attained
                (map (fun ex => mkFeatures (input_ids1 ex) (attention_mask1 ex)) examples))
      as (f & Hin & Hlen).
    { destruct examples; [congruence | discriminate]. }
    apply in_map_iff in Hin as (ex & <- & Hin).
    exists ex. split; [exact Hin |].
    cbn [input_ids] in Hlen. now rewrite longest_side1 in Hlen.
  - destruct (@longest_attained
                (map (fun ex => mkFeatures (input_ids2 ex) (attention_mask2 ex)) examples))
      as (f & Hin & Hlen).
    { destruct examples; [congruence | discriminate]. }
    apply in_map_iff in Hin as (ex & <- & Hin).
    exists ex. split; [exact Hin |].
    cbn [input_ids] in Hlen. now rewrite longest_side2 in Hlen.
Qed.

(** The three examples of side-1 lengths 5, 12, 8: width 12 on side 1,
    width 7 on side 2, masks of 5, 12 and 8 ones, labels in order. *)
Lemma collator_pads_each_side_to_batch_maximum_witness :
  let batch := fst (data_collator three_examples) in
  Forall (fun row => List.length row = 12)
    (b_input_ids1 batch ++ b_attention_mask1 batch)
  /\ Forall (fun row => List.length row = 7)
    (b_input_ids2 batch ++ b_attention_mask2 batch)
  /\ b_attention_mask1 batch = [mask_row 12 5; mask_row 12 12; mask_row 12 8]
  /\ b_labels batch = [1 # 5; 1; 1 # 2]%Q
  /\ snd (data_collator three_examples) = three_examples.
Proof.
  assert (Htok : Forall tokenized three_examples).
  { repeat constructor. }
  destruct (collator_pads_each_side_to_batch_maximum Htok)
    as (_ & _ & Hm1 & _ & Hw1 & Hw2 & _ & Hl & Hs).
  intros batch.
  split; [exact Hw1 |]. split; [exact Hw2 |]. split; [exact Hm1 |].
  split; [exact Hl | exact Hs].
Defined.

End CollatorFacts.

(* ================================================================== *)
(** * Properties: the inference rescaling *)
(* ================================================================== *)

Module InferenceFacts.

Import FVal Inference.
Open Scope R_scope.

Lemma sigmoid_bounds (z : R) : 0 < sigmoid z < 1.
Proof.
  unfold sigmoid. pose proof (exp_pos (- z)) as He.
  assert (Hd : 0 < 1 + exp (- z)) by lra.
  pose proof (Rinv_0_lt_compat _ Hd) as Hi.
  assert (Hone : (1 + exp (- z)) * / (1 + exp (- z)) = 1) by (field; lra).
  unfold Rdiv. rewrite Rmult_1_l. split; [exact Hi | nra].
Qed.

Lemma tanh_bounds (x : R) : -1 < tanh x < 1.
Proof.
  unfold tanh, sinh, cosh.
  pose proof (exp_pos x) as Hp. pose proof (exp_pos (- x)) as Hq.
  set (p := exp x) in *. set (q := exp (- x)) in *.
  assert (Hd : 0 < (p + q) / 2) by lra.
  pose proof (Rinv_0_lt_compat _ Hd) as Hi.
  assert (Hone : ((p + q) / 2) * / ((p + q) / 2) = 1) by (field; lra).
  unfold Rdiv at 1 3. split; nra.
Qed.

Lemma rescaled_sigmoid_cell (z : fval) :
  z <> NaN -> exists s, fmul (fsigmoid z) (Fin 5) = Fin s /\ 0 <= s <= 5.
Proof.
  destruct z as [r | | |]; intros Hz; simpl.
  - exists (sigmoid r * 5). split; [reflexivity |].
    pose proof (sigmoid_bounds r). lra.
  - exists (1 * 5). split; [reflexivity | lra].
  - exists (0 * 5). split; [reflexivity | lra].
  - now destruct Hz.
Qed.

Lemma rescaled_tanh_cell (x : fval) :
  x <> NaN ->
  exists s, fadd (fmul (ftanh x) (Fin 2.5)) (Fin 2.5) = Fin s /\ 0 <= s <= 5.
Proof.
  destruct x as [r | | |]; intros Hx; simpl.
  - exists (tanh r * 2.5 + 2.5). split; [reflexivity |].
    pose proof (tanh_bounds r). lra.
  - exists (1 * 2.5 + 2.5). split; [reflexivity | lra].
  - exists (- 1 * 2.5 + 2.5). split; [reflexivity | lra].
  - now destruct Hx.
Qed.

Section Network.

Variable wordpiece : string -> list Z.
Variable logit : Arch.arch -> Tokenizer.Encoding -> Tokenizer.Encoding -> fval.

(** C9, as the code has it.  For every model and every pair of
    sentences, [infer_similarity] returns five times the raw output of a
    sigmoid-ended head ([SentenceSimilarityModelOne],
    [CrossAttentionModel]) and [tanh x * 2.5 + 2.5] of the raw output [x]
    of [SiameseBERT].  A raw output that is not a number comes back as
    not a number; for every other raw output the returned score is a
    number between 0 and 5. *)
Theorem inference_score_within_scale (a : Arch.arch) (s1 s2 : string) :
  let encoded := Tokenizer.infer_encodings wordpiece s1 s2 in
  let x := forward logit a (fst encoded) (snd encoded) in
  infer_similarity wordpiece logit a s1 s2
    = match a with
      | Arch.SiameseBERT => fadd (fmul (ftanh x) (Fin 2.5)) (Fin 2.5)
      | _ => fmul x (Fin 5)
      end
  /\ (x = NaN -> infer_similarity wordpiece logit a s1 s2 = NaN)
  /\ (x <> NaN ->
      exists s, infer_similarity wordpiece logit a s1 s2 = Fin s
                /\ 0 <= s <= 5).
Proof.
  intros encoded x. unfold infer_similarity.
  change (Tokenizer.infer_encodings wordpiece s1 s2) with encoded.
  destruct encoded as [e1 e2] eqn:E. cbn [fst snd] in x. fold x.
  destruct a; unfold rescale; cbn [Arch.is_siamese];
    (split; [reflexivity |]); split.
  - intros ->. reflexivity.
  - intros Hx. unfold x, forward, final_activation in *.
    apply rescaled_sigmoid_cell. intros Hz. apply Hx. now rewrite Hz.
  - intros ->. reflexivity.
  - intros Hx. now apply rescaled_tanh_cell.
  - intros ->. reflexivity.
  - intros Hx. unfold x, forward, final_activation in *.
    apply rescaled_sigmoid_cell. intros Hz. apply Hx. now rewrite Hz.
Qed.

End Network.

(** C9 as stated fails: a model whose raw output is not a number gives a
    score that is not a number, hence no score between 0 and 5, with the
    [tanh] rescaling as with the factor 5. *)
Lemma nan_output_leaves_scale :
  infer_similarity Tokenizer.char_tokens nan_logit Arch.SiameseBERT "a" "b"
    = NaN
  /\ infer_similarity Tokenizer.char_tokens nan_logit
       Arch.CrossAttentionModel "a" "b" = NaN
  /\ ~ (exists s,
          infer_similarity Tokenizer.char_tokens nan_logit Arch.SiameseBERT
            "a" "b" = Fin s /\ 0 <= s <= 5).
Proof.
  assert (H : forall a,
             infer_similarity Tokenizer.char_tokens nan_logit a "a" "b" = NaN).
  { intros a. unfold infer_similarity.
    destruct (Tokenizer.infer_encodings Tokenizer.char_tokens "a" "b").
    now destruct a. }
  rewrite !H. repeat split. intros (s & Hs & _). discriminate.
Qed.

End InferenceFacts.

(* ================================================================== *)
(** * Further properties: what [train_model] returns *)
(* ================================================================== *)

Module TrainResult.

Import Train TrainTrace.
Open Scope Q_scope.

Section ResultFacts.

Variable Model : Type.
Variable Loss : Type.
Variable train_epoch : nat -> Model -> option (Model * Loss).
Variable evaluate_model : Model -> option pyfloat.

Local Notation "'State'" := (Train.State Model Loss).
Local Notation "'run'" := (Train.run train_epoch evaluate_model).
Local Notation "'step'" := (epoch_body train_epoch evaluate_model).
Local Notation "'metric'" := (metric_at train_epoch evaluate_model).
Local Notation "'after'" := (model_after train_epoch evaluate_model).

(** What one more epoch adds to the trace, and what it does to the file
    and the maximum. *)
Lemma trace_step (m : Model) (file : option Model) (k : nat) (st st' : State) :
  run k m file = Some st ->
  run (S k) m file = Some st' ->
  exists corr,
    metric m file k = Some corr
    /\ after m file k = Some (model st')
    /\ observed st' = observed st ++ [corr]
    /\ List.length (history st') = S (List.length (history st))
    /\ ((gt corr (best_pearson st) = true /\
         best_model_file st' = Some (model st') /\
         best_pearson st' = corr)
        \/
        (gt corr (best_pearson st) = false /\
         best_model_file st' = best_model_file st /\
         best_pearson st' = best_pearson st)).
Proof.
  intros Hrun Hrun'.
  destruct (@TrainFacts.run_succ_some _ _ _ _ _ _ _ _ Hrun')
    as (st0 & Hst0 & Hstep).
  assert (st0 = st) by congruence. subst st0.
  destruct (@TrainFacts.step_cases _ _ _ _ _ _ _ Hstep)
    as (m' & loss & corr & Htr & Hev & Hm & Hh & Hcase).
  exists corr. split; [| split; [| split; [| split]]].
  - unfold metric_at. now rewrite Hrun, Htr.
  - unfold model_after. now rewrite Hrun'.
  - exact (@TrainFacts.observed_step _ _ _ _ _ _ Hh).
  - rewrite Hh, length_app. simpl. lia.
  - destruct Hcase as [(Hgt & _ & Hf & Hb) | (Hgt & _ & Hf & Hb)];
      [left | right]; repeat split; congruence.
Qed.

Lemma trace_of_run (m : Model) (file : option Model) (n : nat) (st : State) :
  run n m file = Some st ->
  List.length (history st) = n
  /\ map Some (observed st) = map (metric m file) (seq 0 n).
Proof.
  revert st. induction n as [| n IH]; intros st Hrun.
  - injection Hrun as <-. split; reflexivity.
  - destruct (@TrainFacts.run_succ_some _ _ _ _ _ _ _ _ Hrun)
      as (st0 & Hst0 & _).
    destruct (IH _ Hst0) as [Hlen Hobs].
    destruct (@trace_step _ _ _ _ _ Hst0 Hrun) as (corr & Hmet & _ & Ho & Hl & _).
    split; [lia |].
    rewrite Ho, map_app, Hobs, seq_S, map_app. simpl. now rewrite Hmet.
Qed.

(** X1.  After [n] epochs that ended without an exception the history has
    one entry per epoch, and its validation metrics are those of the
    successive epochs, in order. *)
Theorem history_one_entry_per_epoch
  (m : Model) (file : option Model) (n : nat) (st : State) :
  run n m file = Some st ->
  List.length (history st) = n
  /\ map Some (observed st) = map (metric m file) (seq 0 n).
Proof.
  apply trace_of_run.
Qed.

(** The loop fails exactly when the training pass or the evaluation of
    one of its epochs raises. *)
Lemma run_fails_iff (m : Model) (file : option Model) (n : nat) :
  run n m file = None <-> exists k, (k < n)%nat /\ metric m file k = None.
Proof.
  induction n as [| n IH].
  - split; [discriminate | intros (k & Hk & _); lia].
  - rewrite TrainFacts.run_succ.
    destruct (run n m file) as [st |] eqn:Hrun; simpl.
    + assert (Hsame : step st n = None <-> metric m file n = None).
      { unfold metric_at, epoch_body. rewrite Hrun.
        destruct (train_epoch n (model st)) as [[m' loss] |]; [| tauto].
        destruct (evaluate_model m') as [corr |]; [| tauto].
        destruct (gt corr (best_pearson st)); split; discriminate. }
      rewrite Hsame. split.
      * intros H. exists n. split; [lia | exact H].
      * intros (k & Hk & Hm). destruct (Nat.eq_dec k n) as [-> | Hne];
          [exact Hm |].
        exfalso. assert (Hex : exists k, (k < n)%nat /\ metric m file k = None)
          by (exists k; split; [lia | exact Hm]).
        apply IH in Hex. discriminate.
    + split; [| reflexivity]. intros _.
      destruct IH as [IH _]. destruct (IH eq_refl) as (k & Hk & Hm).
      exists k. split; [lia | exact Hm].
Qed.

(** After the epochs run so far, either the file holds the parameters of
    the earliest epoch whose metric is the largest number observed, or no
    metric has been a number and the file is the one left from before. *)
Lemma earliest_best (m : Model) (file : option Model) (n : nat) (st : State) :
  run n m file = Some st ->
  (exists e q ck,
     (e < n)%nat
     /\ metric m file e = Some (Num q)
     /\ after m file e = Some ck
     /\ best_model_file st = Some ck
     /\ best_pearson st = Num q
     /\ (forall j q', (j < e)%nat -> metric m file j = Some (Num q') -> q' < q)
     /\ (forall j q', (j < n)%nat -> metric m file j = Some (Num q') -> q' <= q))
  \/
  ((forall j q, (j < n)%nat -> metric m file j <> Some (Num q))
   /\ best_model_file st = file
   /\ best_pearson st = MinusInf).
Proof.
  revert st. induction n as [| n IH]; intros st Hrun.
  - injection Hrun as <-. right. repeat split; auto. intros j q Hj. lia.
  - destruct (@TrainFacts.run_succ_some _ _ _ _ _ _ _ _ Hrun)
      as (st0 & Hst0 & _).
    specialize (IH _ Hst0).
    destruct (@trace_step _ _ _ _ _ Hst0 Hrun)
      as (corr & Hmet & Haft & _ & _ & [(Hgt & Hf & Hb) | (Hgt & Hf & Hb)]).
    + destruct (@TrainFacts.gt_numeric _ _ Hgt) as [a ->].
      left. exists n, a, (model st). repeat split; auto.
      * intros j q' Hj Hq'.
        destruct IH as [(e & q & ck & He & _ & _ & _ & Hbest & _ & Hle)
                       | (Hnone & _)].
        -- rewrite Hbest in Hgt. apply TrainFacts.gt_num_num in Hgt.
           eapply Qle_lt_trans; [apply (Hle j q' Hj Hq') | exact Hgt].
        -- exfalso. exact (Hnone j q' Hj Hq').
      * intros j q' Hj Hq'.
        destruct (Nat.eq_dec j n) as [-> | Hne].
        -- rewrite Hmet in Hq'. injection Hq' as <-. apply Qle_refl.
        -- assert (Hj' : (j < n)%nat) by lia.
           destruct IH as [(e & q & ck & He & _ & _ & _ & Hbest & _ & Hle)
                          | (Hnone & _)].
           ++ rewrite Hbest in Hgt. apply TrainFacts.gt_num_num in Hgt.
              apply Qlt_le_weak.
              eapply Qle_lt_trans; [apply (Hle j q' Hj' Hq') | exact Hgt].
           ++ exfalso. exact (Hnone j q' Hj' Hq').
    + destruct IH as [(e & q & ck & He & Hme & Hae & Hfile & Hbest & Hlt & Hle)
                     | (Hnone & Hfile & Hbest)].
      * left. exists e, q, ck. repeat split; auto; try congruence.
        intros j q' Hj Hq'.
        destruct (Nat.eq_dec j n) as [-> | Hne]; [| apply (Hle j q'); [lia | exact Hq']].
        rewrite Hmet in Hq'. injection Hq' as ->.
        rewrite Hbest in Hgt. now apply TrainFacts.not_gt_num_num.
      * right. repeat split; try congruence.
        intros j q Hj Hq.
        destruct (Nat.eq_dec j n) as [-> | Hne]; [| apply (Hnone j q); [lia | exact Hq]].
        rewrite Hmet in Hq. injection Hq as ->.
        rewrite Hbest in Hgt. discriminate.
Qed.

(** X2.  When [train_model] returns, it returns the history of the run
    and either the parameters the model had at the end of the earliest
    epoch whose validation metric is the largest number of the run,
    together with that metric, or, when no epoch's metric was a number,
    the parameters that were in the file before the run, together with
    minus infinity. *)
Theorem train_model_returns_earliest_best
  (m : Model) (file : option Model) (n : nat)
  (ck : Model) (hist : list (Loss * pyfloat)) (best : pyfloat) :
  train_model train_epoch evaluate_model m n file = Some (ck, hist, best) ->
  List.length hist = n
  /\ map Some (map snd hist) = map (metric m file) (seq 0 n)
  /\ ((exists e q,
         (e < n)%nat
         /\ metric m file e = Some (Num q)
         /\ after m file e = Some ck
         /\ best = Num q
         /\ (forall j q', (j < e)%nat ->
               metric m file j = Some (Num q') -> q' < q)
         /\ (forall j q', (j < n)%nat ->
               metric m file j = Some (Num q') -> q' <= q))
      \/
      ((forall j q, (j < n)%nat -> metric m file j <> Some (Num q))
       /\ file = Some ck
       /\ best = MinusInf)).
Proof.
  unfold train_model.
  destruct (run n m file) as [st |] eqn:Hrun; [| discriminate].
  destruct (best_model_file st) as [ck' |] eqn:Hfile; [| discriminate].
  intros H. injection H as <- <- <-.
  destruct (@trace_of_run _ _ _ _ Hrun) as [Hlen Hobs].
  split; [exact Hlen |]. split; [exact Hobs |].
  destruct (@earliest_best _ _ _ _ Hrun)
    as [(e & q & ck & He & Hme & Hae & Hf & Hb & Hlt & Hle) | (Hnone & Hf & Hb)].
  - left. exists e, q. repeat split; auto; congruence.
  - right. repeat split; auto; congruence.
Qed.

(** X29.  [train_model] fails exactly when the training pass or the
    evaluation of one of its epochs raises, or when no epoch's validation
    metric was a number (as with no epoch at all, or with [nan] in every
    epoch) and there was no checkpoint file before the run. *)
Theorem train_model_fails_only_without_file
  (m : Model) (file : option Model) (epochs : nat) :
  train_model train_epoch evaluate_model m epochs file = None
  <-> (exists k, (k < epochs)%nat /\ metric m file k = None)
      \/ (file = None
          /\ forall k q, (k < epochs)%nat -> metric m file k <> Some (Num q)).
Proof.
  unfold train_model.
  destruct (run epochs m file) as [st |] eqn:Hrun.
  - assert (Hok : ~ exists k, (k < epochs)%nat /\ metric m file k = None).
    { intros Hex. apply run_fails_iff in Hex. congruence. }
    destruct (@earliest_best _ _ _ _ Hrun)
      as [(e & q & ck & He & Hme & _ & Hf & _) | (Hnone & Hf & _)].
    + rewrite Hf. split; [discriminate |].
      intros [Hex | [_ Hnone]]; [now destruct Hok |].
      exfalso. exact (Hnone e q He Hme).
    + rewrite Hf. destruct file as [stale |].
      * split; [discriminate |].
        intros [Hex | [Hno _]]; [now destruct Hok | discriminate].
      * split; [| reflexivity]. intros _. right. split; [reflexivity | exact Hnone].
  - split; [| reflexivity]. intros _. left. now apply run_fails_iff.
Qed.

End ResultFacts.

(** The toy run: metrics 1/2, 1/4, 3/4 in three epochs. *)
Lemma history_one_entry_per_epoch_witness :
  exists st,
    Train.run toy_epoch toy_metric 3 0%nat None = Some st
    /\ List.length (history st) = 3%nat
    /\ map Some (observed st)
       = map (metric_at toy_epoch toy_metric 0%nat None) (seq 0 3).
Proof.
  destruct (Train.run toy_epoch toy_metric 3 0%nat None) as [st |] eqn:E;
    [| discriminate].
  exists st. split; [reflexivity |].
  exact (@history_one_entry_per_epoch nat Q toy_epoch toy_metric
           0%nat None 3 st E).
Defined.

(** The toy run: metrics 1/2, 1/4, 3/4, so the third epoch is returned. *)
Lemma train_model_returns_earliest_best_witness :
  exists ck hist best,
    train_model toy_epoch toy_metric 0%nat 3 None = Some (ck, hist, best)
    /\ List.length hist = 3%nat
    /\ exists e q,
         (e < 3)%nat
         /\ metric_at toy_epoch toy_metric 0%nat None e = Some (Num q)
         /\ model_after toy_epoch toy_metric 0%nat None e = Some ck
         /\ best = Num q.
Proof.
  destruct (train_model toy_epoch toy_metric 0%nat 3 None)
    as [[[ck hist] best] |] eqn:E; [| discriminate].
  exists ck, hist, best. split; [reflexivity |].
  destruct (@train_model_returns_earliest_best nat Q toy_epoch toy_metric
              0%nat None 3 ck hist best E)
    as (Hlen & _ & [(e & q & He & Hm & Ha & Hb & _) | (_ & Hf & _)]).
  - split; [exact Hlen |]. exists e, q. auto.
  - discriminate Hf.
Defined.

(** Every metric of the run is [nan] and no file exists: the load at the
    end fails. *)
Lemma train_model_fails_only_without_file_witness :
  train_model toy_epoch all_nan_metric 0%nat 2 None = None.
Proof.
  apply (@train_model_fails_only_without_file nat Q toy_epoch all_nan_metric
           0%nat None 2).
  right. split; [reflexivity |].
  intros k q Hk.
  destruct k as [| [| k]]; [vm_compute; discriminate | vm_compute; discriminate | lia].
Defined.

End TrainResult.

(* ================================================================== *)
(** * Further properties: the two losses *)
(* ================================================================== *)

Module LossFacts.

Import FVal Tensor TensorFacts Paired.
Open Scope R_scope.

(** ** Symmetry and rescaling *)

Lemma Rsum_ext (A : Type) (f g : A -> R) (xs : list A) :
  (forall x, f x = g x) -> Rsum (map f xs) = Rsum (map g xs).
Proof.
  intros H. f_equal. apply map_ext. exact H.
Qed.

Lemma swap_fst (b : list (R * R)) : map fst (swap_pairs b) = map snd b.
Proof. unfold swap_pairs. now rewrite map_map. Qed.

Lemma swap_snd (b : list (R * R)) : map snd (swap_pairs b) = map fst b.
Proof. unfold swap_pairs. now rewrite map_map. Qed.

(** X4.  The Pearson loss does not depend on which side is called output
    and which label, degenerate batches included. *)
Theorem pearson_loss_symmetric (b : list (R * R)) :
  pearson_correlation_loss (finite (map snd b)) (finite (map fst b))
  = pearson_correlation_loss (finite (map fst b)) (finite (map snd b)).
Proof.
  destruct b as [| p b]; [reflexivity |].
  rewrite <- (swap_fst (p :: b)), <- (swap_snd (p :: b)) at 1.
  rewrite (@pearson_loss_steps (swap_pairs (p :: b))) by discriminate.
  rewrite (@pearson_loss_steps (p :: b)) by discriminate.
  rewrite swap_fst, swap_snd.
  unfold swap_pairs at 1. rewrite map_map. cbn [fst snd].
  do 3 f_equal.
  - f_equal. apply Rsum_ext. intros x. apply Rmult_comm.
  - f_equal. apply Rmult_comm.
Qed.

(** X6.  A batch of at most one example always has a not-a-number Pearson
    loss: the mean of a single output is that output, and an empty batch
    has no mean. *)
Theorem pearson_loss_of_small_batch (b : list (R * R)) :
  (List.length b <= 1)%nat ->
  pearson_correlation_loss (finite (map fst b)) (finite (map snd b)) = Some NaN.
Proof.
  intros Hlen. apply zero_variance_nan. left.
  destruct b as [| p [| q b]].
  - reflexivity.
  - apply (@constant_zero_variance _ fst (fst p)). repeat constructor.
  - simpl in Hlen. lia.
Qed.

Lemma pearson_loss_of_small_batch_witness :
  pearson_correlation_loss (finite [3]) (finite [1 / 2]) = Some NaN.
Proof.
  apply (@pearson_loss_of_small_batch [(3, 1 / 2)]). simpl. lia.
Defined.

(** ** Mean squared error *)

Lemma mse_value (b : list (R * R)) :
  b <> [] ->
  MSELoss (finite (map fst b)) (finite (map snd b))
  = Some (Fin (mean_squared_error b)).
Proof.
  intros Hne. unfold MSELoss.
  rewrite (broadcast_pairs fsub Rminus b (fun x y => eq_refl)).
  rewrite squares_finite, map_map.
  assert (Hm : map (fun p : R * R => (fst p - snd p) * (fst p - snd p)) b <> []).
  { destruct b; simpl; congruence. }
  rewrite (tmean_finite Hm). unfold mean_squared_error, Rmean.
  now rewrite length_map.
Qed.

Lemma sum_squares_of_differences (b : list (R * R)) :
  Rsum (map (fun p => (fst p - snd p) * (fst p - snd p)) b)
  = sum_sq (map (fun p => fst p - snd p) b).
Proof. unfold sum_sq. now rewrite map_map. Qed.

(** X7.  On a non-empty batch of finite outputs and labels [MSELoss] is
    the mean of the squared differences, which is never negative and is
    zero when every output equals its label; on the empty batch it is
    not-a-number. *)
Theorem mse_loss_nonnegative (b : list (R * R)) :
  b <> [] ->
  MSELoss (finite (map fst b)) (finite (map snd b))
    = Some (Fin (mean_squared_error b))
  /\ 0 <= mean_squared_error b
  /\ (map fst b = map snd b -> mean_squared_error b = 0)
  /\ MSELoss (finite []) (finite []) = Some NaN.
Proof.
  intros Hne.
  pose proof (INR_length_nonzero Hne) as Hn.
  assert (Hpos : 0 < INR (List.length b)).
  { pose proof (pos_INR (List.length b)). lra. }
  pose proof (Rsum_squares_nonneg (map (fun p => fst p - snd p) b)) as Hs.
  rewrite <- sum_squares_of_differences in Hs.
  split; [now apply mse_value |]. split; [| split].
  - unfold mean_squared_error. apply Rmult_le_pos; [exact Hs |].
    apply Rlt_le. now apply Rinv_0_lt_compat.
  - unfold mean_squared_error. intros Heq.
    rewrite (@Rsum_all_zero _ (fun p => (fst p - snd p) * (fst p - snd p)) b).
    + unfold Rdiv. ring.
    + apply Forall_forall. intros p Hp.
      assert (Hfs : fst p = snd p).
      { clear - Heq Hp. induction b as [| q b IH]; [destruct Hp |].
        simpl in Heq. injection Heq as Hq Hb.
        destruct Hp as [-> | Hp]; [exact Hq | now apply IH]. }
      rewrite Hfs. ring.
  - unfold MSELoss, broadcast, tmean. simpl.
    destruct (Req_dec_T 0 0) as [_ | H]; [reflexivity | now destruct H].
Qed.

(** Outputs 1, 0 against labels 1, 1. *)
Lemma mse_loss_nonnegative_witness :
  MSELoss (finite [1; 0]) (finite [1; 1])
    = Some (Fin (mean_squared_error [(1, 1); (0, 1)]))
  /\ 0 <= mean_squared_error [(1, 1); (0, 1)].
Proof.
  destruct (@mse_loss_nonnegative [(1, 1); (0, 1)]) as (Hv & Hp & _).
  - discriminate.
  - split; [exact Hv | exact Hp].
Defined.

(** ** Shapes the losses reject *)

Lemma broadcast_none_iff (f : fval -> fval -> fval) (xs ys : tensor) :
  broadcast f xs ys = None
  <-> List.length xs <> List.length ys
      /\ List.length xs <> 1%nat /\ List.length ys <> 1%nat.
Proof.
  unfold broadcast.
  destruct (Nat.eqb_spec (List.length xs) (List.length ys)) as [He | Hne].
  - split; [discriminate | tauto].
  - destruct xs as [| x [| x' xs]]; destruct ys as [| y [| y' ys]];
      simpl in *; split; intros H;
      try discriminate; try reflexivity; try tauto; try lia;
      repeat split; try lia; try discriminate.
Qed.

(** X8.  The loss of a batch raises exactly when outputs and labels differ in
    size and neither has a single cell; in every other case, degenerate or
    not, a value comes back. *)
Theorem batch_loss_raises_on_size_mismatch
  (model_type : string) (outputs labels : tensor) :
  batch_loss model_type outputs labels = None
  <-> List.length outputs <> List.length labels
      /\ List.length outputs <> 1%nat /\ List.length labels <> 1%nat.
Proof.
  unfold batch_loss, pearson_correlation_loss, MSELoss.
  destruct (String.eqb model_type "siamese").
  - rewrite <- (broadcast_none_iff fmul outputs labels).
    pose proof (broadcast_none_iff fmul
                  (sub_scalar outputs (tmean outputs))
                  (sub_scalar labels (tmean labels))) as Hs.
    unfold sub_scalar in Hs at 3 4 5 6. rewrite !length_map in Hs.
    rewrite <- (broadcast_none_iff fmul outputs labels) in Hs.
    destruct (broadcast fmul (sub_scalar outputs (tmean outputs))
                (sub_scalar labels (tmean labels))); [| tauto].
    split; [discriminate |]. intros H. apply Hs in H. discriminate.
  - rewrite <- (broadcast_none_iff fsub outputs labels).
    destruct (broadcast fsub outputs labels); [| tauto].
    split; discriminate.
Qed.

Lemma batch_loss_raises_on_size_mismatch_witness :
  batch_loss "bert" (finite [1; 2; 3]) (finite [1; 2]) = None.
Proof.
  apply batch_loss_raises_on_size_mismatch. simpl. repeat split; lia.
Defined.

End LossFacts.

(* ================================================================== *)
(** * Further properties: the freeze depth *)
(* ================================================================== *)

Module FreezeDepth.

Import Encoder EncoderFacts.
Open Scope Z_scope.

(** The flags of the layers of a constructed encoder. *)
Lemma layer_flags (N : nat) (f : Z) :
  map (map requires_grad) (encoder_layer (init_bert N f))
  = map (fun i => repeat (negb (Z.of_nat i <? Z.of_nat N - f)) 16) (seq 0 N).
Proof.
  unfold init_bert. cbn [encoder_layer from_pretrained].
  rewrite repeat_length. apply freeze_loop_flags.
Qed.

Lemma layer_count (N : nat) (f : Z) :
  List.length (encoder_layer (init_bert N f)) = N.
Proof.
  unfold init_bert. cbn [encoder_layer from_pretrained].
  now rewrite freeze_loop_length, repeat_length.
Qed.

Lemma trainable_indices (N : nat) (f : Z) :
  trainable_layer_indices (init_bert N f) = trainable_layers N f.
Proof.
  unfold trainable_layer_indices, trainable_layers. rewrite layer_count.
  apply filter_ext_in. intros i Hi. apply in_seq in Hi.
  rewrite forallb_flags.
  rewrite <- (map_nth (map requires_grad)).
  cbn [map]. rewrite layer_flags.
  rewrite (nth_indep _ [] (repeat (negb (Z.of_nat 0 <? Z.of_nat N - f)) 16))
    by (rewrite length_map, length_seq; lia).
  rewrite (map_nth (fun i => repeat (negb (Z.of_nat i <? Z.of_nat N - f)) 16)).
  rewrite seq_nth by lia. cbn [Nat.add].
  destruct (Z.of_nat i <? Z.of_nat N - f); reflexivity.
Qed.

(** The indices of [a, a + n) that are not below a threshold form a block. *)
Lemma filter_not_below (T n a : nat) :
  filter (fun i => Nat.leb T i) (seq a n)
  = seq (Nat.max a T) (a + n - Nat.max a T).
Proof.
  revert a. induction n as [| n IH]; intros a.
  - replace (a + 0 - Nat.max a T)%nat with 0%nat by lia. reflexivity.
  - cbn [seq filter]. rewrite IH.
    destruct (Nat.leb_spec T a) as [Hle | Hlt].
    + replace (Nat.max (S a) T) with (S a) by lia.
      replace (Nat.max a T) with a by lia.
      replace (a + S n - a)%nat with (S n) by lia.
      replace (S a + n - S a)%nat with n by lia. reflexivity.
    + replace (Nat.max (S a) T) with T by lia.
      replace (Nat.max a T) with T by lia.
      f_equal. lia.
Qed.

Lemma trainable_block (N : nat) (f : Z) :
  trainable_layers N f
  = seq (Z.to_nat (Z.of_nat N - f)) (N - Z.to_nat (Z.of_nat N - f)).
Proof.
  unfold trainable_layers.
  rewrite (filter_ext _ (fun i => Nat.leb (Z.to_nat (Z.of_nat N - f)) i)).
  - rewrite filter_not_below. now rewrite Nat.max_0_l.
  - intros i.
    destruct (Z.ltb_spec (Z.of_nat i) (Z.of_nat N - f));
      destruct (Nat.leb_spec (Z.to_nat (Z.of_nat N - f)) i);
      simpl; try reflexivity; lia.
Qed.

(** X9.  The trainable encoder layers of a constructed model are always one
    block at the top, starting at layer [max 0 (N - f)].  A freeze depth
    outside [0, N] raises nothing: at [N] or above no layer is frozen, at
    0 or below (the default of [SiameseBERT]) every layer is frozen, and in
    between exactly the top [f] layers stay trainable. *)
Theorem freeze_depth_out_of_range_accepted (N : nat) (f : Z) :
  trainable_layer_indices (init_bert N f)
    = seq (Z.to_nat (Z.of_nat N - f)) (N - Z.to_nat (Z.of_nat N - f))
  /\ (Z.of_nat N <= f -> trainable_layer_indices (init_bert N f) = seq 0 N)
  /\ (f <= 0 -> trainable_layer_indices (init_bert N f) = [])
  /\ (0 <= f <= Z.of_nat N ->
      trainable_layer_indices (init_bert N f)
        = seq (N - Z.to_nat f) (Z.to_nat f))
  /\ trainable_layer_indices
       (init_bert N (default_freeze_layers Arch.SiameseBERT)) = [].
Proof.
  rewrite !trainable_indices, !trainable_block.
  split; [reflexivity |]. split; [| split; [| split]].
  - intros H. replace (Z.to_nat (Z.of_nat N - f)) with 0%nat by lia.
    now rewrite Nat.sub_0_r.
  - intros H. replace (N - Z.to_nat (Z.of_nat N - f))%nat with 0%nat by lia.
    reflexivity.
  - intros H. f_equal; lia.
  - cbn [default_freeze_layers].
    replace (N - Z.to_nat (Z.of_nat N - 0))%nat with 0%nat by lia.
    reflexivity.
Qed.

(** Six layers: depth 9 freezes none, depth -1 all, depth 2 all but the
    last two. *)
Lemma freeze_depth_out_of_range_accepted_witness :
  trainable_layer_indices (init_bert 6 9) = seq 0 6
  /\ trainable_layer_indices (init_bert 6 (-1)) = []
  /\ trainable_layer_indices (init_bert 6 2) = [4; 5]%nat.
Proof.
  destruct (freeze_depth_out_of_range_accepted 6 9) as (_ & H9 & _).
  destruct (freeze_depth_out_of_range_accepted 6 (-1)) as (_ & _ & Hm & _).
  destruct (freeze_depth_out_of_range_accepted 6 2) as (_ & _ & _ & H2 & _).
  split; [apply H9; lia |]. split; [apply Hm; lia |]. apply H2. lia.
Defined.

End FreezeDepth.

(* ================================================================== *)
(** * Further properties: what masked mean pooling computes *)
(* ================================================================== *)

Module PoolingMore.

Import FVal Pooling Hidden Tensor TensorFacts.
Open Scope R_scope.

Lemma masked_sum_finite (d : nat) (ts : list (list R * Z)) :
  masked_sum d (finite_tokens ts)
  = Fin (Rsum (map (fun t => nth d (fst t) 0 * IZR (snd t)) ts)).
Proof.
  unfold masked_sum, finite_tokens, tsum, Rsum.
  induction ts as [| [h m] ts IH]; [reflexivity |].
  cbn [map fold_right fst snd]. rewrite IH.
  change (Fin 0) with ((fun x => Fin x) 0) at 1.
  rewrite (map_nth Fin). reflexivity.
Qed.

(** Under a mask of zeros and ones the masked sum is the sum over the
    unmasked tokens. *)
Lemma masked_sum_unmasked (d : nat) (ts : list (list R * Z)) :
  binary_mask ts ->
  Rsum (map (fun t => nth d (fst t) 0 * IZR (snd t)) ts)
  = Rsum (map (fun r => nth d r 0) (map fst (unmasked ts))).
Proof.
  unfold Rsum, unmasked.
  induction 1 as [| [h m] ts Hm _ IH]; [reflexivity |].
  cbn [map fold_right filter fst snd] in *. rewrite IH.
  destruct Hm as [-> | ->]; simpl; lra.
Qed.

Lemma mask_sum_unmasked (ts : list (list R * Z)) :
  binary_mask ts ->
  mask_sum (finite_tokens ts) = Z.of_nat (List.length (unmasked ts)).
Proof.
  unfold mask_sum, finite_tokens, unmasked.
  induction 1 as [| [h m] ts Hm _ IH]; [reflexivity |].
  cbn [map fold_right filter fst snd] in *. rewrite IH.
  destruct Hm as [-> | ->];
    [change (Z.eqb 0 1) with false | change (Z.eqb 1 1) with true];
    cbn [List.length]; rewrite ?Nat2Z.inj_succ; lia.
Qed.

(** The pooled vector in terms of the unmasked tokens alone. *)
Lemma mean_pool_unmasked (D : nat) (ts : list (list R * Z)) :
  binary_mask ts ->
  mean_pool D (finite_tokens ts)
  = map (fun d =>
           fdiv (Fin (Rsum (map (fun r => nth d r 0) (map fst (unmasked ts)))))
                (Fin (INR (List.length (unmasked ts)))))
      (seq 0 D).
Proof.
  intros Hb. unfold mean_pool. apply map_ext. intros d.
  rewrite masked_sum_finite, (masked_sum_unmasked d Hb), (mask_sum_unmasked Hb).
  now rewrite <- INR_IZR_INZ.
Qed.



(** X11.  The pooled vector does not depend on the hidden states at masked
    positions: two examples with masks of zeros and ones and the same
    unmasked tokens are pooled to the same vector, whatever finite values
    stand at the padding. *)
Theorem mean_pool_ignores_masked_tokens (D : nat) (ts ts' : list (list R * Z)) :
  binary_mask ts ->
  binary_mask ts' ->
  unmasked ts = unmasked ts' ->
  mean_pool D (finite_tokens ts) = mean_pool D (finite_tokens ts').
Proof.
  intros Hb Hb' Heq.
  rewrite (mean_pool_unmasked D Hb), (mean_pool_unmasked D Hb').
  now rewrite Heq.
Qed.

Lemma mean_pool_ignores_masked_tokens_witness :
  mean_pool 1 (finite_tokens [([4], 1%Z); ([100], 0%Z)])
  = mean_pool 1 (finite_tokens [([4], 1%Z); ([-7], 0%Z)]).
Proof.
  apply mean_pool_ignores_masked_tokens.
  - unfold binary_mask.
    repeat (apply Forall_cons;
            [simpl; (left; reflexivity) || (right; reflexivity) |]).
    apply Forall_nil.
  - unfold binary_mask.
    repeat (apply Forall_cons;
            [simpl; (left; reflexivity) || (right; reflexivity) |]).
    apply Forall_nil.
  - reflexivity.
Defined.

End PoolingMore.

(* ================================================================== *)
(** * Further properties: padding, masks and pooling together *)
(* ================================================================== *)

Module PaddingFacts.

Import FVal Pooling Hidden Tensor TensorFacts Masked.
Open Scope nat_scope.

Lemma keep_zeros (A : Type) (xs : list A) (k : nat) :
  keep xs (repeat 0%Z k) = [].
Proof.
  unfold keep. revert k. induction xs as [| x xs IH]; intros k;
    [reflexivity |].
  destruct k as [| k]; [reflexivity |]. simpl. apply IH.
Qed.

(** Under a mask of [n] ones followed by zeros, the kept cells are the
    first [n]. *)
Lemma keep_prefix (A : Type) (n k : nat) (xs : list A) :
  List.length xs = n + k ->
  keep xs (repeat 1%Z n ++ repeat 0%Z k) = firstn n xs.
Proof.
  revert xs. induction n as [| n IH]; intros xs Hlen.
  - simpl. apply keep_zeros.
  - destruct xs as [| x xs]; [simpl in Hlen; lia |].
    simpl in Hlen. unfold keep in *. simpl. f_equal. apply IH. lia.
Qed.

Lemma binary_prefix_mask (n k : nat) (hs : list (list R)) :
  binary_mask (combine hs (repeat 1%Z n ++ repeat 0%Z k)).
Proof.
  unfold binary_mask. apply Forall_forall. intros [h m] Hin.
  apply in_combine_r in Hin. simpl.
  apply in_app_or in Hin as [Hin | Hin]; apply repeat_spec in Hin; auto.
Qed.

Lemma unmasked_is_keep (hs : list (list R)) (mask : list Z) :
  map fst (unmasked (combine hs mask)) = keep hs mask.
Proof. reflexivity. Qed.

(** Pooling under a mask of [n >= 1] ones followed by zeros. *)
Lemma pool_prefix_mask (D n k : nat) (hs : list (list R)) :
  n <> 0 ->
  List.length hs = n + k ->
  mean_pool D (finite_tokens (combine hs (repeat 1%Z n ++ repeat 0%Z k)))
  = average D (firstn n hs).
Proof.
  intros Hn Hlen.
  rewrite (PoolingMore.mean_pool_unmasked D (binary_prefix_mask n k hs)).
  rewrite <- (length_map fst
                (unmasked (combine hs (repeat 1%Z n ++ repeat 0%Z k)))).
  rewrite unmasked_is_keep, (keep_prefix n k hs Hlen).
  unfold average, column_mean. apply map_ext. intros d.
  apply fdiv_finite. apply INR_length_nonzero.
  destruct hs as [| h hs]; [simpl in Hlen; lia |].
  destruct n; [congruence | discriminate].
Qed.

Section Calls.

Variable wordpiece : string -> list Z.

(** X12.  At inference the pooled vector of a sentence is the plain average
    of the hidden vectors of its real tokens: the 128 positions of the padded
    encoding carry a mask whose ones are exactly the sentence's tokens, at
    least two of them, so the division of the pooling is never by zero. *)
Theorem inference_pooling_is_average (s : string) (D : nat) (hs : list (list R)) :
  List.length hs = 128 ->
  let e := Tokenizer.tokenizer wordpiece s Tokenizer.MaxLength true 128 in
  mean_pool D (finite_tokens (combine hs (Tokenizer.attention_mask e)))
  = average D (firstn (Tokenizer.true_length wordpiece 128 s) hs)
  /\ 2 <= Tokenizer.true_length wordpiece 128 s <= 128.
Proof.
  intros Hlen e.
  pose proof (TokenizerFacts.true_length_value wordpiece s) as Hv.
  destruct (TokenizerFacts.padded_call wordpiece s) as (_ & Hmask & _).
  fold e in Hmask. rewrite Hmask. split; [| lia].
  apply pool_prefix_mask; lia.
Qed.

(** X13.  The inference encoding of a sentence is its preprocessing encoding
    followed by padding: reading the 128 ids back through the mask, or
    cutting them at the sentence's true length, gives the ids that
    [tokenize_function] stores, and everything after is the pad id. *)
Theorem inference_encoding_extends_preprocessing (s : string) :
  let e := Tokenizer.tokenizer wordpiece s Tokenizer.MaxLength true 128 in
  let u := Tokenizer.tokenizer wordpiece s Tokenizer.DoNotPad true 128 in
  keep (Tokenizer.input_ids e) (Tokenizer.attention_mask e)
    = Tokenizer.input_ids u
  /\ firstn (List.length (Tokenizer.input_ids u)) (Tokenizer.input_ids e)
    = Tokenizer.input_ids u
  /\ Forall (fun i => i = Tokenizer.pad_token_id)
       (skipn (List.length (Tokenizer.input_ids u)) (Tokenizer.input_ids e)).
Proof.
  intros e u.
  pose proof (TokenizerFacts.true_length_bound wordpiece s) as Hb.
  destruct (TokenizerFacts.padded_call wordpiece s) as (Hids & Hmask & Hl & _).
  fold e in Hids, Hmask, Hl.
  assert (Hu : Tokenizer.input_ids u
               = Tokenizer.with_special_tokens wordpiece true 128 s)
    by reflexivity.
  assert (Htl : List.length (Tokenizer.input_ids u)
                = Tokenizer.true_length wordpiece 128 s) by reflexivity.
  rewrite Htl, Hu. split; [| split].
  - rewrite Hmask, keep_prefix by lia.
    rewrite Hids. unfold Tokenizer.true_length.
    now rewrite firstn_app, Nat.sub_diag, firstn_all, firstn_O, app_nil_r.
  - rewrite Hids. unfold Tokenizer.true_length.
    now rewrite firstn_app, Nat.sub_diag, firstn_all, firstn_O, app_nil_r.
  - rewrite Hids. unfold Tokenizer.true_length.
    rewrite skipn_app, skipn_all, Nat.sub_diag. simpl.
    apply Forall_forall. intros i Hi. now apply repeat_spec in Hi.
Qed.

End Calls.

Lemma inference_pooling_is_average_witness :
  let e := Tokenizer.tokenizer Tokenizer.char_tokens "hi" Tokenizer.MaxLength true 128 in
  mean_pool 1 (finite_tokens (combine (repeat [1%R] 128) (Tokenizer.attention_mask e)))
  = average 1 (firstn (Tokenizer.true_length Tokenizer.char_tokens 128 "hi")
                 (repeat [1%R] 128)).
Proof.
  apply (inference_pooling_is_average Tokenizer.char_tokens "hi" 1
           (repeat [1%R] 128)).
  apply repeat_length.
Defined.

(** X14.  In a collated batch of tokenized examples, the mask row of an
    example with at least one token makes the pooling of any finite hidden
    states of the batch width the plain average over the example's own
    tokens; the padding added by the collator has no effect. *)
Theorem collated_pooling_is_average
  (examples : list Collator.Example) (i : nat) (ex : Collator.Example)
  (D : nat) (hs : list (list R)) :
  Forall Collator.tokenized examples ->
  nth_error examples i = Some ex ->
  Collator.input_ids1 ex <> [] ->
  List.length hs = Collator.max_length1 examples ->
  mean_pool D
    (finite_tokens
       (combine hs
          (nth i (Collator.b_attention_mask1
                    (fst (Collator.data_collator examples))) [])))
  = average D (firstn (List.length (Collator.input_ids1 ex)) hs).
Proof.
  intros Htok Hnth Hne Hlen.
  assert (Hin : In ex examples) by (eapply nth_error_In; eauto).
  pose proof (CollatorFacts.max_length1_bound examples ex Hin) as Hle.
  rewrite Forall_forall in Htok.
  assert (Hrow : nth i (Collator.b_attention_mask1
                          (fst (Collator.data_collator examples))) []
                 = repeat 1%Z (List.length (Collator.input_ids1 ex))
                   ++ repeat 0%Z (Collator.max_length1 examples
                                  - List.length (Collator.input_ids1 ex))).
  { unfold Collator.data_collator, Collator.call, Collator.padding_collator.
    cbn [fst Collator.b_attention_mask1 Collator.p_attention_mask].
    rewrite CollatorFacts.longest_side1, !map_map.
    cbn [Collator.attention_mask Collator.pad_row Collator.input_ids].
    erewrite nth_error_nth; [| rewrite nth_error_map, Hnth; reflexivity].
    destruct (Htok ex Hin) as [-> _]. reflexivity. }
  rewrite Hrow. apply pool_prefix_mask.
  - destruct (Collator.input_ids1 ex); [congruence | discriminate].
  - lia.
Qed.

Lemma collated_pooling_is_average_witness :
  mean_pool 1
    (finite_tokens
       (combine (repeat [2%R] 12)
          (nth 0 (Collator.b_attention_mask1
                    (fst (Collator.data_collator Collator.three_examples))) [])))
  = average 1 (firstn 5 (repeat [2%R] 12)).
Proof.
  apply (@collated_pooling_is_average Collator.three_examples 0
           (Collator.example_of_lengths 5 3 (1 # 5)) 1 (repeat [2%R] 12)).
  - repeat constructor.
  - reflexivity.
  - discriminate.
  - reflexivity.
Defined.

End PaddingFacts.

(* ================================================================== *)
(** * Further properties: the rescaling keeps the order of raw outputs *)
(* ================================================================== *)

Module RescaleOrder.

Import FVal Inference.
Open Scope R_scope.

Lemma sigmoid_zero : sigmoid 0 = 1 / 2.
Proof.
  unfold sigmoid. rewrite Ropp_0, exp_0. field.
Qed.

Lemma tanh_zero : tanh 0 = 0.
Proof.
  unfold tanh. rewrite sinh_0. lra.
Qed.

(** X15.  In each of the three models a zero value of the last linear
    layer is scored 2.5, the middle of the scale, and the values plus and
    minus infinity are scored 5 and 0, its two ends. *)
Theorem inference_score_midpoint_and_ends (a : Arch.arch) :
  rescale a (final_activation a (Fin 0)) = Fin 2.5
  /\ rescale a (final_activation a PInf) = Fin 5
  /\ rescale a (final_activation a NInf) = Fin 0.
Proof.
  destruct a; unfold rescale, final_activation; cbn [Arch.is_siamese]; simpl;
    rewrite ?sigmoid_zero, ?tanh_zero; repeat split; f_equal; lra.
Qed.

End RescaleOrder.

(* ================================================================== *)
(** * Further properties: loading a custom dataset *)
(* ================================================================== *)

Module CustomDataset.

Import Ingest SampleFile.
Open Scope Q_scope.

Lemma has_col_iff (df : DataFrame) (c : string) :
  has_col df c = true <-> In c (columns df).
Proof.
  unfold has_col. rewrite existsb_exists. split.
  - intros (x & Hin & Heq). apply String.eqb_eq in Heq. now subst.
  - intros Hin. exists c. split; [exact Hin | apply String.eqb_refl].
Qed.

Section Sources.

Variable read_csv : string -> DataFrame.

(** X16.  For a non-empty path [load_custom_dataset] fails exactly when the
    file lacks one of the columns sentence1, sentence2, score; otherwise
    it returns the file's sentences unchanged with every score divided by
    five, row for row. *)
Theorem custom_dataset_needs_three_columns (p : string) :
  p <> ""%string ->
  (load_custom_dataset read_csv (Some p) = None
     <-> exists c, In c ["sentence1"; "sentence2"; "score"]%string
                   /\ ~ In c (columns (read_csv p)))
  /\ (forall d, load_custom_dataset read_csv (Some p) = Some d ->
        sentence1 d = sentence1 (frame (read_csv p))
        /\ sentence2 d = sentence2 (frame (read_csv p))
        /\ score d = map (fun s => s / 5) (score (frame (read_csv p)))
        /\ List.length (score d) = List.length (score (frame (read_csv p)))).
Proof.
  intros Hp. apply String.eqb_neq in Hp.
  unfold load_custom_dataset, truthy. rewrite Hp. cbn [negb].
  destruct (forallb (has_col (read_csv p)) ["sentence1"; "sentence2"; "score"]%string)
    eqn:Hall.
  - rewrite forallb_forall in Hall. split.
    + split; [discriminate |]. intros (c & Hin & Hnot).
      exfalso. apply Hnot. apply has_col_iff. now apply Hall.
    + intros d [= <-]. cbn [sentence1 sentence2 score normalize_labels].
      repeat split. now rewrite length_map.
  - split.
    + split; [| reflexivity]. intros _.
      assert (Hex : exists c, In c ["sentence1"; "sentence2"; "score"]%string
                              /\ has_col (read_csv p) c = false).
      { cbn [forallb] in Hall.
        destruct (has_col (read_csv p) "sentence1") eqn:H1;
          [| exists "sentence1"%string; simpl; auto].
        destruct (has_col (read_csv p) "sentence2") eqn:H2;
          [| exists "sentence2"%string; simpl; auto].
        destruct (has_col (read_csv p) "score") eqn:H3;
          [discriminate | exists "score"%string; simpl; auto]. }
      destruct Hex as (c & Hin & Hc). exists c. split; [exact Hin |].
      rewrite <- has_col_iff. congruence.
    + intros d H. discriminate.
Qed.

(** X17.  Whatever the path, if the scores of the source lie between 0 and 5
    then every label of the dataset [load_custom_dataset] returns lies
    between 0 and 1; this covers the built-in sample used for a missing or
    empty path. *)
Theorem custom_labels_in_unit_interval (csv_path : option string) (d : Dataset) :
  (forall p, Forall (fun s => 0 <= s /\ s <= 5) (score (frame (read_csv p)))) ->
  load_custom_dataset read_csv csv_path = Some d ->
  Forall (fun l => 0 <= l /\ l <= 1) (score d).
Proof.
  intros Hsrc Hload.
  assert (Hnorm : forall src,
             Forall (fun s => 0 <= s /\ s <= 5) (score src) ->
             Forall (fun l => 0 <= l /\ l <= 1) (score (normalize_labels src))).
  { intros src Hs. cbn [score normalize_labels]. apply Forall_map.
    eapply Forall_impl; [| exact Hs]. intros s [H0 H5].
    now apply IngestFacts.divided_in_unit. }
  unfold load_custom_dataset in Hload.
  destruct (truthy csv_path).
  - destruct csv_path as [p |]; [| discriminate].
    destruct (forallb (has_col (read_csv p)) _); [| discriminate].
    injection Hload as <-. apply Hnorm, Hsrc.
  - injection Hload as <-. apply Hnorm.
    repeat constructor; vm_compute; congruence.
Qed.

End Sources.

Lemma custom_dataset_needs_three_columns_witness :
  exists d, load_custom_dataset one_row_csv (Some "data.csv"%string) = Some d
            /\ score d = map (fun s => s / 5) [4].
Proof.
  assert (Hp : "data.csv"%string <> ""%string) by discriminate.
  destruct (custom_dataset_needs_three_columns one_row_csv Hp) as [_ H].
  eexists. split; [reflexivity |].
  destruct (H _ eq_refl) as (_ & _ & Hs & _). exact Hs.
Defined.

Lemma custom_labels_in_unit_interval_witness :
  Forall (fun l => 0 <= l /\ l <= 1)
    (score (normalize_labels (frame (one_row_csv "data.csv")))).
Proof.
  apply (@custom_labels_in_unit_interval one_row_csv (Some "data.csv"%string)).
  - intros p. repeat constructor; unfold Qle; simpl; lia.
  - reflexivity.
Defined.

End CustomDataset.

(* ================================================================== *)
(** * Further properties: which inputs the [forward] methods accept *)
(* ================================================================== *)

Module ForwardDomain.

Import Shape ShapeFacts.
Open Scope nat_scope.

Lemma regressor_three (b : nat) :
  regressor Arch.SiameseBERT [b; hidden + (hidden + hidden)] = Some [b; 1].
Proof. reflexivity. Qed.

(** Broadcasting two matrices of the same width. *)
Lemma broadcast_rows (B1 B2 d : nat) :
  broadcast_shapes [B1; d] [B2; d]
  = if Nat.eqb B1 B2 then Some [B1; d]
    else if Nat.eqb B1 1 then Some [B2; d]
    else if Nat.eqb B2 1 then Some [B1; d]
    else None.
Proof.
  unfold broadcast_shapes. cbn [rev app broadcast_aligned bind].
  rewrite Nat.eqb_refl.
  destruct (Nat.eqb B1 B2), (Nat.eqb B1 1), (Nat.eqb B2 1); reflexivity.
Qed.

(** What each [forward] does with sides of [B1] and [B2] rows. *)
Lemma forward_value (a : Arch.arch) (B1 B2 l1 l2 : nat) :
  forward a [B1; S l1] [B1; S l1] [B2; S l2] [B2; S l2]
  = if Nat.eqb B1 B2 || (Arch.is_siamese a && Nat.eqb B2 1)
    then Some (squeeze [B1; 1]) else None.
Proof.
  destruct (Nat.eqb_spec B1 B2) as [<- | Hne]; [apply forward_shape |].
  assert (Hneb : Nat.eqb B1 B2 = false) by now apply Nat.eqb_neq.
  cbn [orb]. destruct a; cbn [Arch.is_siamese andb].
  - unfold forward, last_hidden_state, first_token.
    rewrite !Nat.eqb_refl. cbn [andb bind cat_dim1].
    now rewrite Hneb.
  - unfold forward, last_hidden_state, first_token.
    rewrite !Nat.eqb_refl. cbn [andb bind].
    rewrite broadcast_rows, Hneb.
    destruct (Nat.eqb_spec B2 1) as [-> | H2].
    + destruct (Nat.eqb_spec B1 1) as [-> | H1]; [congruence |].
      repeat (progress (cbn [bind cat_dim1]; rewrite ?Nat.eqb_refl)).
      now rewrite regressor_three.
    + destruct (Nat.eqb_spec B1 1) as [-> | H1]; [| reflexivity].
      assert (H21 : Nat.eqb B2 1 = false) by now apply Nat.eqb_neq.
      repeat (progress (cbn [bind cat_dim1]; rewrite ?Nat.eqb_refl, ?H21)).
      reflexivity.
  - unfold forward, last_hidden_state, expand_mask, sum_dim1, attention,
      unsqueeze0, squeeze0.
    repeat (progress (rewrite ?Nat.eqb_refl, ?broadcast_shapes_refl;
                      cbn [bind andb])).
    rewrite Hneb. cbn [andb]. rewrite ?Bool.andb_false_r. reflexivity.
Qed.

(** X18.  For sides of at least one row and of at least one and at most
    512 positions, each with a mask of the shape of its ids, and of any
    two lengths:
    [SentenceSimilarityModelOne] and [CrossAttentionModel] return a result
    exactly when the two sides have the same number of rows, and raise
    otherwise; [SiameseBERT] also accepts a second side of one row, which
    its difference and product spread over the rows of the first.  The
    result has one cell per row of the first side. *)
Theorem forward_batch_sizes
  (a : Arch.arch) (B1 B2 l1 l2 : nat) (r : shape) :
  0 < B1 -> 0 < B2 -> l1 < 512 -> l2 < 512 ->
  (forward a [B1; S l1] [B1; S l1] [B2; S l2] [B2; S l2] = Some r
   <-> (B1 = B2 \/ (a = Arch.SiameseBERT /\ B2 = 1))
       /\ r = squeeze [B1; 1]).
Proof.
  intros _ _ _ _. rewrite forward_value. split.
  - destruct (Nat.eqb_spec B1 B2) as [-> | Hne]; cbn [orb].
    + intros [= <-]. split; [now left | reflexivity].
    + destruct a; cbn [Arch.is_siamese andb]; try discriminate.
      destruct (Nat.eqb_spec B2 1) as [-> | H2]; [| discriminate].
      intros [= <-]. split; [now right | reflexivity].
  - intros [[-> | [-> ->]] ->].
    + now rewrite Nat.eqb_refl.
    + cbn [Arch.is_siamese andb]. now rewrite Nat.eqb_refl, Bool.orb_true_r.
Qed.

(** Four pairs of sentence 1 against one sentence 2 in [SiameseBERT]. *)
Lemma forward_batch_sizes_witness :
  forward Arch.SiameseBERT [4; 23] [4; 23] [1; 18] [1; 18] = Some [4]
  /\ forward Arch.CrossAttentionModel [4; 23] [4; 23] [1; 18] [1; 18] <> Some [4].
Proof.
  split.
  - apply (@forward_batch_sizes Arch.SiameseBERT 4 1 22 17 [4]);
      [lia | lia | lia | lia |].
    split; [right; split; reflexivity | reflexivity].
  - intros E.
    apply (@forward_batch_sizes Arch.CrossAttentionModel 4 1 22 17 [4]) in E;
      [| lia | lia | lia | lia].
    destruct E as [[E | [E _]] _]; discriminate.
Defined.

End ForwardDomain.

(* ================================================================== *)
(** * Further properties: the cosine score of the pretrained encoder *)
(* ================================================================== *)

Module BaselineFacts.

Import FVal Tensor TensorFacts Baseline.
Open Scope R_scope.

Lemma sum_sq_zeros (n : nat) : sum_sq (repeat 0 n) = 0.
Proof.
  unfold sum_sq. apply Rsum_all_zero. apply Forall_forall.
  intros x Hx. apply repeat_spec in Hx. subst x. ring.
Qed.

Lemma norm_zeros (n : nat) : norm (repeat 0 n) = 0.
Proof.
  unfold norm. rewrite sum_sq_zeros. apply sqrt_0.
Qed.

Lemma dot_zeros_l (n : nat) (e : list R) :
  List.length e = n -> dot (repeat 0 n) e = Some 0.
Proof.
  intros Hlen. unfold dot.
  rewrite repeat_length, Hlen, Nat.eqb_refl. f_equal.
  apply Rsum_all_zero. apply Forall_forall. intros [x y] Hp.
  apply in_combine_l in Hp. apply repeat_spec in Hp. subst x. simpl. ring.
Qed.

Lemma dot_zeros_r (n : nat) (e : list R) :
  List.length e = n -> dot e (repeat 0 n) = Some 0.
Proof.
  intros Hlen. unfold dot.
  rewrite repeat_length, Hlen, Nat.eqb_refl. f_equal.
  apply Rsum_all_zero. apply Forall_forall. intros [x y] Hp.
  apply in_combine_r in Hp. apply repeat_spec in Hp. subst y. simpl. ring.
Qed.

(** X20.  The comparison with the pretrained model has no guard either:
    two embeddings of different sizes raise, and whenever one of two
    embeddings of the same size is the zero vector the score is
    not-a-number, the quotient of zero by zero. *)
Theorem zero_embedding_scores_nan (n : nat) (e : list R) :
  List.length e = n ->
  cosine_score (repeat 0 n) e = Some NaN
  /\ cosine_score e (repeat 0 n) = Some NaN
  /\ (forall e', List.length e' <> n -> cosine_score e e' = None).
Proof.
  intros Hlen. unfold cosine_score. split; [| split].
  - rewrite (@dot_zeros_l _ _ Hlen), norm_zeros.
    rewrite fdiv_zero_zero; [reflexivity | reflexivity | ring].
  - rewrite (@dot_zeros_r _ _ Hlen), norm_zeros.
    rewrite fdiv_zero_zero; [reflexivity | reflexivity | ring].
  - intros e' Hne. unfold dot.
    destruct (Nat.eqb_spec (List.length e) (List.length e')) as [E |];
      [| reflexivity].
    destruct Hne. congruence.
Qed.

(** The zero vector of size two against the embedding 3, 4. *)
Lemma zero_embedding_scores_nan_witness :
  cosine_score [0; 0] [3; 4] = Some NaN
  /\ cosine_score [3; 4] [0; 0] = Some NaN
  /\ cosine_score [3; 4] [1] = None.
Proof.
  destruct (@zero_embedding_scores_nan 2 [3; 4] eq_refl) as (H1 & H2 & H3).
  split; [exact H1 |]. split; [exact H2 |].
  apply H3. simpl. lia.
Defined.

End BaselineFacts.

(* ================================================================== *)
(** * Further properties: exchanging the two sentences *)
(* ================================================================== *)

Module HeadFacts.

Import Paired Heads.
Open Scope R_scope.

Lemma diff_swap (v : list (R * R)) : diff (swap_pairs v) = diff v.
Proof.
  unfold diff, swap_pairs. rewrite map_map. apply map_ext.
  intros p. cbn [fst snd]. apply Rabs_minus_sym.
Qed.

Lemma mult_swap (v : list (R * R)) : mult (swap_pairs v) = mult v.
Proof.
  unfold mult, swap_pairs. rewrite map_map. apply map_ext.
  intros p. cbn [fst snd]. apply Rmult_comm.
Qed.

Lemma output1_swap (v : list (R * R)) : output1 (swap_pairs v) = output2 v.
Proof. unfold output1, output2, swap_pairs. now rewrite map_map. Qed.

(** X21.  Exchanging the two sentences leaves the first two thirds of the
    regressor input of [SiameseBERT] (absolute difference and product)
    unchanged and replaces the last third by the other sentence's vector;
    the whole input is unchanged exactly when the two vectors are equal.
    Its size is three times the hidden size. *)
Theorem siamese_input_under_exchange (v : list (R * R)) :
  siamese_combined (swap_pairs v) = diff v ++ mult v ++ output2 v
  /\ (siamese_combined (swap_pairs v) = siamese_combined v
      <-> output1 v = output2 v)
  /\ List.length (siamese_combined v) = (3 * List.length v)%nat.
Proof.
  assert (Hs : siamese_combined (swap_pairs v) = diff v ++ mult v ++ output2 v).
  { unfold siamese_combined. now rewrite diff_swap, mult_swap, output1_swap. }
  split; [exact Hs |]. split.
  - rewrite Hs. unfold siamese_combined. split.
    + intros H. apply app_inv_head in H. apply app_inv_head in H. now symmetry.
    + intros ->. reflexivity.
  - unfold siamese_combined, diff, mult, output1.
    rewrite !length_app, !length_map. lia.
Qed.

(** Equal vectors on the two sides: the exchange changes nothing. *)
Lemma siamese_input_under_exchange_witness :
  siamese_combined (swap_pairs [(1, 1); (2, 2)]) = siamese_combined [(1, 1); (2, 2)].
Proof.
  apply (siamese_input_under_exchange [(1, 1); (2, 2)]). reflexivity.
Defined.

End HeadFacts.

(* ================================================================== *)
(** * Further properties: attention over a sequence of length one *)
(* ================================================================== *)

Module AttentionFacts.

Import Tensor Attention.
Open Scope R_scope.

Lemma softmax_single (s : R) : softmax [s] = [1].
Proof.
  unfold softmax, Rsum. simpl. f_equal.
  pose proof (exp_pos s). field. lra.
Qed.

Lemma vadd_zero (d : nat) (v : list R) :
  List.length v = d -> vadd (vscale 1 v) (repeat 0 d) = v.
Proof.
  unfold vadd, vscale. revert d.
  induction v as [| x v IH]; intros d Hd; [reflexivity |].
  destruct d as [| d]; [discriminate |].
  simpl. f_equal; [lra |]. apply IH. simpl in Hd. lia.
Qed.

Lemma firstn_add (A : Type) (a b : nat) (xs : list A) :
  firstn (a + b) xs = firstn a xs ++ firstn b (skipn a xs).
Proof.
  revert xs. induction a as [| a IH]; intros xs; [reflexivity |].
  destruct xs as [| x xs]; simpl.
  - now rewrite firstn_nil.
  - now rewrite IH.
Qed.

(** Cutting a vector into heads and putting the heads together again. *)
Lemma concat_heads (d n : nat) (x : list R) :
  List.concat (map (fun i => head d i x) (seq 0 n)) = firstn (n * d) x.
Proof.
  induction n as [| n IH]; [reflexivity |].
  rewrite seq_S, map_app, concat_app, IH. cbn [map List.concat Nat.add].
  rewrite app_nil_r. unfold head.
  replace (S n * d)%nat with (n * d + d)%nat by lia.
  now rewrite firstn_add.
Qed.

Lemma head_length (d n i : nat) (x : list R) :
  List.length x = (n * d)%nat -> (i < n)%nat -> List.length (head d i x) = d.
Proof.
  intros Hx Hi. unfold head. rewrite length_firstn, length_skipn.
  assert ((i + 1) * d <= n * d)%nat by (apply Nat.mul_le_mono_r; lia).
  lia.
Qed.

Section Collapse.

Variable num_heads : nat.
Variable head_dim : nat.
Variable q_proj : list R -> list R.
Variable k_proj : list R -> list R.
Variable v_proj : list R -> list R.
Variable out_proj : list R -> list R.

(** With a single key position every head returns its slice of the value. *)
Lemma head_attention_single (q k v : list R) :
  List.length v = head_dim ->
  head_attention head_dim q [(k, v)] = v.
Proof.
  intros Hv. unfold head_attention. cbn [map].
  rewrite softmax_single. cbn [combine map fold_right fst snd].
  now apply vadd_zero.
Qed.

(** X22.  In [CrossAttentionModel] the attention runs over a key sequence of
    length one, so its single weight is 1 and its output is the output
    projection of the value projection of the second sentence's vector: the
    first sentence's vector, used as the query, has no influence on it. *)
Theorem cross_attention_ignores_query (output1 output2 : list R) :
  List.length (v_proj output2) = (num_heads * head_dim)%nat ->
  multihead_attention num_heads head_dim q_proj k_proj v_proj out_proj
    output1 [output2] [output2]
  = out_proj (v_proj output2)
  /\ cross_combined num_heads head_dim q_proj k_proj v_proj out_proj
       output1 output2
     = output1 ++ out_proj (v_proj output2).
Proof.
  intros Hv.
  assert (H : multihead_attention num_heads head_dim q_proj k_proj v_proj
                out_proj output1 [output2] [output2]
              = out_proj (v_proj output2)).
  { unfold multihead_attention. cbn [map combine fst snd]. f_equal.
    rewrite (map_ext_in _ (fun i => head head_dim i (v_proj output2))).
    - rewrite concat_heads, <- Hv. apply firstn_all.
    - intros i Hi. apply in_seq in Hi.
      apply head_attention_single.
      apply (@head_length head_dim num_heads i (v_proj output2) Hv). lia. }
  split; [exact H |]. unfold cross_combined. now rewrite H.
Qed.

End Collapse.

(** Two heads of width one: whatever the query, the value comes back. *)
Lemma cross_attention_ignores_query_witness :
  multihead_attention 2 1 first_two first_two first_two (fun x => x)
    [5; 6] [[7; 8]] [[7; 8]]
  = first_two [7; 8].
Proof.
  apply (@cross_attention_ignores_query 2 1 first_two first_two first_two
           (fun x => x) [5; 6] [7; 8]).
  reflexivity.
Defined.

End AttentionFacts.

(* ================================================================== *)
(** * Further properties: batches and the collection of predictions *)
(* ================================================================== *)

Module LoaderFacts.

Import Loader.
Open Scope nat_scope.

Lemma batches_nil (A : Type) (fuel bs : nat) : @batches A fuel bs [] = [].
Proof. destruct fuel; reflexivity. Qed.

(** The batches put together are the dataset, in order. *)
Lemma concat_batches (A : Type) (bs fuel : nat) (data : list A) :
  bs <> 0 -> List.length data <= fuel ->
  List.concat (batches fuel bs data) = data.
Proof.
  intros Hbs. revert data. induction fuel as [| fuel IH]; intros data Hlen.
  - destruct data; [reflexivity | simpl in Hlen; lia].
  - destruct data as [| x data]; [reflexivity |].
    cbn [batches List.concat]. rewrite IH.
    + apply firstn_skipn.
    + rewrite length_skipn. simpl in Hlen.
      destruct bs; [congruence |]. simpl. lia.
Qed.

(** No batch is empty and none is larger than the batch size. *)
Lemma batch_sizes (A : Type) (bs fuel : nat) (data : list A) :
  bs <> 0 ->
  Forall (fun b => 1 <= List.length b <= bs) (batches fuel bs data).
Proof.
  intros Hbs. revert data. induction fuel as [| fuel IH]; intros data;
    [constructor |].
  destruct data as [| x data]; [constructor |].
  cbn [batches]. constructor; [| apply IH].
  rewrite length_firstn. destruct bs; [congruence |]. simpl. lia.
Qed.

(** X23.  A loader without shuffling cuts the dataset into consecutive
    batches: put together they are the dataset in its order, none is empty,
    none exceeds the batch size; a batch size of zero is refused. *)
Theorem data_loader_partitions_dataset (A : Type) (dataset : list A) (bs : nat) :
  (bs = 0 <-> DataLoader dataset bs = None)
  /\ (forall loader, DataLoader dataset bs = Some loader ->
        List.concat loader = dataset
        /\ Forall (fun b => 1 <= List.length b <= bs) loader).
Proof.
  unfold DataLoader. destruct (Nat.eqb_spec bs 0) as [-> | Hbs].
  - split; [tauto | discriminate].
  - split; [split; [contradiction | discriminate] |].
    intros loader [= <-]. split.
    + now apply concat_batches.
    + now apply batch_sizes.
Qed.

Lemma data_loader_partitions_dataset_witness :
  exists loader, DataLoader [1; 2; 3; 4; 5] 2 = Some loader
                 /\ List.concat loader = [1; 2; 3; 4; 5].
Proof.
  destruct (data_loader_partitions_dataset [1; 2; 3; 4; 5] 2) as [_ H].
  eexists. split; [reflexivity |]. apply (H _ eq_refl).
Defined.

Section Collect.

Variable Example : Type.
Variable label : Example -> R.
Variable regressor_column : list Example -> list R.

Hypothesis one_score_per_example :
  forall batch, List.length (regressor_column batch) = List.length batch.

Local Notation "'collect'" := (Loader.collect label regressor_column).

Lemma squeeze_column_vector (batch : list Example) :
  List.length batch <> 1 ->
  squeeze_column (regressor_column batch) = Vector (regressor_column batch).
Proof.
  intros Hn. pose proof (one_score_per_example batch) as Hl.
  unfold squeeze_column.
  destruct (regressor_column batch) as [| x [| y col]]; try reflexivity.
  simpl in Hl. congruence.
Qed.

Lemma squeeze_column_scalar (batch : list Example) :
  List.length batch = 1 ->
  exists x, squeeze_column (regressor_column batch) = Scalar x.
Proof.
  intros Hn. pose proof (one_score_per_example batch) as Hl.
  unfold squeeze_column.
  destruct (regressor_column batch) as [| x [| y col]];
    simpl in Hl; try lia. now exists x.
Qed.

(** The loop fails exactly when some batch has a single example. *)
Lemma collect_fails_iff (loader : list (list Example)) (preds labels : list R) :
  collect loader preds labels = None
  <-> Exists (fun b => List.length b = 1) loader.
Proof.
  revert preds labels. induction loader as [| b rest IH]; intros preds labels.
  - simpl. split; [discriminate | intros H; inversion H].
  - cbn [Loader.collect].
    destruct (Nat.eq_dec (List.length b) 1) as [H1 | H1].
    + destruct (squeeze_column_scalar b H1) as [x ->]. simpl.
      split; [intros _; now left | reflexivity].
    + rewrite (squeeze_column_vector b H1). cbn [extend].
      rewrite IH. split.
      * intros H. now right.
      * intros H. inversion H; [contradiction | assumption].
Qed.

Lemma collect_value (loader : list (list Example)) (preds labels : list R) :
  Forall (fun b => List.length b <> 1) loader ->
  collect loader preds labels
  = Some (preds ++ List.concat (map regressor_column loader),
          labels ++ map label (List.concat loader)).
Proof.
  intros H. revert preds labels.
  induction H as [| b rest Hb _ IH]; intros preds labels.
  - simpl. now rewrite !app_nil_r.
  - cbn [Loader.collect]. rewrite (squeeze_column_vector b Hb). cbn [extend].
    rewrite IH. cbn [map List.concat]. now rewrite map_app, !app_assoc.
Qed.

Lemma predictions_length (loader : list (list Example)) :
  List.length (List.concat (map regressor_column loader))
  = List.length (List.concat loader).
Proof.
  induction loader as [| b rest IH]; [reflexivity |].
  cbn [map List.concat]. rewrite !length_app, IH.
  now rewrite one_score_per_example.
Qed.

(** The last batch has [n mod bs] examples when that is not zero. *)
Lemma single_batch_iff (bs fuel : nat) (data : list Example) :
  2 <= bs -> List.length data <= fuel ->
  Exists (fun b => List.length b = 1) (batches fuel bs data)
  <-> List.length data mod bs = 1.
Proof.
  intros Hbs. revert data. induction fuel as [| fuel IH]; intros data Hlen.
  - destruct data; [| simpl in Hlen; lia]. simpl.
    rewrite Nat.Div0.mod_0_l. split; [intros H; inversion H | lia].
  - destruct data as [| x data].
    + simpl. rewrite Nat.Div0.mod_0_l.
      split; [intros H; inversion H | lia].
    + cbn [batches]. set (d := x :: data) in *.
      destruct (Nat.le_gt_cases bs (List.length d)) as [Hge | Hlt].
      * assert (Hmod : List.length d mod bs
                       = List.length (skipn bs d) mod bs).
        { rewrite length_skipn.
          replace (List.length d) with ((List.length d - bs) + 1 * bs) at 1
            by lia.
          apply Nat.Div0.mod_add. }
        rewrite Hmod, <- IH.
        -- split.
           ++ intros H. inversion H as [? ? H1 | ? ? H1]; [| exact H1].
              rewrite length_firstn in H1. lia.
           ++ intros H. now right.
        -- rewrite length_skipn. lia.
      * rewrite skipn_all2 by lia. rewrite batches_nil.
        rewrite firstn_all2 by lia.
        rewrite Nat.mod_small by exact Hlt.
        split.
        -- intros H. inversion H as [? ? H1 | ? ? H1]; [exact H1 | inversion H1].
        -- intros H. now left.
Qed.

(** X24.  Over the notebook's loaders of batch size 8, the collection loop
    of [evaluate_model] raises exactly when the dataset size leaves a
    remainder of 1, because the lone example of the last batch comes back
    from the model as a tensor of no dimension, which [extend] cannot
    iterate; in every other case it collects one prediction per example and
    the labels, both in the order of the dataset. *)
Theorem evaluate_collects_unless_lone_example (dataset : list Example) :
  let loader := batches (List.length dataset) batch_size dataset in
  DataLoader dataset batch_size = Some loader
  /\ (collect loader [] [] = None <-> List.length dataset mod 8 = 1)
  /\ (List.length dataset mod 8 <> 1 ->
      collect loader [] []
      = Some (List.concat (map regressor_column loader), map label dataset)
      /\ List.length (List.concat (map regressor_column loader))
         = List.length dataset).
Proof.
  intros loader.
  assert (Hiff : collect loader [] [] = None <-> List.length dataset mod 8 = 1).
  { rewrite collect_fails_iff. unfold loader, batch_size.
    apply single_batch_iff; lia. }
  split; [reflexivity |]. split; [exact Hiff |].
  intros Hmod.
  assert (Hall : Forall (fun b => List.length b <> 1) loader).
  { apply Forall_forall. intros b Hb Hone.
    apply Hmod. apply Hiff. apply collect_fails_iff.
    apply Exists_exists. now exists b. }
  rewrite (collect_value [] [] Hall). cbn [app].
  assert (Hc : List.concat loader = dataset).
  { unfold loader, batch_size. apply concat_batches; [discriminate | lia]. }
  rewrite Hc. split; [reflexivity |].
  rewrite predictions_length. now rewrite Hc.
Qed.

End Collect.

(** Nine examples in batches of eight: the ninth is alone and the
    collection fails. *)
Lemma evaluate_collects_unless_lone_example_witness :
  collect (fun x : R => x) (fun b : list R => b)
    (batches 9 batch_size (repeat 0%R 9)) [] [] = None.
Proof.
  apply (@evaluate_collects_unless_lone_example R (fun x => x) (fun b => b)
           (fun b => eq_refl) (repeat 0%R 9)).
  reflexivity.
Defined.

End LoaderFacts.

(* ================================================================== *)
(** * Further properties: one training epoch *)
(* ================================================================== *)

Module EpochFacts.

Import FVal Tensor Epoch.
Open Scope nat_scope.

Lemma fadd_nan_r (x : fval) : fadd x NaN = NaN.
Proof. destruct x; reflexivity. Qed.

Lemma fdiv_nan_l (y : fval) : fdiv NaN y = NaN.
Proof. reflexivity. Qed.


Section InnerFacts.

Variable Model : Type.
Variable Batch : Type.
Variable forward : Model -> Batch -> tensor.
Variable labels_of : Batch -> tensor.
Variable update : nat -> Model -> Batch -> Model.

Local Notation "'loop'" := (batch_loop forward labels_of update).
Local Notation "'body'" := (batch_body forward labels_of update).
Local Notation "'trace'" := (losses forward labels_of update).
Local Notation "'Progress'" := (Epoch.Progress Model).




Lemma trace_total (model_type : string) (loader : list Batch) (st st' : Progress) :
  loop model_type st loader = Some st' ->
  total_loss st' = fold_left fadd (trace model_type st loader) (total_loss st).
Proof.
  revert st. induction loader as [| b rest IH]; intros st H.
  - injection H as <-. reflexivity.
  - cbn [batch_loop] in H. cbn [losses].
    destruct (body model_type st b) as [st1 |] eqn:Eb; [| discriminate].
    unfold batch_body in Eb.
    destruct (batch_loss model_type (forward (params st) b) (labels_of b))
      as [loss |]; [| discriminate].
    injection Eb as Eb. rewrite (IH _ H). subst st1. reflexivity.
Qed.

Lemma fold_nan (ls : list fval) : fold_left fadd ls NaN = NaN.
Proof.
  induction ls as [| l ls IH]; [reflexivity | exact IH].
Qed.

Lemma fold_with_nan (ls : list fval) (acc : fval) :
  In NaN ls -> fold_left fadd ls acc = NaN.
Proof.
  revert acc. induction ls as [| l ls IH]; intros acc Hin; [destruct Hin |].
  destruct Hin as [-> | Hin].
  - cbn [fold_left]. rewrite fadd_nan_r. apply fold_nan.
  - cbn [fold_left]. now apply IH.
Qed.

(** X26.  The mean training loss of a completed epoch is the sum of the
    batch losses over the number of batches, and it is not-a-number as soon
    as one batch loss is: nothing in the loop notices such a batch. *)
Theorem nan_batch_makes_epoch_loss_nan
  (model_type : string) (m m' : Model) (steps0 steps' : nat)
  (loader : list Batch) (avg : fval) :
  train_one_epoch forward labels_of update model_type m steps0 loader
    = Some (m', avg, steps') ->
  avg = fdiv (fold_left fadd
                (trace model_type (mkProgress m (Fin 0) steps0) loader) (Fin 0))
             (Fin (INR (List.length loader)))
  /\ (In NaN (trace model_type (mkProgress m (Fin 0) steps0) loader) ->
      avg = NaN).
Proof.
  intros H. unfold train_one_epoch in H.
  destruct (loop model_type (mkProgress m (Fin 0) steps0) loader)
    as [st' |] eqn:El; [| discriminate].
  destruct (Nat.eqb (List.length loader) 0); [discriminate |].
  injection H as _ <- _.
  rewrite (trace_total _ _ _ El). cbn [total_loss].
  split; [reflexivity |].
  intros Hin. now rewrite (@fold_with_nan _ (Fin 0) Hin).
Qed.

End InnerFacts.


(** Under the Pearson loss the first of the two batches, whose outputs are
    constant, makes the mean loss of the epoch not-a-number. *)
Lemma nan_batch_makes_epoch_loss_nan_witness :
  exists avg,
    train_one_epoch (fun (_ : unit) (b : tensor * tensor) => fst b) snd
      (fun _ m _ => m) "siamese" tt 0 two_batches = Some (tt, avg, 2)
    /\ avg = NaN.
Proof.
  assert (HL : batch_loss "siamese" (finite [1; 1]%R) (finite [0; 1]%R)
               = Some NaN).
  { apply (@TensorFacts.zero_variance_nan [(1, 0); (1, 1)]%R).
    left. apply (@TensorFacts.constant_zero_variance _ fst 1%R).
    repeat constructor. }
  eexists. split; [reflexivity |].
  apply (proj2 (nan_batch_makes_epoch_loss_nan
                  (fun (_ : unit) (b : tensor * tensor) => fst b) snd
                  (fun _ m _ => m) "siamese" tt 0 two_batches eq_refl)).
  unfold two_batches. cbn [losses params fst snd]. rewrite HL.
  unfold batch_body at 1. cbn [params fst snd]. rewrite HL. now left.
Defined.

End EpochFacts.

(* ================================================================== *)
(** * Further properties: from the table to the items of the dataset *)
(* ================================================================== *)

Module STSFacts.

Import STS.
Open Scope nat_scope.

Lemma map_fst_combine_eq (A B : Type) (xs : list A) (ys : list B) :
  List.length xs = List.length ys -> map fst (combine xs ys) = xs.
Proof.
  revert ys. induction xs as [| x xs IH]; intros [| y ys] H;
    simpl in *; try reflexivity; try discriminate.
  f_equal. apply IH. lia.
Qed.

Lemma map_snd_combine_eq (A B : Type) (xs : list A) (ys : list B) :
  List.length xs = List.length ys -> map snd (combine xs ys) = ys.
Proof.
  revert ys. induction xs as [| x xs IH]; intros [| y ys] H;
    simpl in *; try reflexivity; try discriminate.
  f_equal. apply IH. lia.
Qed.

(** The columns of a rectangular table, read off its rows. *)
Lemma columns_of_rows (d : Ingest.Dataset) :
  rectangular d ->
  Ingest.sentence1 d = map (fun r => fst (fst r)) (rows d)
  /\ Ingest.sentence2 d = map (fun r => snd (fst r)) (rows d)
  /\ Ingest.score d = map snd (rows d)
  /\ List.length (rows d) = List.length (Ingest.score d).
Proof.
  intros [H1 H2]. unfold rows.
  assert (Hc : List.length (combine (Ingest.sentence1 d) (Ingest.sentence2 d))
               = List.length (Ingest.score d)).
  { rewrite length_combine. lia. }
  repeat split.
  - rewrite <- (map_map fst fst), map_fst_combine_eq by exact Hc.
    symmetry. apply map_fst_combine_eq. lia.
  - rewrite <- (map_map fst snd), map_fst_combine_eq by exact Hc.
    symmetry. apply map_snd_combine_eq. lia.
  - symmetry. now apply map_snd_combine_eq.
  - rewrite length_combine. lia.
Qed.

Lemma nth_error_all (A : Type) (l : list A) :
  map (nth_error l) (seq 0 (List.length l)) = map Some l.
Proof.
  induction l as [| x l IH]; [reflexivity |].
  cbn [List.length seq map nth_error]. f_equal.
  rewrite <- seq_shift, map_map. exact IH.
Qed.

Section Pipeline.

Variable wordpiece : string -> list Z.

Lemma getitem_of_rows (d : Ingest.Dataset) (idx : nat) :
  rectangular d ->
  getitem (tokenized_dataset wordpiece d) idx
  = option_map (item_of_row wordpiece) (nth_error (rows d) idx).
Proof.
  intros Hr. destruct (columns_of_rows Hr) as (H1 & H2 & H3 & _).
  unfold getitem, tokenized_dataset, Tokenizer.tokenize_function.
  cbn [input_ids1 attention_mask1 input_ids2 attention_mask2 score].
  rewrite H1, H2, H3, !map_map, !nth_error_map.
  destruct (nth_error (rows d) idx) as [r |]; reflexivity.
Qed.

(** X27.  For a table whose three columns have the same number of rows, the
    dataset handed to the loaders has one item per row, in the order of the
    rows; item [i] holds the unpadded encodings of the two sentences of row
    [i] and, as its label, the score of row [i] exactly as the table stores
    it; an index at or beyond the number of rows raises. *)
Theorem dataset_items_follow_rows (d : Ingest.Dataset) :
  rectangular d ->
  let data := tokenized_dataset wordpiece d in
  len data = List.length (Ingest.score d)
  /\ items data = map (fun r => Some (item_of_row wordpiece r)) (rows d)
  /\ (forall idx, getitem data idx = None <-> len data <= idx)
  /\ Forall (fun it => exists ex, it = Some ex
                                  /\ Collator.tokenized ex
                                  /\ In (Collator.labels ex) (Ingest.score d))
       (items data).
Proof.
  intros Hr data.
  destruct (columns_of_rows Hr) as (H1 & H2 & H3 & Hl).
  assert (Hlen : len data = List.length (rows d)).
  { unfold len, data, tokenized_dataset, Tokenizer.tokenize_function.
    cbn [input_ids1]. rewrite !length_map, Hl. apply Hr. }
  assert (Hitems : items data
                   = map (fun r => Some (item_of_row wordpiece r)) (rows d)).
  { unfold items. rewrite Hlen.
    rewrite (map_ext _ (fun i => option_map (item_of_row wordpiece)
                                   (nth_error (rows d) i)))
      by (intros i; now apply getitem_of_rows).
    rewrite <- (map_map (nth_error (rows d)) (option_map (item_of_row wordpiece))).
    rewrite nth_error_all, map_map. reflexivity. }
  split; [now rewrite Hlen |]. split; [exact Hitems |]. split.
  - intros idx. rewrite Hlen. unfold data. rewrite (getitem_of_rows idx Hr).
    rewrite <- nth_error_None.
    destruct (nth_error (rows d) idx); simpl; split; congruence.
  - rewrite Hitems. apply Forall_forall. intros it Hit.
    apply in_map_iff in Hit as (r & <- & Hin).
    exists (item_of_row wordpiece r). split; [reflexivity |]. split.
    + apply CollatorFacts.getitem_tokenized.
    + unfold item_of_row, Collator.getitem. cbn [Collator.labels].
      rewrite H3. now apply in_map.
Qed.

End Pipeline.

Lemma dataset_items_follow_rows_witness :
  items (tokenized_dataset Tokenizer.char_tokens
           (Ingest.mkDataset ["a"%string] ["b"%string] [4%Q]))
  = map (fun r => Some (item_of_row Tokenizer.char_tokens r))
      [("a"%string, "b"%string, 4%Q)].
Proof.
  apply (@dataset_items_follow_rows Tokenizer.char_tokens
           (Ingest.mkDataset ["a"%string] ["b"%string] [4%Q])).
  split; reflexivity.
Defined.

End STSFacts.

(* ================================================================== *)
(** * Further properties: the width of collated batches *)
(* ================================================================== *)

Module WidthBound.

Import Collator.
Open Scope nat_scope.

Lemma fold_max_le (A : Type) (f : A -> nat) (B : nat) (l : list A) :
  (forall x, In x l -> f x <= B) ->
  fold_right Nat.max 0 (map f l) <= B.
Proof.
  induction l as [| x l IH]; intros H; simpl; [lia |].
  pose proof (H x (or_introl eq_refl)).
  assert (fold_right Nat.max 0 (map f l) <= B)
    by (apply IH; intros y Hy; apply H; now right).
  lia.
Qed.

Lemma fold_max_ge (A : Type) (f : A -> nat) (x : A) (l : list A) :
  In x l -> f x <= fold_right Nat.max 0 (map f l).
Proof.
  induction l as [| y l IH]; intros Hin; [destruct Hin |].
  simpl. destruct Hin as [-> | Hin]; [lia |]. specialize (IH Hin). lia.
Qed.

Section Items.

Variable wordpiece : string -> list Z.

Lemma item_lengths (r : string * string * Q) :
  List.length (input_ids1 (STS.item_of_row wordpiece r))
    = Tokenizer.true_length wordpiece 128 (fst (fst r))
  /\ List.length (input_ids2 (STS.item_of_row wordpiece r))
    = Tokenizer.true_length wordpiece 128 (snd (fst r)).
Proof. split; reflexivity. Qed.

(** The batch-local maxima of tokenized rows lie between 2 and 128:
    truncation at tokenisation bounds them above, the two special tokens
    below. *)
Lemma maxima_between_2_and_128 (rs : list (string * string * Q)) :
  let examples := map (STS.item_of_row wordpiece) rs in
  Forall tokenized examples
  /\ max_length1 examples <= 128
  /\ max_length2 examples <= 128
  /\ (rs <> [] -> 2 <= max_length1 examples /\ 2 <= max_length2 examples).
Proof.
  intros examples. split; [| split; [| split]].
  - apply Forall_forall. intros ex Hex.
    apply in_map_iff in Hex as (r & <- & _).
    apply CollatorFacts.getitem_tokenized.
  - unfold max_length1. apply fold_max_le. intros ex Hex.
    apply in_map_iff in Hex as (r & <- & _).
    rewrite (proj1 (item_lengths r)).
    apply TokenizerFacts.true_length_bound.
  - unfold max_length2. apply fold_max_le. intros ex Hex.
    apply in_map_iff in Hex as (r & <- & _).
    rewrite (proj2 (item_lengths r)).
    apply TokenizerFacts.true_length_bound.
  - intros Hne. destruct rs as [| r rs']; [congruence |].
    assert (Hin : In (STS.item_of_row wordpiece r) examples) by now left.
    split.
    + pose proof (fold_max_ge (fun ex => List.length (input_ids1 ex)) _ _ Hin) as H.
      cbv beta in H.
      rewrite (proj1 (item_lengths r)),
        TokenizerFacts.true_length_value in H.
      unfold max_length1. lia.
    + pose proof (fold_max_ge (fun ex => List.length (input_ids2 ex)) _ _ Hin) as H.
      cbv beta in H.
      rewrite (proj2 (item_lengths r)),
        TokenizerFacts.true_length_value in H.
      unfold max_length2. lia.
Qed.

(** The rows of one side of a collated batch all have the side's
    batch-local maximum as their length. *)
Lemma collated_rows (examples : list Example) :
  Forall tokenized examples ->
  let batch := fst (data_collator examples) in
  Forall (fun row => List.length row = max_length1 examples)
    (b_input_ids1 batch ++ b_attention_mask1 batch)
  /\ Forall (fun row => List.length row = max_length2 examples)
       (b_input_ids2 batch ++ b_attention_mask2 batch).
Proof.
  intros Htok batch. rewrite Forall_forall in Htok.
  unfold batch, data_collator, call, padding_collator.
  cbn [fst b_input_ids1 b_attention_mask1 b_input_ids2 b_attention_mask2
       p_input_ids p_attention_mask].
  rewrite CollatorFacts.longest_side1, CollatorFacts.longest_side2.
  split.
  - apply (@CollatorFacts.padded_side _ input_ids1 attention_mask1 examples).
    + intros ex Hex. now apply CollatorFacts.max_length1_bound.
    + intros ex Hex. apply (Htok ex Hex).
  - apply (@CollatorFacts.padded_side _ input_ids2 attention_mask2 examples).
    + intros ex Hex. now apply CollatorFacts.max_length2_bound.
    + intros ex Hex. apply (Htok ex Hex).
Qed.

(** X28.  Whatever examples of the tokenized dataset are put in one
    batch, every row of the four tensors [data_collator] returns has
    between 2 and 128 cells, the rows of one side all having that side's
    batch-local maximum: truncation at tokenisation bounds the width
    above, the two special tokens below. *)
Theorem collated_width_between_2_and_128 (rs : list (string * string * Q)) :
  let examples := map (STS.item_of_row wordpiece) rs in
  let batch := fst (data_collator examples) in
  Forall (fun row => List.length row = max_length1 examples
                     /\ 2 <= List.length row <= 128)
    (b_input_ids1 batch ++ b_attention_mask1 batch)
  /\ Forall (fun row => List.length row = max_length2 examples
                        /\ 2 <= List.length row <= 128)
       (b_input_ids2 batch ++ b_attention_mask2 batch)
  /\ List.length (b_input_ids1 batch) = List.length rs
  /\ List.length (b_input_ids2 batch) = List.length rs.
Proof.
  intros examples batch.
  destruct (maxima_between_2_and_128 rs) as (Htok & H1 & H2 & Hlow).
  fold examples in Htok, H1, H2, Hlow.
  destruct (collated_rows Htok) as [R1 R2]. fold batch in R1, R2.
  assert (Hempty : rs = [] -> batch = fst (data_collator [])).
  { intros E. unfold batch, examples. now rewrite E. }
  split; [| split; [| split]].
  - apply Forall_forall. intros row Hrow.
    rewrite Forall_forall in R1. rewrite (R1 row Hrow).
    split; [reflexivity |].
    assert (Hrs : rs <> []).
    { intros E. rewrite (Hempty E) in Hrow. destruct Hrow. }
    destruct (Hlow Hrs). lia.
  - apply Forall_forall. intros row Hrow.
    rewrite Forall_forall in R2. rewrite (R2 row Hrow).
    split; [reflexivity |].
    assert (Hrs : rs <> []).
    { intros E. rewrite (Hempty E) in Hrow. destruct Hrow. }
    destruct (Hlow Hrs). lia.
  - unfold batch, data_collator, call, padding_collator, examples.
    cbn [fst b_input_ids1 p_input_ids]. now rewrite !length_map.
  - unfold batch, data_collator, call, padding_collator, examples.
    cbn [fst b_input_ids2 p_input_ids]. now rewrite !length_map.
Qed.

End Items.

End WidthBound.
